(** * crm_app.py: the record store, the load-time healing loop and the
      client / task / note handlers, as a shallow embedding.

    The Streamlit script is one module that runs top to bottom on every
    interaction.  What is embedded here is the part of it that touches the
    data: [load_data], [save_data], the module-level loop that fills in
    missing client fields, and the bodies of the button / form handlers;
    for the client detail view also what is drawn before the handlers, since
    drawing it can fail.  Widget values (the text typed into a form, the
    row whose button was pressed) are the arguments of the handlers.

    Documents are JSON values as Python's [json] module produces them;
    Python dictionaries keep insertion order, so they are association
    lists.  Numbers are integers: the application itself writes no other
    kind ([st.number_input] with integer bounds yields an [int]). *)

From Stdlib Require Import ZArith NArith String Ascii Bool Sorted Permutation.
From Stdlib Require Import DecimalString.
From stdpp Require Import base tactics option list strings.

Local Open Scope string_scope.
Local Open Scope list_scope.

(** ** JSON values and Python exceptions *)

#[warnings="-register-all"]
Inductive json : Type :=
| JNull
| JBool (b : bool)
| JNum (n : Z)
| JStr (s : string)
| JList (l : list json)
| JDict (d : list (string * json)).

Inductive exn : Type :=
| TypeError
| KeyError
| AttributeError
| ValueError
| IndexError
| JSONDecodeError
| UnicodeDecodeError
| OSError
| StreamlitAPIException.

Inductive result (A : Type) : Type :=
| Ok (a : A)
| Raise (e : exn).
Arguments Ok {A} a.
Arguments Raise {A} e.

Definition rbind {A B} (r : result A) (k : A -> result B) : result B :=
  match r with
  | Ok a => k a
  | Raise e => Raise e
  end.

Notation "'try!' x := r 'in' k" := (rbind r (fun x => k))
  (at level 10, x pattern, r at level 100, k at level 200).

(** ** Python dictionaries with string keys *)

Module Dict.

Definition t : Type := list (string * json).

(** [k in d] *)
Fixpoint mem (k : string) (d : t) : bool :=
  match d with
  | [] => false
  | (k', _) :: d' => if String.eqb k k' then true else mem k d'
  end.

(** [d.get(k)], [None] for a missing key *)
Fixpoint get (k : string) (d : t) : option json :=
  match d with
  | [] => None
  | (k', v) :: d' => if String.eqb k k' then Some v else get k d'
  end.

(** [d[k] = v]: an existing key keeps its position, a new key goes last *)
Fixpoint set (k : string) (v : json) (d : t) : t :=
  match d with
  | [] => [(k, v)]
  | (k', v') :: d' =>
      if String.eqb k k' then (k', v) :: d' else (k', v') :: set k v d'
  end.

Definition keys (d : t) : list string := map fst d.

End Dict.

(** ** The Python operators the script applies to loaded values *)

(** [a == b] on values decoded from JSON.  [bool] is a subclass of [int],
    so [True == 1]; dictionaries compare without regard to key order. *)
Fixpoint py_eq (a b : json) {struct a} : bool :=
  match a, b with
  | JNull, JNull => true
  | JBool x, JBool y => Bool.eqb x y
  | JBool x, JNum n => Z.eqb (Z.b2z x) n
  | JNum n, JBool y => Z.eqb n (Z.b2z y)
  | JNum m, JNum n => Z.eqb m n
  | JStr s, JStr t => String.eqb s t
  | JList l, JList l' =>
      (fix go (l l' : list json) {struct l} : bool :=
         match l, l' with
         | [], [] => true
         | x :: l, y :: l' => py_eq x y && go l l'
         | _, _ => false
         end) l l'
  | JDict d, JDict d' =>
      Nat.eqb (length d) (length d') &&
      (fix go (d : list (string * json)) {struct d} : bool :=
         match d with
         | [] => true
         | (k, v) :: d =>
             match Dict.get k d' with
             | Some v' => py_eq v v'
             | None => false
             end && go d
         end) d
  | _, _ => false
  end.

(** [bool(v)] *)
Definition py_truthy (v : json) : bool :=
  match v with
  | JNull => false
  | JBool b => b
  | JNum n => negb (Z.eqb n 0)
  | JStr s => negb (String.eqb s "")
  | JList l => match l with [] => false | _ => true end
  | JDict d => match d with [] => false | _ => true end
  end.

(** [needle in hay] on strings: substring search *)
Fixpoint str_contains (needle hay : string) : bool :=
  String.prefix needle hay ||
  match hay with
  | EmptyString => false
  | String _ hay' => str_contains needle hay'
  end.

(** ["k" in v] *)
Definition py_in (k : string) (v : json) : result bool :=
  match v with
  | JDict d => Ok (Dict.mem k d)
  | JList l => Ok (existsb (py_eq (JStr k)) l)
  | JStr s => Ok (str_contains k s)
  | JNull | JBool _ | JNum _ => Raise TypeError
  end.

(** [v["k"]] *)
Definition py_getitem (v : json) (k : string) : result json :=
  match v with
  | JDict d =>
      match Dict.get k d with
      | Some x => Ok x
      | None => Raise KeyError
      end
  | _ => Raise TypeError
  end.

(** [v["k"] = x], giving the updated object *)
Definition py_setitem (v : json) (k : string) (x : json) : result json :=
  match v with
  | JDict d => Ok (JDict (Dict.set k x d))
  | _ => Raise TypeError
  end.

(** [v.get("k", default)]: only dictionaries have the method *)
Definition py_get (v : json) (k : string) (default : json) : result json :=
  match v with
  | JDict d =>
      match Dict.get k d with
      | Some x => Ok x
      | None => Ok default
      end
  | _ => Raise AttributeError
  end.

(** [for x in v]: the items the loop visits *)
Definition py_iter (v : json) : result (list json) :=
  match v with
  | JList l => Ok l
  | JDict d => Ok (map JStr (Dict.keys d))
  | JStr s => Ok (map (fun c => JStr (String c EmptyString)) (list_ascii_of_string s))
  | JNull | JBool _ | JNum _ => Raise TypeError
  end.

(** ** The world outside the script: the file, the clock, the entropy *)

(** What [crm_data.json] holds, seen through [open] and [json.load]. *)
Inductive file_state : Type :=
| Absent                 (* [DB_FILE.exists()] is false *)
| Unreadable             (* [open] raises [OSError] *)
| Garbled                (* bytes that are not text: reading raises [UnicodeDecodeError] *)
| Malformed              (* text that [json.load] rejects with [JSONDecodeError] *)
| Stored (v : json).     (* text that [json.load] decodes to [v] *)

Record datetime : Type := {
  year : nat; month : nat; day : nat; hour : nat; minute : nat
}.

(** What [st.success], [st.error], [st.warning] put on the page: the text
    of the message with the value formatted into it, if any. *)
Inductive level : Type := Success | Error | Warning.

Record notice : Type := {
  notice_level : level;
  notice_text : string;
  notice_arg : option json
}.

Record world : Type := {
  db_file : file_state;
  clock : datetime;         (* [datetime.now()] during this run *)
  urandom : nat -> N;       (* the k-th 128-bit draw of [os.urandom(16)] *)
  drawn : nat;              (* how many draws were made so far *)
  shown : list notice       (* messages on the page, oldest first *)
}.

Definition M (A : Type) : Type := world -> result (A * world).

Definition ret {A} (a : A) : M A := fun w => Ok (a, w).
Definition bind {A B} (m : M A) (k : A -> M B) : M B :=
  fun w => match m w with
           | Ok (a, w') => k a w'
           | Raise e => Raise e
           end.
Definition lift {A} (r : result A) : M A :=
  fun w => match r with Ok a => Ok (a, w) | Raise e => Raise e end.

Notation "'do!' x := m 'in' k" := (bind m (fun x => k))
  (at level 10, x pattern, m at level 100, k at level 200).

(** *** [datetime.now().strftime(...)] *)

Definition digit_char (n : N) : ascii :=
  ascii_of_N (if N.ltb n 10 then 48 + n else 87 + n).

(** [k] digits of [n] in base [b], most significant first, zero padded *)
Fixpoint fixed_digits (b : N) (k : nat) (n : N) : string :=
  match k with
  | O => EmptyString
  | S k' => fixed_digits b k' (N.div n b) +:+ String (digit_char (N.modulo n b)) EmptyString
  end.

(** [t.strftime("%Y-%m-%d")].  [%m] and [%d] are two digits; [%Y] is the
    year as the C library prints it, which on Linux is the plain decimal
    number: a year below 1000 comes out with fewer than four digits
    (["999-03-09"]). *)
Definition strftime_ymd (t : datetime) : string :=
  NilZero.string_of_uint (Nat.to_uint (year t)) +:+ "-" +:+
  fixed_digits 10 2 (N.of_nat (month t)) +:+ "-" +:+
  fixed_digits 10 2 (N.of_nat (day t)).

Definition strftime_ymd_hm (t : datetime) : string :=
  strftime_ymd t +:+ " " +:+
  fixed_digits 10 2 (N.of_nat (hour t)) +:+ ":" +:+
  fixed_digits 10 2 (N.of_nat (minute t)).

Definition now : M datetime := fun w => Ok (clock w, w).

Definition st_show (l : level) (text : string) (arg : option json) : M unit :=
  fun w => Ok (tt,
               {| db_file := db_file w; clock := clock w; urandom := urandom w;
                  drawn := drawn w;
                  shown := shown w ++ [{| notice_level := l; notice_text := text;
                                          notice_arg := arg |}] |}).

(** *** [str(uuid.uuid4())[:8]] *)

(** [uuid.UUID(bytes=os.urandom(16), version=4).int] *)
Definition uuid4_int (r : N) : N :=
  let i := N.modulo r (2 ^ 128) in
  let i := N.ldiff i (N.shiftl 49152 48) in
  let i := N.lor i (N.shiftl 32768 48) in
  let i := N.ldiff i (N.shiftl 61440 64) in
  N.lor i (N.shiftl 4 76).

(** [str(u)]: 32 hex digits grouped 8-4-4-4-12 *)
Definition uuid_str (i : N) : string :=
  let hex := fixed_digits 16 32 i in
  substring 0 8 hex +:+ "-" +:+ substring 8 4 hex +:+ "-" +:+
  substring 12 4 hex +:+ "-" +:+ substring 16 4 hex +:+ "-" +:+
  substring 20 12 hex.

Definition short_id (r : N) : string := substring 0 8 (uuid_str (uuid4_int r)).

Definition mint_id : M string :=
  fun w => Ok (short_id (urandom w (drawn w)),
               {| db_file := db_file w; clock := clock w; urandom := urandom w;
                  drawn := S (drawn w); shown := shown w |}).

(** ** Record store: [load_data] and [save_data] *)

Definition empty_document : json := JDict [("clients", JList [])].

(** [DB_FILE.exists()] *)
Definition file_exists (f : file_state) : bool :=
  match f with
  | Absent => false
  | _ => true
  end.

(** [with open(DB_FILE, "r") as file: json.load(file)] *)
Definition json_load (f : file_state) : result json :=
  match f with
  | Absent => Raise OSError
  | Unreadable => Raise OSError
  | Garbled => Raise UnicodeDecodeError
  | Malformed => Raise JSONDecodeError
  | Stored v => Ok v
  end.

(** The membership test sits inside the [try]; the handler names
    [json.JSONDecodeError] alone, so every other exception leaves
    [load_data]. *)
Definition load_data : M json :=
  fun w =>
    if file_exists (db_file w) then
      match (try! data := json_load (db_file w) in
             try! has := py_in "clients" data in
             Ok (if has then data else empty_document)) with
      | Ok data => Ok (data, w)
      | Raise JSONDecodeError => Ok (empty_document, w)
      | Raise e => Raise e
      end
    else Ok (empty_document, w).

Definition write_db (v : json) (w : world) : world :=
  {| db_file := Stored v; clock := clock w; urandom := urandom w;
     drawn := drawn w; shown := shown w |}.

(** [json.dump(data, file, indent=4)] into the file opened with ["w"]: the
    file then decodes to [data]. *)
Definition save_data (data : json) : M unit :=
  fun w =>
    try! has := py_in "clients" data in
    let data := if has then data else empty_document in
    Ok (tt, write_db data w).

(** ** Module level: load the clients and fill in missing fields *)

(** [if k not in client: client[k] = <value>] *)
Definition default_field (k : string) (value : M json) (client : json) : M json :=
  do! has := lift (py_in k client) in
  if has then ret client
  else do! v := value in lift (py_setitem client k v).

(** One pass of the loop body. *)
Definition heal_client (client : json) : M json :=
  do! client := default_field "date_added"
                  (do! t := now in ret (JStr (strftime_ymd t))) client in
  do! client := default_field "value" (ret (JNum 0)) client in
  do! client := default_field "source" (ret (JStr "Direct")) client in
  do! has_id := lift (py_in "id" client) in
  do! stale :=
    (if has_id
     then do! v := lift (py_getitem client "id") in ret (negb (py_truthy v))
     else ret true) in
  do! client :=
    (if stale
     then do! i := mint_id in lift (py_setitem client "id" (JStr i))
     else ret client) in
  do! client := default_field "follow_up_date" (ret (JStr "")) client in
  default_field "tags" (ret (JList [])) client.

Fixpoint mapM {A B} (f : A -> M B) (l : list A) : M (list B) :=
  match l with
  | [] => ret []
  | x :: l' => do! y := f x in do! ys := mapM f l' in ret (y :: ys)
  end.

(** [for client in clients: ...].  The dictionaries are changed in place, so
    a list comes back with its items healed; iterating a dictionary or a
    string visits keys or characters, which the body cannot assign into. *)
Definition heal_clients (clients : json) : M json :=
  do! items := lift (py_iter clients) in
  do! healed := mapM heal_client items in
  ret (match clients with
       | JList _ => JList healed
       | _ => clients
       end).

(** Lines 65-81: what every run of the script does first. *)
Definition startup : M json :=
  do! data := load_data in
  do! clients := lift (py_get data "clients" (JList [])) in
  heal_clients clients.

(** ** Handlers

    After the first tab has run, [clients] is a Python list (the result of
    [sorted]).  A handler gives back the value of [clients] when it is done
    and whether it ended the run with [st.rerun()]. *)

Inductive flow : Type := Continue | Rerun.

(** Results of comprehensions and generators whose test may raise. *)
Fixpoint filter_r {A} (p : A -> result bool) (l : list A) : result (list A) :=
  match l with
  | [] => Ok []
  | x :: l' =>
      try! keep := p x in
      try! rest := filter_r p l' in
      Ok (if keep then x :: rest else rest)
  end.

Fixpoint map_r {A B} (f : A -> result B) (l : list A) : result (list B) :=
  match l with
  | [] => Ok []
  | x :: l' =>
      try! y := f x in
      try! ys := map_r f l' in
      Ok (y :: ys)
  end.

(** [next(((i, x) for i, x in enumerate(l) if p(x)), None)], counting from
    [i]: the search stops at the first hit, so later items are not tested. *)
Fixpoint find_first {A} (p : A -> result bool) (i : nat) (l : list A)
  : result (option (nat * A)) :=
  match l with
  | [] => Ok None
  | x :: l' =>
      try! hit := p x in
      if hit then Ok (Some (i, x)) else find_first p (S i) l'
  end.

(** [next((c for c in clients if c["id"] == wanted), None)], with the place
    of the client in the list: the dictionary found is the one later
    assignments change. *)
Definition find_client (clients : list json) (wanted : json)
  : result (option (nat * json)) :=
  find_first (fun c => try! v := py_getitem c "id" in Ok (py_eq v wanted)) 0 clients.

Definition clients_document (clients : list json) : json :=
  JDict [("clients", JList clients)].

(** *** Clients tab: the edit form (lines 250-261) *)

Record client_form : Type := {
  new_name : string;
  new_phone : string;
  new_email : string;
  new_status : string;
  new_value : Z;
  new_source : string;
  new_tags : list string;
  new_follow_up : datetime
}.

Definition assign_form (selected_client : json) (f : client_form) : result json :=
  try! c := py_setitem selected_client "name" (JStr (new_name f)) in
  try! c := py_setitem c "phone" (JStr (new_phone f)) in
  try! c := py_setitem c "email" (JStr (new_email f)) in
  try! c := py_setitem c "status" (JStr (new_status f)) in
  try! c := py_setitem c "value" (JNum (new_value f)) in
  try! c := py_setitem c "source" (JStr (new_source f)) in
  try! c := py_setitem c "tags" (JList (map JStr (new_tags f))) in
  py_setitem c "follow_up_date" (JStr (strftime_ymd (new_follow_up f))).

(** *** Clients tab: the detail view (lines 212-271)

    Everything below [if selected_client:] runs in order on every run
    that finds the client: the profile, the edit form with its defaults
    taken from the record, the update, the delete section.  The texts
    drawn are not kept; what is kept is where drawing them raises. *)

(** [f"{v:,}"]: numbers take the thousands separator, strings refuse it
    with [ValueError], everything else has no such format. *)
Definition py_format_thousands (v : json) : result unit :=
  match v with
  | JNum _ | JBool _ => Ok tt
  | JStr _ => Raise ValueError
  | JNull | JList _ | JDict _ => Raise TypeError
  end.

Definition is_str (v : json) : bool :=
  match v with
  | JStr _ => true
  | _ => false
  end.

(** [", ".join(v)]: the items visited must all be strings. *)
Definition py_join (v : json) : result unit :=
  match v with
  | JList l => if forallb is_str l then Ok tt else Raise TypeError
  | JStr _ | JDict _ => Ok tt
  | JNull | JBool _ | JNum _ => Raise TypeError
  end.

(** [options.index(v)], counting from [i] *)
Fixpoint list_index (options : list string) (v : json) (i : nat) : result nat :=
  match options with
  | [] => Raise ValueError
  | o :: rest => if py_eq (JStr o) v then Ok i else list_index rest v (S i)
  end.

(** [v in options] *)
Definition among (options : list string) (v : json) : bool :=
  existsb (fun o => py_eq (JStr o) v) options.

Definition status_options : list string := ["Lead"; "Active"; "Inactive"].

Definition source_options : list string :=
  ["Direct"; "Referral"; "Website"; "Social Media"; "Event"; "Other"].

Definition tag_options : list string :=
  ["VIP"; "New"; "Priority"; "Follow-up"; "Onboarding"; "Long-term"].

(** Two widgets of the edit form are given a default next to a bound or a
    list of options, and Streamlit refuses a default that does not fit:
    [st.number_input(min_value=m, value=v)] a number below [m], and
    [st.multiselect(options, default=v)] a default that is not among the
    options (a default that is no list stands for its items, or for
    itself). *)
Definition number_input_default (min_value : Z) (v : json) : result unit :=
  match v with
  | JNum n => if Z.ltb n min_value then Raise StreamlitAPIException else Ok tt
  | JBool b => if Z.ltb (Z.b2z b) min_value then Raise StreamlitAPIException else Ok tt
  | JNull => Ok tt
  | JStr _ | JList _ | JDict _ => Raise StreamlitAPIException
  end.

Definition multiselect_default (options : list string) (v : json) : result unit :=
  let items := match v with
               | JList l => l
               | JDict d => map JStr (Dict.keys d)
               | JNull => []
               | JBool _ | JNum _ | JStr _ => [v]
               end in
  if forallb (among options) items then Ok tt else Raise StreamlitAPIException.

(** **** [datetime.strptime(s, "%Y-%m-%d")]

    The format is matched as the regular expression
    [(\d\d\d\d)-(1[0-2]|0[1-9]|[1-9])-(3[01]|[12]\d|0[1-9]|[1-9]| [1-9])]
    from the start of the text, alternatives tried in order; text left
    over after the match, and a day the month does not have, are
    [ValueError]s like a failed match. *)

Definition char_class : Type := ascii -> bool.

Definition between (lo hi : ascii) : char_class :=
  fun c => Nat.leb (nat_of_ascii lo) (nat_of_ascii c)
           && Nat.leb (nat_of_ascii c) (nat_of_ascii hi).

Definition exactly (x : ascii) : char_class := fun c => Ascii.eqb c x.

Definition digit : char_class := between "0" "9".

(** The characters a sequence of classes matches at the start of [s], and
    the rest of [s]. *)
Fixpoint match_seq (p : list char_class) (s : list ascii)
  : option (list ascii * list ascii) :=
  match p with
  | [] => Some ([], s)
  | cl :: p' =>
      match s with
      | c :: s' =>
          if cl c then
            match match_seq p' s' with
            | Some (m, rest) => Some (c :: m, rest)
            | None => None
            end
          else None
      | [] => None
      end
  end.

(** [(a1|a2|...)] followed by [k]: the first alternative with which the
    rest of the expression matches too. *)
Fixpoint match_alt {A} (alts : list (list char_class)) (s : list ascii)
    (k : list ascii -> list ascii -> option A) : option A :=
  match alts with
  | [] => None
  | p :: alts' =>
      match match_seq p s with
      | Some (m, rest) =>
          match k m rest with
          | Some r => Some r
          | None => match_alt alts' s k
          end
      | None => match_alt alts' s k
      end
  end.

Definition year_regex : list (list char_class) := [[digit; digit; digit; digit]].

Definition month_regex : list (list char_class) :=
  [ [exactly "1"; between "0" "2"]; [exactly "0"; between "1" "9"]; [between "1" "9"] ].

Definition day_regex : list (list char_class) :=
  [ [exactly "3"; between "0" "1"]; [between "1" "2"; digit];
    [exactly "0"; between "1" "9"]; [between "1" "9"];
    [exactly " "; between "1" "9"] ].

(** [int(m)] for matched text, a space counting as nothing *)
Definition int_of (m : list ascii) : nat :=
  fold_left (fun n c => if digit c then 10 * n + (nat_of_ascii c - 48) else n) m 0.

Definition is_leap (y : nat) : bool :=
  (Nat.eqb (y mod 4) 0 && negb (Nat.eqb (y mod 100) 0)) || Nat.eqb (y mod 400) 0.

Definition days_in_month (y m : nat) : nat :=
  match m with
  | 2 => if is_leap y then 29 else 28
  | 4 | 6 | 9 | 11 => 30
  | _ => 31
  end.

Definition strptime_ymd (v : json) : result datetime :=
  match v with
  | JStr s =>
      match match_alt year_regex (list_ascii_of_string s) (fun y rest =>
              match_alt [[exactly "-"]] rest (fun _ rest =>
                match_alt month_regex rest (fun m rest =>
                  match_alt [[exactly "-"]] rest (fun _ rest =>
                    match_alt day_regex rest (fun d rest =>
                      Some (int_of y, int_of m, int_of d, rest)))))) with
      | Some (y, m, d, []) =>
          if Nat.leb 1 y && Nat.leb d (days_in_month y m)
          then Ok {| year := y; month := m; day := d; hour := 0; minute := 0 |}
          else Raise ValueError
      | Some (_, _, _, _ :: _) => Raise ValueError
      | None => Raise ValueError
      end
  | _ => Raise TypeError
  end.

Arguments strptime_ymd : simpl never.

(** Lines 216-225: the profile. *)
Definition show_profile (selected_client : json) : result unit :=
  try! _ := py_getitem selected_client "name" in
  try! _ := py_getitem selected_client "email" in
  try! _ := py_getitem selected_client "phone" in
  try! _ := py_getitem selected_client "status" in
  try! value := py_get selected_client "value" (JNum 0) in
  try! _ := py_format_thousands value in
  try! _ := py_get selected_client "follow_up_date" (JStr "") in
  try! tags := py_get selected_client "tags" (JList []) in
  py_join tags.

(** Lines 239-246: the defaults the widgets of the edit form are given.
    The widgets hand back what the user entered, which is the
    [client_form] of the update below. *)
Definition edit_form_defaults (selected_client : json) : M unit :=
  do! _ := lift (py_getitem selected_client "name") in
  do! _ := lift (py_getitem selected_client "phone") in
  do! _ := lift (py_getitem selected_client "email") in
  do! status := lift (py_getitem selected_client "status") in
  do! _ := lift (list_index status_options status 0) in
  do! value := lift (py_get selected_client "value" (JNum 0)) in
  do! _ := lift (number_input_default 0 value) in
  do! source := lift (py_get selected_client "source" (JStr "Direct")) in
  do! _ := lift (list_index source_options source 0) in
  do! tags := lift (py_get selected_client "tags" (JList [])) in
  do! _ := lift (multiselect_default tag_options tags) in
  do! stored := lift (py_get selected_client "follow_up_date" JNull) in
  if py_truthy stored then
    do! t := now in
    do! text := lift (py_get selected_client "follow_up_date" (JStr (strftime_ymd t))) in
    do! _ := lift (strptime_ymd text) in
    ret tt
  else
    do! _ := now in
    ret tt.

(** Lines 212-271.  [update] holds the values of the edit form in the run
    in which the form was submitted; [confirm_delete] and [delete_button]
    are the text field and the button of the delete section.  The three
    quick-action buttons of lines 229-234 only show an [st.info] with
    fields the profile has read already. *)
Definition client_details (clients : list json) (selected_id : string)
    (update : option client_form) (confirm_delete : string) (delete_button : bool)
  : M (list json * flow) :=
  do! sel := lift (find_client clients (JStr selected_id)) in
  match sel with
  | Some (i, selected_client) =>
      if py_truthy selected_client then
        do! _ := lift (show_profile selected_client) in
        do! _ := edit_form_defaults selected_client in
        match update with
        | Some f =>
            do! c := lift (assign_form selected_client f) in
            let clients := <[i := c]> clients in
            do! _ := save_data (clients_document clients) in
            do! _ := st_show Success "Client updated successfully!" None in
            ret (clients, Rerun)
        | None =>
            do! name := lift (py_getitem selected_client "name") in
            do! _ := st_show Warning "Are you sure you want to delete {}?" (Some name) in
            if delete_button && py_eq (JStr confirm_delete) name then
              do! clients :=
                lift (filter_r (fun c => try! v := py_getitem c "id" in
                                         Ok (negb (py_eq v (JStr selected_id)))) clients) in
              do! _ := save_data (clients_document clients) in
              do! _ := st_show Error "Client {} deleted." (Some name) in
              ret (clients, Rerun)
            else ret (clients, Continue)
        end
      else ret (clients, Continue)
  | None => ret (clients, Continue)
  end.

(** A run in which the edit form is submitted or not. *)
Definition update_client (clients : list json) (selected_id : string)
    (update_button : bool) (f : client_form) : M (list json * flow) :=
  client_details clients selected_id (if update_button then Some f else None) "" false.

(** A run in which the edit form is not submitted and the delete section
    holds [confirm_delete] and [button]. *)
Definition delete_client (clients : list json) (selected_id : string)
    (confirm_delete : string) (button : bool) : M (list json * flow) :=
  client_details clients selected_id None confirm_delete button.

(** *** Tasks tab: the flattened list (lines 279-280) and its sort (309-311) *)

(** A row of [all_tasks]: the dictionary literal always has these six keys. *)
Record task_row : Type := {
  client_id : json;
  client_name : json;
  task : json;
  completed : json;
  due_date : json;
  priority : json
}.

Definition task_rows_of (c : json) : result (list task_row) :=
  try! tasks := py_get c "tasks" (JList []) in
  try! items := py_iter tasks in
  map_r (fun t =>
           try! cid := py_getitem c "id" in
           try! cname := py_getitem c "name" in
           try! desc := py_getitem t "task" in
           try! done := py_get t "completed" (JBool false) in
           try! due := py_get t "due_date" (JStr "") in
           try! prio := py_get t "priority" (JStr "Medium") in
           Ok {| client_id := cid; client_name := cname; task := desc;
                 completed := done; due_date := due; priority := prio |}) items.

Definition all_tasks (clients : list json) : result (list task_row) :=
  try! rows := map_r task_rows_of clients in
  Ok (concat rows).

(** [priority_order = {"High": 0, "Medium": 1, "Low": 2}] *)
Definition priority_order : list (string * nat) :=
  [("High", 0); ("Medium", 1); ("Low", 2)].

Fixpoint table_get (k : string) (t : list (string * nat)) : option nat :=
  match t with
  | [] => None
  | (k', n) :: t' => if String.eqb k k' then Some n else table_get k t'
  end.

(** [priority_order.get(p, 1)]: the key is hashed first, which lists and
    dictionaries refuse; of the other values only strings can be keys of
    this table. *)
Definition priority_rank (p : json) : result nat :=
  match p with
  | JStr s => Ok (default 1 (table_get s priority_order))
  | JList _ | JDict _ => Raise TypeError
  | JNull | JBool _ | JNum _ => Ok 1
  end.

(** [lambda x: priority_order.get(x.get("priority", "Medium"), 1)] *)
Definition priority_key (x : task_row) : result nat := priority_rank (priority x).

(** [sorted(l, key=key)] for integer keys.  The keys are computed once, in
    order; the sort is stable, which fixes the result: each item goes in
    front of the first later item with a key at least as large. *)
Fixpoint insert_keyed {A} (k : nat) (x : A) (l : list (nat * A)) : list (nat * A) :=
  match l with
  | [] => [(k, x)]
  | (k', y) :: l' =>
      if Nat.leb k k' then (k, x) :: (k', y) :: l' else (k', y) :: insert_keyed k x l'
  end.

Fixpoint sort_keyed {A} (l : list (nat * A)) : list (nat * A) :=
  match l with
  | [] => []
  | (k, x) :: l' => insert_keyed k x (sort_keyed l')
  end.

Definition sorted_by {A} (key : A -> result nat) (l : list A) : result (list A) :=
  try! keyed := map_r (fun x => try! k := key x in Ok (k, x)) l in
  Ok (map snd (sort_keyed keyed)).

Definition sort_by_priority (filtered_tasks : list task_row) : result (list task_row) :=
  sorted_by priority_key filtered_tasks.

(** *** Tasks tab: the delete button of a row (lines 346-354) *)

(** [v.pop(j)] *)
Definition py_pop (v : json) (j : nat) : result json :=
  match v with
  | JList l => if Nat.ltb j (length l) then Ok (JList (delete j l)) else Raise IndexError
  | JDict _ => Raise KeyError
  | _ => Raise AttributeError
  end.

Definition delete_task (clients : list json) (row : task_row) : M (list json * flow) :=
  do! sel := lift (find_client clients (client_id row)) in
  match sel with
  | Some (i, client) =>
      if py_truthy client then
        do! tasks := lift (py_get client "tasks" (JList [])) in
        do! items := lift (py_iter tasks) in
        do! hit := lift (find_first (fun t => try! d := py_getitem t "task" in
                                              Ok (py_eq d (task row))) 0 items) in
        match hit with
        | Some (task_idx, _) =>
            do! tasks := lift (py_getitem client "tasks") in
            do! tasks := lift (py_pop tasks task_idx) in
            do! client := lift (py_setitem client "tasks" tasks) in
            let clients := <[i := client]> clients in
            do! _ := save_data (clients_document clients) in
            ret (clients, Rerun)
        | None => ret (clients, Continue)
        end
      else ret (clients, Continue)
  | None => ret (clients, Continue)
  end.

(** *** Notes tab: the add-note form (lines 408-421) *)

(** [v.insert(0, x)] *)
Definition py_insert0 (v : json) (x : json) : result json :=
  match v with
  | JList l => Ok (JList (x :: l))
  | _ => Raise AttributeError
  end.

Definition add_note (clients : list json) (selected_client_id : string)
    (note_submit : bool) (note_text : string) : M (list json * flow) :=
  do! sel := lift (find_client clients (JStr selected_client_id)) in
  match sel with
  | Some (i, selected_client) =>
      if py_truthy selected_client && (note_submit && py_truthy (JStr note_text)) then
        do! c := default_field "notes" (ret (JList [])) selected_client in
        do! t := now in
        do! nid := mint_id in
        let new_note := JDict [("text", JStr note_text);
                               ("date", JStr (strftime_ymd_hm t));
                               ("id", JStr nid)] in
        do! notes := lift (py_getitem c "notes") in
        do! notes := lift (py_insert0 notes new_note) in
        do! c := lift (py_setitem c "notes" notes) in
        let clients := <[i := c]> clients in
        do! _ := save_data (clients_document clients) in
        do! _ := st_show Success "Note added!" None in
        ret (clients, Rerun)
      else ret (clients, Continue)
  | None => ret (clients, Continue)
  end.

(** *** Dashboard tab: key metrics (lines 447-451) and the pie data (467) *)

(** [sum(1 for c in clients if c["status"] == label)] *)
Definition count_status (label : string) (clients : list json) : result nat :=
  try! hits := filter_r (fun c => try! s := py_getitem c "status" in
                                  Ok (py_eq s (JStr label))) clients in
  Ok (length hits).

(** [0 + v] and so on: integers and booleans add, everything else that JSON
    can hold does not add to an integer. *)
Definition py_add_int (acc : Z) (v : json) : result Z :=
  match v with
  | JNum n => Ok (acc + n)%Z
  | JBool b => Ok (acc + Z.b2z b)%Z
  | _ => Raise TypeError
  end.

(** [sum(c.get("value", 0) for c in clients)], the running total in [acc] *)
Fixpoint sum_values (acc : Z) (clients : list json) : result Z :=
  match clients with
  | [] => Ok acc
  | c :: rest =>
      try! v := py_get c "value" (JNum 0) in
      try! acc := py_add_int acc v in
      sum_values acc rest
  end.

Record metrics : Type := {
  num_clients : nat;
  num_leads : nat;
  num_active : nat;
  num_inactive : nat;
  total_value : Z;
  status_counts : list (string * nat)
}.

Definition dashboard (clients : list json) : result metrics :=
  try! leads := count_status "Lead" clients in
  try! active := count_status "Active" clients in
  try! inactive := count_status "Inactive" clients in
  try! total := sum_values 0 clients in
  Ok {| num_clients := length clients;
        num_leads := leads;
        num_active := active;
        num_inactive := inactive;
        total_value := total;
        status_counts := [("Lead", leads); ("Active", active); ("Inactive", inactive)] |}.

(** ** Notions used in the statements *)

(** A top-level document of the minimal shape: an object whose [clients]
    field holds a list. *)
Definition minimal_shape (v : json) : bool :=
  match v with
  | JDict d =>
      match Dict.get "clients" d with
      | Some (JList _) => true
      | _ => false
      end
  | _ => false
  end.

(** The client sequence of a document, when it has one. *)
Definition clients_of (v : json) : option (list json) :=
  match v with
  | JDict d =>
      match Dict.get "clients" d with
      | Some (JList l) => Some l
      | _ => None
      end
  | _ => None
  end.

(** Two JSON texts that are no client documents: the array [["clients"]]
    and the object [{"clients": 5}]. *)
Definition array_document : json := JList [JStr "clients"].
Definition numbered_document : json := JDict [("clients", JNum 5)].

(** The loop mints an id for a record whose [id] is missing or falsy. *)
Definition id_stale (d : Dict.t) : bool :=
  match Dict.get "id" d with
  | Some v => negb (py_truthy v)
  | None => true
  end.

(** How many ids the loop has minted before it reaches record [i]. *)
Definition minted_before (i : nat) (stored : list Dict.t) : nat :=
  length (filter (fun d => id_stale d = true) (take i stored)).

Definition set_default (k : string) (v : json) (d : Dict.t) : Dict.t :=
  if Dict.mem k d then d else Dict.set k v d.

(** The record the loop body leaves, given today's date and the next id. *)
Definition healed_dict (today fresh : string) (d : Dict.t) : Dict.t :=
  let d := set_default "date_added" (JStr today) d in
  let d := set_default "value" (JNum 0) d in
  let d := set_default "source" (JStr "Direct") d in
  let d := if id_stale d then Dict.set "id" (JStr fresh) d else d in
  let d := set_default "follow_up_date" (JStr "") d in
  set_default "tags" (JList []) d.

(** A record the loop has nothing to add to. *)
Definition is_healed (d : Dict.t) : bool :=
  Dict.mem "date_added" d && Dict.mem "value" d && Dict.mem "source" d
  && negb (id_stale d) && Dict.mem "follow_up_date" d && Dict.mem "tags" d.

Definition advance (n : nat) (w : world) : world :=
  {| db_file := db_file w; clock := clock w; urandom := urandom w;
     drawn := n + drawn w; shown := shown w |}.

Fixpoint healed_list (w : world) (stored : list Dict.t) : list Dict.t :=
  match stored with
  | [] => []
  | d :: rest =>
      healed_dict (strftime_ymd (clock w)) (short_id (urandom w (drawn w))) d
      :: healed_list (if id_stale d then advance 1 w else w) rest
  end.

(** A world to run examples in. *)
Definition sample_world (f : file_state) : world :=
  {| db_file := f;
     clock := {| year := 2024; month := 1; day := 5; hour := 9; minute := 30 |};
     urandom := fun k => (0x0123456789abcdef0123456789abcdef * N.of_nat (S k))%N;
     drawn := 0;
     shown := [] |}.

Fixpoint after_healing (w : world) (stored : list Dict.t) : world :=
  match stored with
  | [] => w
  | d :: rest => after_healing (if id_stale d then advance 1 w else w) rest
  end.

Definition sample_stored : list Dict.t :=
  [ [("name", JStr "Ana")];
    [("id", JStr ""); ("name", JStr "Bob"); ("value", JNum 7)];
    [("id", JStr "keepme01"); ("tags", JList [JStr "VIP"])] ].

Definition sample_document : Dict.t :=
  [("clients", JList (map JDict sample_stored))].

(** A record with every key the add-client form writes (lines 100-113),
    in that order. *)
Definition client_record (id name status added : string) (value : Z)
    (tasks notes : list json) : json :=
  JDict [("id", JStr id); ("name", JStr name); ("phone", JStr "555-0100");
         ("email", JStr "office@x.com"); ("status", JStr status);
         ("tasks", JList tasks); ("notes", JList notes);
         ("date_added", JStr added); ("value", JNum value);
         ("source", JStr "Direct"); ("tags", JList []);
         ("follow_up_date", JStr "2024-02-01")].

Definition old_note : json :=
  JDict [("text", JStr "met at fair"); ("date", JStr "2024-01-02 10:00");
         ("id", JStr "0a0b0c0d")].

(** Two clients, newest first, as the first tab leaves the list. *)
Definition sample_clients : list json :=
  [ client_record "a1b2c3d4" "Ana" "Lead" "2024-01-03" 0 [] [];
    client_record "e5f6a7b8" "Bob" "Active" "2024-01-02" 500 [] [old_note] ].

Definition sample_form : client_form :=
  {| new_name := "Robert"; new_phone := "555-3333"; new_email := "rob@x.com";
     new_status := "Inactive"; new_value := 900; new_source := "Referral";
     new_tags := ["Priority"];
     new_follow_up := {| year := 2024; month := 3; day := 9; hour := 0; minute := 0 |} |}.




(** [c] is a record whose [id] equals the selected one. *)
Definition has_id (selected_id : string) (c : json) : bool :=
  match c with
  | JDict d =>
      match Dict.get "id" d with
      | Some v => py_eq v (JStr selected_id)
      | None => false
      end
  | _ => false
  end.

(** [c] is a record that has an [id] at all, as every record has after the
    healing loop. *)
Definition is_record (c : json) : bool :=
  match c with
  | JDict d => Dict.mem "id" d
  | _ => false
  end.




(** The notes a record holds: none yet, or a list. *)
Definition notes_of (d : Dict.t) : option (list json) :=
  match Dict.get "notes" d with
  | None => Some []
  | Some (JList l) => Some l
  | Some _ => None
  end.

(** The note that submitting [text] builds in world [w]. *)
Definition new_note (text : string) (w : world) : json :=
  JDict [("text", JStr text);
         ("date", JStr (strftime_ymd_hm (clock w)));
         ("id", JStr (short_id (urandom w (drawn w))))].

Definition say_note_added (w : world) : world :=
  {| db_file := db_file w; clock := clock w; urandom := urandom w; drawn := drawn w;
     shown := shown w ++ [{| notice_level := Success; notice_text := "Note added!";
                             notice_arg := None |}] |}.

(** Values Python can hash, hence look up in [priority_order]. *)
Definition hashable (p : json) : bool :=
  match p with
  | JList _ | JDict _ => false
  | _ => true
  end.

(** The sort key of a row (1 in the one case where the key raises). *)
Definition rank_of (x : task_row) : nat :=
  match priority_key x with
  | Ok n => n
  | Raise _ => 1
  end.

Definition has_priority (label : string) (x : task_row) : bool :=
  py_eq (priority x) (JStr label).

Definition sample_row (who what prio : string) : task_row :=
  {| client_id := JStr "a1b2c3d4"; client_name := JStr who; task := JStr what;
     completed := JBool false; due_date := JStr "2024-01-05"; priority := JStr prio |}.

Definition sample_rows : list task_row :=
  [ sample_row "Ana" "archive" "Low";
    sample_row "Ana" "call back" "High";
    sample_row "Bob" "send quote" "Medium";
    sample_row "Bob" "renew" "High";
    sample_row "Ana" "tidy up" "Low" ].

Definition call_high : json :=
  JDict [("task", JStr "Call"); ("completed", JBool false);
         ("priority", JStr "High"); ("due_date", JStr "2024-01-05");
         ("created_at", JStr "2024-01-02")].

Definition call_low : json :=
  JDict [("task", JStr "Call"); ("completed", JBool false);
         ("priority", JStr "Low"); ("due_date", JStr "2024-01-09");
         ("created_at", JStr "2024-01-03")].

Definition client_with_tasks (tasks : list json) : json :=
  client_record "a1b2c3d4" "Ana" "Lead" "2024-01-03" 0 tasks [].

Definition row_of_call_low : task_row :=
  {| client_id := JStr "a1b2c3d4"; client_name := JStr "Ana"; task := JStr "Call";
     completed := JBool false; due_date := JStr "2024-01-09"; priority := JStr "Low" |}.

(** [c] is a record whose [status] equals [label]. *)
Definition status_is (label : string) (c : json) : bool :=
  match c with
  | JDict d =>
      match Dict.get "status" d with
      | Some s => py_eq s (JStr label)
      | None => false
      end
  | _ => false
  end.

Definition recognised (c : json) : bool :=
  status_is "Lead" c || status_is "Active" c || status_is "Inactive" c.

(** Records the dashboard can be computed for: a [status] is there, and
    [value] is missing or a number. *)
Definition chartable (c : json) : bool :=
  match c with
  | JDict d =>
      Dict.mem "status" d &&
      match Dict.get "value" d with
      | None | Some (JNum _) | Some (JBool _) => true
      | Some _ => false
      end
  | _ => false
  end.

(** A client whose status is none of the three the forms offer. *)
Definition prospect_client : json :=
  client_record "c9d0e1f2" "Zed" "Prospect" "2024-01-01" 10 [] [].

(** ** The rest of the script

    The sidebar form, the selection boxes, the client filters, the task
    views and buttons, the note and lead-source code and the settings tab.
    Left out are the parts that rest on text processing Python does with
    Unicode tables or on other libraries: the search box ([str.lower]),
    the sorts of clients and activities (comparison of arbitrary values
    inside [sorted]), the CSV and backup texts, the pandas and plotly
    calls. *)

(** [v.append(x)] *)
Definition py_append (v x : json) : result json :=
  match v with
  | JList l => Ok (JList (l ++ [x]))
  | _ => Raise AttributeError
  end.

(** [v[j]] for an integer [j] *)
Definition py_index (v : json) (j : nat) : result json :=
  match v with
  | JList l =>
      match l !! j with
      | Some x => Ok x
      | None => Raise IndexError
      end
  | JStr s =>
      match String.get j s with
      | Some c => Ok (JStr (String c EmptyString))
      | None => Raise IndexError
      end
  | JDict _ => Raise KeyError
  | JNull | JBool _ | JNum _ => Raise TypeError
  end.

Fixpoint any_r {A} (p : A -> result bool) (l : list A) : result bool :=
  match l with
  | [] => Ok false
  | x :: l' =>
      try! hit := p x in
      if hit then Ok true else any_r p l'
  end.

(** [sum(1 for x in l if p(x))] *)
Fixpoint count_r {A} (p : A -> result bool) (l : list A) : result nat :=
  match l with
  | [] => Ok 0
  | x :: l' =>
      try! hit := p x in
      try! n := count_r p l' in
      Ok (if hit then S n else n)
  end.

(** *** Sidebar: the new-client form (lines 98-117) and quick stats (122-123)

    In the sidebar [clients] is still the value read from the document.
    The form has the fields of the edit form, so its values come as a
    [client_form]. *)

Definition add_client (clients : json) (submit_button : bool) (f : client_form)
  : M (json * flow) :=
  if submit_button
     && (py_truthy (JStr (new_name f))
         && (py_truthy (JStr (new_phone f)) && py_truthy (JStr (new_email f))))
  then
    do! i := mint_id in
    do! t := now in
    let new_client :=
      JDict [("id", JStr i);
             ("name", JStr (new_name f));
             ("phone", JStr (new_phone f));
             ("email", JStr (new_email f));
             ("status", JStr (new_status f));
             ("tasks", JList []);
             ("notes", JList []);
             ("date_added", JStr (strftime_ymd t));
             ("value", JNum (new_value f));
             ("source", JStr (new_source f));
             ("tags", JList (map JStr (new_tags f)));
             ("follow_up_date", JStr (strftime_ymd (new_follow_up f)))] in
    do! clients := lift (py_append clients new_client) in
    do! _ := save_data (JDict [("clients", clients)]) in
    do! _ := st_show Success "Client {} added!" (Some (JStr (new_name f))) in
    ret (clients, Rerun)
  else ret (clients, Continue).

(** The tasks of one client that are not completed (line 123, inner loop). *)
Definition pending_of (c : json) : result nat :=
  try! tasks := py_get c "tasks" (JList []) in
  try! items := py_iter tasks in
  count_r (fun t => try! done := py_get t "completed" (JBool false) in
                    Ok (negb (py_truthy done))) items.

Fixpoint pending_sum (clients : list json) : result nat :=
  match clients with
  | [] => Ok 0
  | c :: rest =>
      try! n := pending_of c in
      try! m := pending_sum rest in
      Ok (n + m)
  end.

(** The number the sidebar shows as "Tasks Due Today". *)
Definition pending_count (clients : json) : result nat :=
  try! items := py_iter clients in
  pending_sum items.

(** *** Selection boxes (lines 210-212, 364-365, 396-398) *)

(** [s.split(sep)] for a separator of one character *)
Fixpoint split_on (sep : ascii) (s : string) : list string :=
  match s with
  | EmptyString => [EmptyString]
  | String c s' =>
      if Ascii.eqb c sep then EmptyString :: split_on sep s'
      else match split_on sep s' with
           | p :: ps => String c p :: ps
           | [] => [String c EmptyString]
           end
  end.

(** [label.split("(")[1].split(")")[0]] *)
Definition extract_id (label : string) : result string :=
  match split_on "(" label with
  | _ :: inner :: _ =>
      match split_on ")" inner with
      | first :: _ => Ok first
      | [] => Raise IndexError
      end
  | _ => Raise IndexError
  end.

(** [next((c for c in clients if c["id"] == selected_id), None)] for the
    option chosen in the box *)
Definition select_by_label (clients : list json) (label : string)
  : result (option (nat * json)) :=
  try! selected_id := extract_id label in
  find_client clients (JStr selected_id).

Section Labels.

(** [str(v)] of a value that is not a string (for [None], numbers,
    booleans, lists and dictionaries it is [repr(v)]). *)
Variable repr : json -> string.

Definition py_str (v : json) : string :=
  match v with
  | JStr s => s
  | _ => repr v
  end.

(** [f"{c['name']} ({c['id']})"] *)
Definition option_label (c : json) : result string :=
  try! name := py_getitem c "name" in
  try! id := py_getitem c "id" in
  Ok (py_str name +:+ " (" +:+ py_str id +:+ ")").

Definition option_labels (clients : list json) : result (list string) :=
  map_r option_label clients.

End Labels.

(** *** Clients tab: the status and tag filters (lines 176-180) *)

Definition apply_filter_status (filter_status : list string)
    (filtered_clients : list json) : result (list json) :=
  match filter_status with
  | [] => Ok filtered_clients
  | _ =>
      filter_r (fun c => try! s := py_getitem c "status" in
                         Ok (existsb (fun x => py_eq s (JStr x)) filter_status))
        filtered_clients
  end.

Definition apply_filter_tags (filter_tags : list string)
    (filtered_clients : list json) : result (list json) :=
  match filter_tags with
  | [] => Ok filtered_clients
  | _ =>
      filter_r (fun c => any_r (fun tag => try! tags := py_get c "tags" (JList []) in
                                           py_in tag tags) filter_tags)
        filtered_clients
  end.

(** *** Tasks tab: the three numbers (lines 283-287) and the view (299-306) *)

Definition is_completed (t : task_row) : bool := py_truthy (completed t).

Record task_counts : Type := {
  total_tasks : nat;
  completed_tasks : nat;
  pending_tasks : nat
}.

Definition task_metrics (rows : list task_row) : task_counts :=
  {| total_tasks := length rows;
     completed_tasks := length (List.filter is_completed rows);
     pending_tasks := length (List.filter (fun t => negb (is_completed t)) rows) |}.

Definition filter_tasks (task_filter : string) (rows : list task_row)
  : M (list task_row) :=
  if String.eqb task_filter "Pending Tasks" then
    ret (List.filter (fun t => negb (is_completed t)) rows)
  else if String.eqb task_filter "Completed Tasks" then
    ret (List.filter is_completed rows)
  else if String.eqb task_filter "Due Today" then
    do! t := now in
    let today := strftime_ymd t in
    ret (List.filter (fun t => py_eq (due_date t) (JStr today) && negb (is_completed t))
           rows)
  else ret rows.

(** *** Tasks tab: the complete / incomplete button of a row (lines 330-344)

    The row shows "Mark Incomplete" when its task is completed and "Mark
    Complete" otherwise; [button] says that the one shown was pressed. *)
Definition toggle_task (clients : list json) (row : task_row) (button : bool)
  : M (list json * flow) :=
  do! sel := lift (find_client clients (client_id row)) in
  match sel with
  | Some (i, client) =>
      if py_truthy client then
        do! tasks := lift (py_get client "tasks" (JList [])) in
        do! items := lift (py_iter tasks) in
        do! hit := lift (find_first (fun t => try! d := py_getitem t "task" in
                                              Ok (py_eq d (task row))) 0 items) in
        match hit with
        | Some (task_idx, _) =>
            if button then
              do! tasks := lift (py_getitem client "tasks") in
              do! t := lift (py_index tasks task_idx) in
              do! t := lift (py_setitem t "completed"
                               (JBool (negb (py_truthy (completed row))))) in
              let tasks := match tasks with
                           | JList l => JList (<[task_idx := t]> l)
                           | _ => tasks
                           end in
              do! client := lift (py_setitem client "tasks" tasks) in
              let clients := <[i := client]> clients in
              do! _ := save_data (clients_document clients) in
              ret (clients, Rerun)
            else ret (clients, Continue)
        | None => ret (clients, Continue)
        end
      else ret (clients, Continue)
  | None => ret (clients, Continue)
  end.

(** *** Tasks tab: the add-task form (lines 372-389) *)

Definition add_task (clients : list json) (selected_client_id : string)
    (task_submit : bool) (task_desc task_priority : string)
    (task_due_date : datetime) : M (list json * flow) :=
  if task_submit && py_truthy (JStr task_desc) then
    do! sel := lift (find_client clients (JStr selected_client_id)) in
    match sel with
    | Some (i, selected_client) =>
        if py_truthy selected_client then
          do! t := now in
          let new_task := JDict [("task", JStr task_desc);
                                 ("completed", JBool false);
                                 ("priority", JStr task_priority);
                                 ("due_date", JStr (strftime_ymd task_due_date));
                                 ("created_at", JStr (strftime_ymd t))] in
          do! c := default_field "tasks" (ret (JList [])) selected_client in
          do! tasks := lift (py_getitem c "tasks") in
          do! tasks := lift (py_append tasks new_task) in
          do! c := lift (py_setitem c "tasks" tasks) in
          let clients := <[i := c]> clients in
          do! _ := save_data (clients_document clients) in
          do! _ := st_show Success "Task added successfully!" None in
          ret (clients, Rerun)
        else ret (clients, Continue)
    | None => ret (clients, Continue)
    end
  else ret (clients, Continue).

(** *** Notes tab: the delete button of note [idx] (lines 424-434)

    The notes before the button, and the note itself, are drawn first,
    which reads their [date] and [text]. *)
Definition delete_note (clients : list json) (selected_client_id : string)
    (idx : nat) : M (list json * flow) :=
  do! sel := lift (find_client clients (JStr selected_client_id)) in
  match sel with
  | Some (i, selected_client) =>
      if py_truthy selected_client then
        do! has := lift (py_in "notes" selected_client) in
        do! shown_notes :=
          (if has
           then do! notes := lift (py_getitem selected_client "notes") in
                ret (py_truthy notes)
           else ret false) in
        if shown_notes then
          do! notes := lift (py_getitem selected_client "notes") in
          do! items := lift (py_iter notes) in
          do! _ := lift (map_r (fun note =>
                                  try! _ := py_get note "date" (JStr "Unknown date") in
                                  py_get note "text" (JStr ""))
                           (take (S idx) items)) in
          if Nat.ltb idx (length items) then
            do! notes := lift (py_getitem selected_client "notes") in
            do! notes := lift (py_pop notes idx) in
            do! c := lift (py_setitem selected_client "notes" notes) in
            let clients := <[i := c]> clients in
            do! _ := save_data (clients_document clients) in
            ret (clients, Rerun)
          else ret (clients, Continue)
        else ret (clients, Continue)
      else ret (clients, Continue)
  | None => ret (clients, Continue)
  end.

(** *** Dashboard tab: lead sources (lines 482-485)

    [source_data] is a dictionary keyed by whatever the [source] fields
    hold; its keys are compared with [==] after hashing. *)

Fixpoint counter_get (k : json) (t : list (json * nat)) : option nat :=
  match t with
  | [] => None
  | (k', n) :: t' => if py_eq k' k then Some n else counter_get k t'
  end.

Fixpoint counter_set (k : json) (n : nat) (t : list (json * nat)) : list (json * nat) :=
  match t with
  | [] => [(k, n)]
  | (k', m) :: t' => if py_eq k' k then (k', n) :: t' else (k', m) :: counter_set k n t'
  end.

Fixpoint count_sources (source_data : list (json * nat)) (clients : list json)
  : result (list (json * nat)) :=
  match clients with
  | [] => Ok source_data
  | client :: rest =>
      try! source := py_get client "source" (JStr "Direct") in
      if hashable source then
        count_sources
          (counter_set source (default 0 (counter_get source source_data) + 1) source_data)
          rest
      else Raise TypeError
  end.

Definition source_counts (clients : list json) : result (list (json * nat)) :=
  count_sources [] clients.

(** *** Settings tab: restore (lines 589-599), clear all tasks (618-628),
        reset (631-639) *)

(** The uploaded file, seen through [decode] and [json.loads]. *)
Inductive upload : Type :=
| NotText                (* [decode] raises [UnicodeDecodeError] *)
| NotJson                (* [json.loads] raises [JSONDecodeError] *)
| Json (v : json).

Definition json_loads (u : upload) : result json :=
  match u with
  | NotText => Raise UnicodeDecodeError
  | NotJson => Raise JSONDecodeError
  | Json v => Ok v
  end.

(** [except Exception] catches whatever the body raises; the message shown
    is kept without the text of the exception. *)
Definition restore (uploaded_file : option upload) (button : bool) : M flow :=
  match uploaded_file with
  | None => ret Continue
  | Some u =>
      fun w =>
        match (do! restore_data := lift (json_loads u) in
               if button then
                 do! _ := save_data restore_data in
                 do! _ := st_show Success "Data restored successfully!" None in
                 ret Rerun
               else ret Continue) w with
        | Ok r => Ok r
        | Raise _ =>
            (do! _ := st_show Error "Error restoring data: {}" None in ret Continue) w
        end
  end.

(** The two flags the settings tab keeps in [st.session_state]. *)
Record session_state : Type := {
  confirm_clear_tasks : bool;
  confirm_reset : bool
}.

Definition clear_all_tasks (clients : list json) (ss : session_state) (button : bool)
  : M (list json * session_state * flow) :=
  if button then
    if confirm_clear_tasks ss then
      do! clients := lift (map_r (fun client => py_setitem client "tasks" (JList []))
                             clients) in
      do! _ := save_data (clients_document clients) in
      let ss := {| confirm_clear_tasks := false; confirm_reset := confirm_reset ss |} in
      do! _ := st_show Success "All tasks cleared!" None in
      ret (clients, ss, Rerun)
    else
      let ss := {| confirm_clear_tasks := true; confirm_reset := confirm_reset ss |} in
      do! _ := st_show Warning "Click again to confirm clearing all tasks" None in
      ret (clients, ss, Continue)
  else ret (clients, ss, Continue).

Definition reset_crm (ss : session_state) (button : bool) : M (session_state * flow) :=
  if button then
    if confirm_reset ss then
      do! _ := save_data (clients_document []) in
      let ss := {| confirm_clear_tasks := confirm_clear_tasks ss; confirm_reset := false |} in
      do! _ := st_show Success "CRM reset complete!" None in
      ret (ss, Rerun)
    else
      let ss := {| confirm_clear_tasks := confirm_clear_tasks ss; confirm_reset := true |} in
      do! _ := st_show Warning "⚠️ This will delete ALL data. Click again to confirm."
                 None in
      ret (ss, Continue)
  else ret (ss, Continue).

(** ** Notions used in the further statements *)

(** [c in s] for a character *)
Fixpoint occurs (c : ascii) (s : string) : bool :=
  match s with
  | EmptyString => false
  | String c' s' => Ascii.eqb c' c || occurs c s'
  end.

Fixpoint all_chars (p : ascii -> bool) (s : string) : bool :=
  match s with
  | EmptyString => true
  | String c s' => p c && all_chars p s'
  end.

Definition is_hex (c : ascii) : bool := occurs c "0123456789abcdef".

(** [c] is a record whose [name] and [id] are these strings. *)
Definition named (name id : string) (c : json) : Prop :=
  py_getitem c "name" = Ok (JStr name) /\ py_getitem c "id" = Ok (JStr id).

Definition note_of (text date id : string) : json :=
  JDict [("text", JStr text); ("date", JStr date); ("id", JStr id)].

(** Four notes, newest first; the first and the third are equal. *)
Definition four_notes : list json :=
  [ note_of "follow up" "2024-01-04 09:00" "11111111";
    note_of "met at fair" "2024-01-03 10:00" "22222222";
    note_of "follow up" "2024-01-04 09:00" "11111111";
    note_of "first call" "2024-01-02 08:00" "33333333" ].

Definition client_with_notes (notes : list json) : json :=
  client_record "e5f6a7b8" "Bob" "Active" "2024-01-02" 500 [] notes.

(** The repr used in examples; no example formats a value that is not a
    string. *)
Definition sample_repr (v : json) : string := "?".

(** [c]'s status is one of the selected ones. *)
Definition status_among (filter_status : list string) (c : json) : bool :=
  existsb (fun x => status_is x c) filter_status.

(** One of the selected tags is in [c]'s tags (none, if [c] has no tags). *)
Definition tagged_any (filter_tags : list string) (c : json) : bool :=
  match py_get c "tags" (JList []) with
  | Ok tags =>
      existsb (fun tag => match py_in tag tags with
                          | Ok b => b
                          | Raise _ => false
                          end) filter_tags
  | Raise _ => false
  end.

(** Records the two filters can test: a [status] is there, and [tags] is
    missing or something [in] can search. *)
Definition filterable (c : json) : bool :=
  match c with
  | JDict d =>
      Dict.mem "status" d &&
      match Dict.get "tags" d with
      | Some JNull | Some (JBool _) | Some (JNum _) => false
      | _ => true
      end
  | _ => false
  end.

(** What the table shows for the two selections: nothing selected means no
    test. *)
Definition passes (filter_status filter_tags : list string) (c : json) : bool :=
  (match filter_status with [] => true | _ => status_among filter_status c end)
  && (match filter_tags with [] => true | _ => tagged_any filter_tags c end).

(** The tasks a record holds: none yet, or a list. *)
Definition tasks_of (d : Dict.t) : option (list json) :=
  match Dict.get "tasks" d with
  | None => Some []
  | Some (JList l) => Some l
  | Some _ => None
  end.

(** The task that submitting the add-task form builds in world [w]. *)
Definition new_task (task_desc task_priority : string) (task_due_date : datetime)
    (w : world) : json :=
  JDict [("task", JStr task_desc);
         ("completed", JBool false);
         ("priority", JStr task_priority);
         ("due_date", JStr (strftime_ymd task_due_date));
         ("created_at", JStr (strftime_ymd (clock w)))].

Definition say_task_added (w : world) : world :=
  {| db_file := db_file w; clock := clock w; urandom := urandom w; drawn := drawn w;
     shown := shown w ++ [{| notice_level := Success;
                             notice_text := "Task added successfully!";
                             notice_arg := None |}] |}.

(** [t] is a task whose description is not [desc]. *)
Definition other_task (desc : string) (t : json) : bool :=
  match t with
  | JDict d =>
      match Dict.get "task" d with
      | Some v => negb (py_eq v (JStr desc))
      | None => false
      end
  | _ => false
  end.

Definition sample_due : datetime :=
  {| year := 2024; month := 1; day := 8; hour := 0; minute := 0 |}.

Definition is_object (v : json) : bool :=
  match v with
  | JDict _ => true
  | _ => false
  end.

(** The key under which a client is counted: its [source], or "Direct". *)
Definition source_of (c : json) : json :=
  match py_get c "source" (JStr "Direct") with
  | Ok v => v
  | Raise _ => JNull
  end.

(** Records the lead-source count can take: objects whose source can be
    hashed. *)
Definition countable_source (c : json) : bool :=
  is_object c && hashable (source_of c).

(** Hashable values that are equal as dictionary keys have the same
    normal form: [True] and [1] are one key, [False] and [0] another. *)
Definition hkey (v : json) : json :=
  match v with
  | JBool b => JNum (Z.b2z b)
  | _ => v
  end.

Definition counter_total (t : list (json * nat)) : nat :=
  foldr (fun p acc => p.2 + acc) 0 t.

Definition say (l : level) (text : string) (w : world) : world :=
  {| db_file := db_file w; clock := clock w; urandom := urandom w; drawn := drawn w;
     shown := shown w ++ [{| notice_level := l; notice_text := text;
                             notice_arg := None |}] |}.

Definition unarmed : session_state :=
  {| confirm_clear_tasks := false; confirm_reset := false |}.

(** * Properties *)

(** ** Strings, identifiers, dictionaries *)

Example short_id_example :
  short_id 0x12345678123456781234567812345678 = "12345678".
Proof. vm_compute. reflexivity. Qed.

Example uuid_str_example :
  uuid_str (uuid4_int 0x12345678123456781234567812345678)
  = "12345678-1234-4678-9234-567812345678".
Proof. vm_compute. reflexivity. Qed.

Example strftime_example :
  strftime_ymd_hm {| year := 2024; month := 1; day := 5; hour := 9; minute := 30 |}
  = "2024-01-05 09:30".
Proof. vm_compute. reflexivity. Qed.

Lemma length_append (s t : string) :
  String.length (s +:+ t) = String.length s + String.length t.
Proof. induction s as [|c s IH]; simpl; [reflexivity | now rewrite IH]. Qed.

Lemma length_substring0 (m : nat) (s : string) :
  String.length (substring 0 m s) = Nat.min m (String.length s).
Proof.
  revert s; induction m as [|m IH]; intros [|c s]; simpl; try reflexivity.
  now rewrite IH.
Qed.

Lemma substring0_append (m : nat) (s t : string) :
  m <= String.length s -> substring 0 m (s +:+ t) = substring 0 m s.
Proof.
  revert s; induction m as [|m IH]; intros [|c s] Hle; simpl in *; try reflexivity; try lia.
  - destruct t; reflexivity.
  - rewrite IH; [reflexivity | lia].
Qed.

Lemma length_fixed_digits (b : N) (k : nat) (n : N) :
  String.length (fixed_digits b k n) = k.
Proof.
  revert n; induction k as [|k IH]; intros n; simpl; [reflexivity |].
  rewrite length_append, IH; simpl; lia.
Qed.

Lemma length_short_id (r : N) : String.length (short_id r) = 8.
Proof.
  unfold short_id, uuid_str.
  rewrite substring0_append.
  - rewrite length_substring0, length_substring0, length_fixed_digits. reflexivity.
  - rewrite length_substring0, length_fixed_digits. reflexivity.
Qed.

Lemma short_id_truthy (r : N) : py_truthy (JStr (short_id r)) = true.
Proof.
  pose proof (length_short_id r) as H.
  simpl. destruct (short_id r); [discriminate H | reflexivity].
Qed.

Module DictFacts.

Lemma mem_get (k : string) (d : Dict.t) :
  Dict.mem k d = match Dict.get k d with Some _ => true | None => false end.
Proof.
  induction d as [|[k' v] d IH]; simpl; [reflexivity |].
  destruct (String.eqb k k'); [reflexivity | exact IH].
Qed.

Lemma get_set_eq (k : string) (v : json) (d : Dict.t) :
  Dict.get k (Dict.set k v d) = Some v.
Proof.
  induction d as [|[k' v'] d IH]; simpl.
  - now rewrite String.eqb_refl.
  - destruct (String.eqb k k') eqn:E; simpl; rewrite E; [reflexivity | exact IH].
Qed.

Lemma get_set_ne (k k' : string) (v : json) (d : Dict.t) :
  k <> k' -> Dict.get k (Dict.set k' v d) = Dict.get k d.
Proof.
  intros Hne. induction d as [|[k0 v0] d IH]; simpl.
  - apply String.eqb_neq in Hne. now rewrite Hne.
  - destruct (String.eqb k' k0) eqn:E; simpl.
    + apply String.eqb_eq in E; subst k0.
      apply String.eqb_neq in Hne. now rewrite Hne.
    + destruct (String.eqb k k0); [reflexivity | exact IH].
Qed.

Lemma get_set_default (k k' : string) (v : json) (d : Dict.t) :
  Dict.get k (set_default k' v d)
  = if String.eqb k k' then Some (default v (Dict.get k d)) else Dict.get k d.
Proof.
  unfold set_default. rewrite mem_get.
  destruct (String.eqb k k') eqn:E.
  - apply String.eqb_eq in E; subst k'.
    destruct (Dict.get k d) eqn:G; simpl; [exact G | apply get_set_eq].
  - apply String.eqb_neq in E.
    destruct (Dict.get k' d); [reflexivity | now apply get_set_ne].
Qed.

End DictFacts.

(** ** Record store *)

Section RecordStore.

Variable w : world.

(** Where [load_data] does fall back to the empty document. *)
Lemma load_data_absent :
  db_file w = Absent -> load_data w = Ok (empty_document, w).
Proof. intros H. unfold load_data. now rewrite H. Qed.

Lemma load_data_malformed :
  db_file w = Malformed -> load_data w = Ok (empty_document, w).
Proof. intros H. unfold load_data. now rewrite H. Qed.

Lemma load_data_missing_key (d : Dict.t) :
  db_file w = Stored (JDict d) -> Dict.get "clients" d = None ->
  load_data w = Ok (empty_document, w).
Proof.
  intros H G. unfold load_data. rewrite H. simpl.
  now rewrite DictFacts.mem_get, G.
Qed.

Lemma load_data_object (d : Dict.t) (v : json) :
  db_file w = Stored (JDict d) -> Dict.get "clients" d = Some v ->
  load_data w = Ok (JDict d, w).
Proof.
  intros H G. unfold load_data. rewrite H. simpl.
  now rewrite DictFacts.mem_get, G.
Qed.

Lemma save_data_object (d : Dict.t) (v : json) :
  Dict.get "clients" d = Some v ->
  save_data (JDict d) w = Ok (tt, write_db (JDict d) w).
Proof.
  intros G. unfold save_data. simpl. now rewrite DictFacts.mem_get, G.
Qed.

Lemma save_data_missing_key (d : Dict.t) :
  Dict.get "clients" d = None ->
  save_data (JDict d) w = Ok (tt, write_db empty_document w).
Proof.
  intros G. unfold save_data. simpl. now rewrite DictFacts.mem_get, G.
Qed.

Lemma save_data_clients (clients : list json) :
  save_data (clients_document clients) w
  = Ok (tt, write_db (clients_document clients) w).
Proof. reflexivity. Qed.

End RecordStore.

(** C1.  The claim is that [load_data] returns a document with an empty
    client sequence, and never fails, whatever the file holds.  The code
    does so for a missing file and for text that is not JSON, but not for
    every file: a file holding the JSON text [null] (or a number) makes the
    membership test raise [TypeError], which the handler for
    [JSONDecodeError] does not catch; bytes that are not text raise
    [UnicodeDecodeError]; and a file holding the array [["clients"]] passes
    the membership test, so the array itself is returned, which is no
    document at all. *)
Theorem load_data_fails_on_non_object (w : world) :
  load_data (write_db JNull w) = Raise TypeError
  /\ load_data (write_db (JNum 5) w) = Raise TypeError
  /\ load_data (write_db array_document w)
     = Ok (array_document, write_db array_document w)
  /\ clients_of array_document = None
  /\ load_data {| db_file := Garbled; clock := clock w; urandom := urandom w;
                  drawn := drawn w; shown := shown w |} = Raise UnicodeDecodeError.
Proof. repeat split; reflexivity. Qed.

(** C9.  The claim is that [save_data] writes the empty document whenever
    its argument lacks a [clients] field holding a sequence, so that the
    file always has that shape.  The code tests only ["clients" in data]:
    an array that has the string ["clients"] among its items, and an object
    whose [clients] field is a number, are written as they are. *)
Theorem save_data_writes_malformed_document (w : world) :
  minimal_shape array_document = false
  /\ save_data array_document w = Ok (tt, write_db array_document w)
  /\ db_file (write_db array_document w) = Stored array_document
  /\ minimal_shape numbered_document = false
  /\ save_data numbered_document w = Ok (tt, write_db numbered_document w)
  /\ db_file (write_db numbered_document w) = Stored numbered_document.
Proof. repeat split; reflexivity. Qed.

(** ** The healing loop *)

Lemma bind_ok {A B} (m : M A) (k : A -> M B) (w w' : world) (a : A) :
  m w = Ok (a, w') -> bind m k w = k a w'.
Proof. intros H. unfold bind. now rewrite H. Qed.

Lemma default_field_dict (k : string) (value : M json) (v : json) (d : Dict.t) (w : world) :
  value w = Ok (v, w) ->
  default_field k value (JDict d) w = Ok (JDict (set_default k v d), w).
Proof.
  intros Hv. unfold default_field, set_default, bind, lift, ret. simpl.
  destruct (Dict.mem k d); [reflexivity |]. now rewrite Hv.
Qed.

Lemma id_stale_set_default (k : string) (v : json) (d : Dict.t) :
  k <> "id" -> id_stale (set_default k v d) = id_stale d.
Proof.
  intros Hne. unfold id_stale. rewrite DictFacts.get_set_default.
  destruct (String.eqb "id" k) eqn:E; [| reflexivity].
  apply String.eqb_eq in E. congruence.
Qed.

Lemma heal_client_dict (d : Dict.t) (w : world) :
  heal_client (JDict d) w
  = Ok (JDict (healed_dict (strftime_ymd (clock w)) (short_id (urandom w (drawn w))) d),
        if id_stale d then advance 1 w else w).
Proof.
  unfold heal_client, healed_dict.
  rewrite (bind_ok _ _ w w _ (default_field_dict _ _ _ d w eq_refl)).
  rewrite (bind_ok _ _ w w _ (default_field_dict _ _ _ _ w eq_refl)).
  rewrite (bind_ok _ _ w w _ (default_field_dict _ _ _ _ w eq_refl)).
  set (d3 := set_default "source" _ _).
  assert (Hst : id_stale d3 = id_stale d).
  { unfold d3. rewrite !id_stale_set_default by discriminate. reflexivity. }
  rewrite <- Hst.
  unfold bind at 1, lift at 1. simpl py_in. cbv iota beta.
  unfold id_stale. rewrite DictFacts.mem_get.
  destruct (Dict.get "id" d3) as [v|] eqn:G.
  - unfold bind at 1, bind at 1, lift at 1, py_getitem. rewrite G. unfold ret at 1.
    cbv iota beta.
    destruct (py_truthy v); simpl negb; cbv iota.
    + unfold bind at 1, ret at 1. cbv iota beta.
      rewrite (bind_ok _ _ w w _ (default_field_dict _ _ _ _ w eq_refl)).
      apply default_field_dict. reflexivity.
    + unfold bind at 1, bind at 1, mint_id, lift at 1, py_setitem. cbv iota beta.
      rewrite (bind_ok _ _ _ _ _ (default_field_dict _ _ _ _ _ eq_refl)).
      apply default_field_dict. reflexivity.
  - unfold bind at 1, ret at 1. cbv iota beta.
    unfold bind at 1, bind at 1, mint_id, lift at 1, py_setitem. cbv iota beta.
    rewrite (bind_ok _ _ _ _ _ (default_field_dict _ _ _ _ _ eq_refl)).
    apply default_field_dict. reflexivity.
Qed.

Lemma mapM_heal_client (stored : list Dict.t) (w : world) :
  mapM heal_client (map JDict stored) w
  = Ok (map JDict (healed_list w stored), after_healing w stored).
Proof.
  revert w. induction stored as [|d rest IH]; intros w; simpl; [reflexivity |].
  rewrite (bind_ok _ _ _ _ _ (heal_client_dict d w)).
  rewrite (bind_ok _ _ _ _ _ (IH _)).
  reflexivity.
Qed.

Lemma minted_before_cons (i : nat) (d : Dict.t) (rest : list Dict.t) :
  minted_before (S i) (d :: rest)
  = (if id_stale d then 1 else 0) + minted_before i rest.
Proof.
  unfold minted_before. simpl take. rewrite filter_cons.
  destruct (id_stale d); simpl; reflexivity.
Qed.

Lemma after_healing_frame (stored : list Dict.t) (w : world) :
  db_file (after_healing w stored) = db_file w
  /\ clock (after_healing w stored) = clock w
  /\ urandom (after_healing w stored) = urandom w
  /\ shown (after_healing w stored) = shown w
  /\ drawn (after_healing w stored) = drawn w + minted_before (length stored) stored.
Proof.
  revert w. induction stored as [|d rest IH]; intros w.
  - simpl. unfold minted_before. simpl. repeat split; lia.
  - simpl after_healing. simpl length. rewrite minted_before_cons.
    destruct (IH (if id_stale d then advance 1 w else w)) as (Hf & Hc & Hu & Hs & Hd).
    rewrite Hf, Hc, Hu, Hs, Hd.
    destruct (id_stale d); simpl; repeat split; lia.
Qed.

Lemma healed_list_length (stored : list Dict.t) (w : world) :
  length (healed_list w stored) = length stored.
Proof.
  revert w. induction stored as [|d rest IH]; intros w; simpl; [reflexivity |].
  now rewrite IH.
Qed.

Lemma healed_list_lookup (stored : list Dict.t) (w : world) (i : nat) (d : Dict.t) :
  stored !! i = Some d ->
  healed_list w stored !! i
  = Some (healed_dict (strftime_ymd (clock w))
            (short_id (urandom w (drawn w + minted_before i stored))) d).
Proof.
  revert w i. induction stored as [|d0 rest IH]; intros w i Hi; [discriminate Hi |].
  destruct i as [|i].
  - simpl in Hi. injection Hi as ->. simpl.
    unfold minted_before. simpl. now rewrite Nat.add_0_r.
  - simpl in Hi. simpl healed_list. rewrite minted_before_cons.
    change ((_ :: ?l) !! S i) with (l !! i).
    rewrite (IH _ i Hi).
    destruct (id_stale d0); simpl; do 4 f_equal; lia.
Qed.

Lemma startup_clients (w : world) (doc : Dict.t) (stored : list Dict.t) :
  db_file w = Stored (JDict doc) ->
  Dict.get "clients" doc = Some (JList (map JDict stored)) ->
  startup w = Ok (JList (map JDict (healed_list w stored)), after_healing w stored).
Proof.
  intros Hf Hc. unfold startup.
  rewrite (bind_ok _ _ _ _ _ (load_data_object w doc _ Hf Hc)).
  unfold bind at 1, lift at 1, py_get. rewrite Hc.
  unfold heal_clients, bind at 1, lift at 1, py_iter.
  rewrite (bind_ok _ _ _ _ _ (mapM_heal_client stored w)).
  reflexivity.
Qed.

(** An item that is not an object stops the loop with [TypeError]: the
    membership test, the lookup of [id] or the assignment refuses it. *)
Lemma heal_client_not_object (c : json) (w : world) :
  (forall d : Dict.t, c <> JDict d) -> heal_client c w = Raise TypeError.
Proof.
  intros Hc. unfold heal_client, default_field, bind, lift, ret, now, mint_id.
  destruct c as [| | | s | l | d]; simpl; try reflexivity.
  - repeat (match goal with
            | |- context [str_contains ?k s] => destruct (str_contains k s)
            end; simpl); reflexivity.
  - repeat (match goal with
            | |- context [existsb ?p l] => destruct (existsb p l)
            end; simpl); reflexivity.
  - now destruct (Hc d).
Qed.

(** What the loop body leaves under each of the six keys. *)
Lemma healed_dict_fields (today fresh : string) (d : Dict.t) :
  let d' := healed_dict today fresh d in
  Dict.get "date_added" d' = Some (default (JStr today) (Dict.get "date_added" d))
  /\ Dict.get "value" d' = Some (default (JNum 0) (Dict.get "value" d))
  /\ Dict.get "source" d' = Some (default (JStr "Direct") (Dict.get "source" d))
  /\ Dict.get "follow_up_date" d' = Some (default (JStr "") (Dict.get "follow_up_date" d))
  /\ Dict.get "tags" d' = Some (default (JList []) (Dict.get "tags" d))
  /\ Dict.get "id" d' = Some (if id_stale d then JStr fresh
                              else default JNull (Dict.get "id" d)).
Proof.
  unfold healed_dict.
  set (d3 := set_default "source" _ (set_default "value" _ (set_default "date_added" _ d))).
  assert (Hst : id_stale d3 = id_stale d).
  { unfold d3. rewrite !id_stale_set_default by discriminate. reflexivity. }
  assert (Hget : forall k, Dict.get k d3
    = if String.eqb k "source" then Some (default (JStr "Direct") (Dict.get k d))
      else if String.eqb k "value" then Some (default (JNum 0) (Dict.get k d))
      else if String.eqb k "date_added" then Some (default (JStr today) (Dict.get k d))
      else Dict.get k d).
  { intros k. unfold d3. rewrite !DictFacts.get_set_default.
    destruct (String.eqb k "source") eqn:E1; [| destruct (String.eqb k "value") eqn:E2];
      try reflexivity.
    - apply String.eqb_eq in E1; subst k. reflexivity.
    - apply String.eqb_eq in E2; subst k. reflexivity. }
  rewrite Hst. simpl.
  rewrite !DictFacts.get_set_default. simpl.
  destruct (id_stale d) eqn:Hs.
  - rewrite !DictFacts.get_set_ne by discriminate.
    rewrite DictFacts.get_set_eq. rewrite !Hget. simpl. repeat split; reflexivity.
  - rewrite !Hget. simpl. repeat split; try reflexivity.
    unfold id_stale in Hs. destruct (Dict.get "id" d); [reflexivity | discriminate Hs].
Qed.

(** After the loop every item is a record with an [id]: what the handlers
    below assume of the list in memory. *)
Lemma healed_list_records (stored : list Dict.t) (w : world) :
  Forall (fun c => is_record c = true) (map JDict (healed_list w stored)).
Proof.
  revert w. induction stored as [|d rest IH]; intros w; simpl; constructor.
  - simpl. rewrite DictFacts.mem_get.
    destruct (healed_dict_fields (strftime_ymd (clock w))
                (short_id (urandom w (drawn w))) d) as (_ & _ & _ & _ & _ & Hid).
    now rewrite Hid.
  - apply IH.
Qed.

(** Records that are complete pass through the loop unchanged, without a
    draw: a list saved by one run is the list the next run starts with. *)
Lemma healed_dict_fixed (today fresh : string) (d : Dict.t) :
  is_healed d = true -> healed_dict today fresh d = d /\ id_stale d = false.
Proof.
  unfold is_healed. intros H.
  apply andb_prop in H as [H Htags]. apply andb_prop in H as [H Hfup].
  apply andb_prop in H as [H Hid]. apply andb_prop in H as [H Hsrc].
  apply andb_prop in H as [Hdate Hval].
  apply negb_true_iff in Hid.
  unfold healed_dict, set_default.
  now rewrite Hdate, Hval, Hsrc, Hid, Hfup, Htags.
Qed.

Lemma healed_list_fixed (stored : list Dict.t) (w : world) :
  Forall (fun d => is_healed d = true) stored ->
  healed_list w stored = stored /\ after_healing w stored = w.
Proof.
  induction 1 as [|d rest Hd _ IH]; simpl; [split; reflexivity |].
  destruct (healed_dict_fixed (strftime_ymd (clock w))
              (short_id (urandom w (drawn w))) d Hd) as (-> & ->).
  destruct IH as (-> & ->). split; reflexivity.
Qed.

Lemma startup_after_save (stored : list Dict.t) (w : world) :
  Forall (fun d => is_healed d = true) stored ->
  startup (write_db (clients_document (map JDict stored)) w)
  = Ok (JList (map JDict stored), write_db (clients_document (map JDict stored)) w).
Proof.
  intros Hall.
  rewrite (startup_clients _ [("clients", JList (map JDict stored))] stored)
    by reflexivity.
  now destruct (healed_list_fixed stored
                  (write_db (clients_document (map JDict stored)) w) Hall) as (-> & ->).
Qed.

(** C2.  When the stored document is an object whose [clients] field is a
    list of records, the first thing a run does ([startup]) succeeds and
    leaves, record by record, each of [date_added], [value], [source],
    [follow_up_date] and [tags] present: with the stored value when the
    record had one, and otherwise with today's date, [0], ["Direct"], the
    empty string and the empty list.  A record stored without [id] gets the
    next identifier drawn from the generator, a string of 8 characters; the
    draw is the one numbered by the ids minted for the records before it, so
    no two records share a draw. *)
Theorem healing_fills_missing_fields
    (w : world) (doc : Dict.t) (stored : list Dict.t) :
  db_file w = Stored (JDict doc) ->
  Dict.get "clients" doc = Some (JList (map JDict stored)) ->
  exists (healed : list Dict.t) (w' : world),
    startup w = Ok (JList (map JDict healed), w')
    /\ length healed = length stored
    /\ forall (i : nat) (d : Dict.t),
         stored !! i = Some d ->
         exists d' : Dict.t,
           healed !! i = Some d'
           /\ Dict.get "date_added" d'
              = Some (default (JStr (strftime_ymd (clock w))) (Dict.get "date_added" d))
           /\ Dict.get "value" d' = Some (default (JNum 0) (Dict.get "value" d))
           /\ Dict.get "source" d' = Some (default (JStr "Direct") (Dict.get "source" d))
           /\ Dict.get "follow_up_date" d'
              = Some (default (JStr "") (Dict.get "follow_up_date" d))
           /\ Dict.get "tags" d' = Some (default (JList []) (Dict.get "tags" d))
           /\ (Dict.get "id" d = None ->
               let fresh := short_id (urandom w (drawn w + minted_before i stored)) in
               Dict.get "id" d' = Some (JStr fresh) /\ String.length fresh = 8).
Proof.
  intros Hf Hc.
  exists (healed_list w stored), (after_healing w stored).
  split; [now apply (startup_clients w doc) |].
  split; [apply healed_list_length |].
  intros i d Hi. eexists. split; [exact (healed_list_lookup _ _ _ _ Hi) |].
  destruct (healed_dict_fields (strftime_ymd (clock w))
              (short_id (urandom w (drawn w + minted_before i stored))) d)
    as (Hdate & Hval & Hsrc & Hfup & Htags & Hid).
  repeat (split; [assumption |]).
  intros Hnone. cbv zeta. split; [| apply length_short_id].
  rewrite Hid. unfold id_stale. now rewrite Hnone.
Qed.

Lemma healing_fills_missing_fields_witness :
  db_file (sample_world (Stored (JDict sample_document))) = Stored (JDict sample_document)
  /\ Dict.get "clients" sample_document = Some (JList (map JDict sample_stored))
  /\ exists (healed : list Dict.t) (w' : world),
       startup (sample_world (Stored (JDict sample_document)))
       = Ok (JList (map JDict healed), w')
       /\ exists d' : Dict.t,
            healed !! 0 = Some d'
            /\ Dict.get "date_added" d' = Some (JStr "2024-01-05")
            /\ Dict.get "value" d' = Some (JNum 0)
            /\ Dict.get "source" d' = Some (JStr "Direct")
            /\ Dict.get "follow_up_date" d' = Some (JStr "")
            /\ Dict.get "tags" d' = Some (JList [])
            /\ Dict.get "id" d' = Some (JStr "01234567").
Proof.
  split; [reflexivity |]. split; [reflexivity |].
  destruct (healing_fills_missing_fields
              (sample_world (Stored (JDict sample_document)))
              sample_document sample_stored eq_refl eq_refl)
    as (healed & w' & Hrun & _ & Hall).
  exists healed, w'. split; [exact Hrun |].
  destruct (Hall 0 [("name", JStr "Ana")] eq_refl)
    as (d' & Hd' & Hdate & Hval & Hsrc & Hfup & Htags & Hid).
  exists d'. repeat (split; [assumption |]).
  exact (proj1 (Hid eq_refl)).
Defined.

(** C10.  Under the same conditions every record has, after [startup], an
    [id] that is truthy (so not empty); and a record whose stored [id] was
    present but falsy (the empty string, [0], [null], ...) gets the next
    identifier drawn from the generator, 8 characters long, exactly as a
    record with no [id] does. *)
Theorem healing_replaces_falsy_id
    (w : world) (doc : Dict.t) (stored : list Dict.t) :
  db_file w = Stored (JDict doc) ->
  Dict.get "clients" doc = Some (JList (map JDict stored)) ->
  exists (healed : list Dict.t) (w' : world),
    startup w = Ok (JList (map JDict healed), w')
    /\ forall (i : nat) (d : Dict.t),
         stored !! i = Some d ->
         exists (d' : Dict.t) (v : json),
           healed !! i = Some d'
           /\ Dict.get "id" d' = Some v
           /\ py_truthy v = true
           /\ forall v0 : json,
                Dict.get "id" d = Some v0 -> py_truthy v0 = false ->
                let fresh := short_id (urandom w (drawn w + minted_before i stored)) in
                v = JStr fresh /\ String.length fresh = 8.
Proof.
  intros Hf Hc.
  exists (healed_list w stored), (after_healing w stored).
  split; [now apply (startup_clients w doc) |].
  intros i d Hi.
  destruct (healed_dict_fields (strftime_ymd (clock w))
              (short_id (urandom w (drawn w + minted_before i stored))) d)
    as (_ & _ & _ & _ & _ & Hid).
  eexists. eexists. split; [exact (healed_list_lookup _ _ _ _ Hi) |].
  split; [exact Hid |].
  unfold id_stale. destruct (Dict.get "id" d) as [v0|] eqn:G.
  - destruct (py_truthy v0) eqn:T; cbn [negb default].
    + split; [exact T |]. intros v1 Hv1 Hfalse. congruence.
    + split; [apply short_id_truthy |]. intros v1 _ _. cbv zeta.
      split; [reflexivity | apply length_short_id].
  - split; [apply short_id_truthy |]. intros v1 Hv1. discriminate Hv1.
Qed.

Lemma healing_replaces_falsy_id_witness :
  db_file (sample_world (Stored (JDict sample_document))) = Stored (JDict sample_document)
  /\ Dict.get "clients" sample_document = Some (JList (map JDict sample_stored))
  /\ exists (healed : list Dict.t) (w' : world),
       startup (sample_world (Stored (JDict sample_document)))
       = Ok (JList (map JDict healed), w')
       /\ exists d' : Dict.t,
            healed !! 1 = Some d' /\ Dict.get "id" d' = Some (JStr "02468acf").
Proof.
  split; [reflexivity |]. split; [reflexivity |].
  destruct (healing_replaces_falsy_id
              (sample_world (Stored (JDict sample_document)))
              sample_document sample_stored eq_refl eq_refl)
    as (healed & w' & Hrun & Hall).
  exists healed, w'. split; [exact Hrun |].
  destruct (Hall 1 [("id", JStr ""); ("name", JStr "Bob"); ("value", JNum 7)] eq_refl)
    as (d' & v & Hd' & Hid & _ & Hfresh).
  exists d'. split; [exact Hd' |].
  rewrite Hid. f_equal.
  exact (proj1 (Hfresh (JStr "") eq_refl eq_refl)).
Defined.

(** ** Looking a client up *)

Lemma find_first_spec {A} (p : A -> result bool) (l : list A) (n i : nat) (x : A) :
  find_first p n l = Ok (Some (i, x)) ->
  n <= i
  /\ l !! (i - n) = Some x
  /\ p x = Ok true
  /\ forall (j : nat) (y : A), j < i - n -> l !! j = Some y -> p y = Ok false.
Proof.
  revert n. induction l as [|y l IH]; intros n H; simpl in H; [discriminate H |].
  destruct (p y) as [[|]|e] eqn:Hp; simpl in H; try discriminate H.
  - injection H as <- <-. rewrite Nat.sub_diag. simpl.
    repeat split; [lia | exact Hp |]. intros j z Hj. lia.
  - destruct (IH _ H) as (Hle & Hlook & Hx & Hbefore).
    replace (i - n) with (S (i - S n)) by lia.
    repeat split; [lia | exact Hlook | exact Hx |].
    intros [|j] z Hj Hz; simpl in Hz.
    + now injection Hz as <-.
    + apply (Hbefore j); [lia | exact Hz].
Qed.

Lemma py_eq_str (s : string) (v : json) :
  py_eq v (JStr s) = true <-> v = JStr s.
Proof.
  split.
  - destruct v; simpl; try discriminate. intros H. apply String.eqb_eq in H. now subst.
  - intros ->. simpl. apply String.eqb_refl.
Qed.


(** The dictionary [find_client] returns sits at the returned place and
    has the wanted [id]. *)
Lemma find_client_spec (clients : list json) (wanted : json) (i : nat) (c : json) :
  find_client clients wanted = Ok (Some (i, c)) ->
  clients !! i = Some c
  /\ exists (d : Dict.t) (v : json),
       c = JDict d /\ Dict.get "id" d = Some v /\ py_eq v wanted = true.
Proof.
  intros H. apply find_first_spec in H as (_ & Hlook & Hp & _).
  rewrite Nat.sub_0_r in Hlook. split; [exact Hlook |].
  destruct c as [| | | | |d]; simpl in Hp; try discriminate Hp.
  destruct (Dict.get "id" d) as [v|] eqn:G; simpl in Hp; [| discriminate Hp].
  exists d, v. repeat split; [exact G | congruence].
Qed.

Lemma dict_with_key_truthy (k : string) (d : Dict.t) (v : json) :
  Dict.get k d = Some v -> py_truthy (JDict d) = true.
Proof. destruct d; [discriminate | reflexivity]. Qed.

(** Replacing the found dictionary by one with the same [id] does not move
    the lookup. *)
Lemma find_first_insert {A} (p : A -> result bool) (l : list A) (n i : nat) (x y : A) :
  find_first p n l = Ok (Some (i, x)) ->
  p y = Ok true ->
  find_first p n (<[i - n := y]> l) = Ok (Some (i, y)).
Proof.
  revert n. induction l as [|z l IH]; intros n H Hy; simpl in H; [discriminate H |].
  destruct (p z) as [[|]|e] eqn:Hp; simpl in H; try discriminate H.
  - injection H as <- <-. rewrite Nat.sub_diag. simpl. now rewrite Hy.
  - pose proof (find_first_spec _ _ _ _ _ H) as (Hle & _).
    replace (i - n) with (S (i - S n)) by lia. simpl. rewrite Hp. simpl.
    now apply IH.
Qed.

Lemma find_client_insert (clients : list json) (wanted : json) (i : nat)
    (c : json) (d' : Dict.t) (v : json) :
  find_client clients wanted = Ok (Some (i, c)) ->
  Dict.get "id" d' = Some v -> py_eq v wanted = true ->
  find_client (<[i := JDict d']> clients) wanted = Ok (Some (i, JDict d')).
Proof.
  intros H G E. unfold find_client in *.
  pose proof (find_first_insert _ _ _ _ _ (JDict d') H) as Hi.
  rewrite Nat.sub_0_r in Hi. apply Hi. simpl. rewrite G. simpl. now rewrite E.
Qed.

(** ** The detail view *)

Lemma list_index_among (options : list string) (v : json) (i : nat) :
  among options v = true <-> exists j : nat, list_index options v i = Ok j.
Proof.
  unfold among. revert i.
  induction options as [|o options IH]; intros i; cbn [existsb list_index].
  - split; [discriminate | intros [j Hj]; discriminate Hj].
  - destruct (py_eq (JStr o) v); cbn [orb]; [| apply IH].
    split; [eauto | reflexivity].
Qed.




(** A found client whose status is none of the three options stops the
    run at the edit form, whatever was pressed: nothing is updated or
    deleted. *)
Lemma client_details_unknown_status (clients : list json) (selected_id : string)
    (update : option client_form) (confirm_delete : string) (delete_button : bool)
    (i : nat) (d : Dict.t) (status : json) (w : world) :
  find_client clients (JStr selected_id) = Ok (Some (i, JDict d)) ->
  show_profile (JDict d) = Ok tt ->
  Dict.get "status" d = Some status ->
  among status_options status = false ->
  client_details clients selected_id update confirm_delete delete_button w
  = Raise ValueError.
Proof.
  intros Hfind Hshow Hstatus Hno.
  destruct (find_client_spec _ _ _ _ Hfind) as (_ & d0 & v & Hd & Hid & _).
  injection Hd as <-.
  unfold client_details.
  rewrite (bind_ok _ _ w w (Some (i, JDict d))) by (unfold lift; now rewrite Hfind).
  rewrite (dict_with_key_truthy _ _ _ Hid).
  rewrite (bind_ok _ _ w w tt) by (unfold lift; now rewrite Hshow).
  unfold show_profile, py_getitem in Hshow.
  unfold edit_form_defaults, bind at 1, lift, py_getitem.
  destruct (Dict.get "name" d); [| discriminate Hshow].
  destruct (Dict.get "email" d); [| discriminate Hshow].
  destruct (Dict.get "phone" d); [| discriminate Hshow].
  rewrite Hstatus.
  unfold bind.
  destruct (list_index status_options status 0) as [n|e] eqn:E.
  - assert (among status_options status = true)
      by (apply (list_index_among _ _ 0); eauto).
    congruence.
  - revert E. unfold status_options. simpl.
    repeat match goal with
           | |- context [if ?b then _ else _] => destruct b
           end; congruence.
Qed.

(** The third of the examples below has a status the form does not
    offer: its detail view cannot be drawn, so it can be neither updated
    nor deleted from the page. *)
Lemma client_details_of_prospect (w : world) :
  update_client (sample_clients ++ [prospect_client]) "c9d0e1f2" true sample_form w
  = Raise ValueError
  /\ delete_client (sample_clients ++ [prospect_client]) "c9d0e1f2" "Zed" true w
     = Raise ValueError.
Proof.
  assert (Hfind : find_client (sample_clients ++ [prospect_client]) (JStr "c9d0e1f2")
                  = Ok (Some (2, prospect_client)))
    by reflexivity.
  split; unfold update_client, delete_client;
    apply (client_details_unknown_status _ _ _ _ _ 2 _ (JStr "Prospect") w Hfind);
    reflexivity.
Qed.

(** Years below 1000 are written with fewer than four digits. *)
Lemma strftime_ymd_short_year :
  strftime_ymd {| year := 999; month := 3; day := 9; hour := 0; minute := 0 |}
  = "999-03-09"
  /\ strptime_ymd (JStr "999-03-09") = Raise ValueError
  /\ strptime_ymd (JStr "2024-03-09")
     = Ok {| year := 2024; month := 3; day := 9; hour := 0; minute := 0 |}.
Proof. repeat split; vm_compute; reflexivity. Qed.

(** ** Editing a client *)





(** ** Deleting a client *)


Lemma filter_keeps_all {A} (P : A -> Prop) `{!forall x, Decision (P x)} (l : list A) :
  (forall (j : nat) (y : A), l !! j = Some y -> P y) -> filter P l = l.
Proof.
  induction l as [|y l IH]; intros Hall; [reflexivity |].
  rewrite filter_cons_True by (apply (Hall 0 y); reflexivity).
  f_equal. apply IH. intros j z Hz. apply (Hall (S j) z). exact Hz.
Qed.





(** ** Adding a note *)

Lemma dict_set_set (k : string) (v v' : json) (d : Dict.t) :
  Dict.set k v (Dict.set k v' d) = Dict.set k v d.
Proof.
  induction d as [|[k0 v0] d IH]; simpl.
  - now rewrite String.eqb_refl.
  - destruct (String.eqb k k0) eqn:E; simpl; rewrite E; [reflexivity | now rewrite IH].
Qed.

Lemma add_note_step (clients : list json) (selected_client_id note_text : string)
    (i : nat) (d : Dict.t) (old : list json) (w : world) :
  find_client clients (JStr selected_client_id) = Ok (Some (i, JDict d)) ->
  notes_of d = Some old ->
  note_text <> "" ->
  let d' := Dict.set "notes" (JList (new_note note_text w :: old)) d in
  add_note clients selected_client_id true note_text w
  = Ok ((<[i := JDict d']> clients, Rerun),
        say_note_added
          (write_db (clients_document (<[i := JDict d']> clients)) (advance 1 w))).
Proof.
  intros Hfind Hnotes Htext d'.
  destruct (find_client_spec _ _ _ _ Hfind) as (Hlook & d0 & v & Hd & Hid & Heq).
  injection Hd as <-.
  unfold add_note.
  rewrite (bind_ok _ _ w w (Some (i, JDict d))) by (unfold lift; now rewrite Hfind).
  rewrite (dict_with_key_truthy _ _ _ Hid).
  assert (Ht : py_truthy (JStr note_text) = true).
  { simpl. destruct (String.eqb note_text "") eqn:E; [| reflexivity].
    apply String.eqb_eq in E. contradiction. }
  rewrite Ht. cbn [andb].
  rewrite (bind_ok _ _ w w _ (default_field_dict _ _ _ d w eq_refl)).
  rewrite (bind_ok _ _ w w (clock w)) by reflexivity.
  rewrite (bind_ok _ _ w (advance 1 w) (short_id (urandom w (drawn w)))) by reflexivity.
  cbv zeta.
  assert (Hget : Dict.get "notes" (set_default "notes" (JList []) d) = Some (JList old)).
  { rewrite DictFacts.get_set_default. simpl. unfold notes_of in Hnotes.
    destruct (Dict.get "notes" d) as [[| | | |l|]|]; simpl; congruence. }
  rewrite (bind_ok _ _ _ (advance 1 w) (JList old))
    by (unfold lift, py_getitem; now rewrite Hget).
  rewrite (bind_ok _ _ _ (advance 1 w) (JList (new_note note_text w :: old)))
    by reflexivity.
  assert (Hset : Dict.set "notes" (JList (new_note note_text w :: old))
                   (set_default "notes" (JList []) d) = d').
  { unfold set_default, d'. destruct (Dict.mem "notes" d); [reflexivity |].
    apply dict_set_set. }
  rewrite (bind_ok _ _ _ (advance 1 w) (JDict d'))
    by (unfold lift, py_setitem; now rewrite Hset).
  rewrite (bind_ok _ _ _ _ _ (save_data_clients _ _)).
  reflexivity.
Qed.

(** C6.  For a client found by the selected id whose notes are a list (or
    not there yet), submitting a non-empty text puts the new note in front
    of the notes the client had.  So after text [a] is submitted and then,
    in a later run at whatever time and entropy, text [b], the client's
    notes start with the note for [b], then the note for [a], then the old
    notes.  Each new note has three fields: the text, the date and time of
    its run as year-month-day hour:minute, and an id that is the first 8
    characters of the UUID made from the next draw of the generator; the
    draw is used up, so the next id minted comes from the draw after it.
    Each submission writes the list to the file. *)
Theorem add_note_inserts_at_front
    (clients : list json) (selected_client_id a b : string)
    (i : nat) (d : Dict.t) (old : list json) (w : world) :
  find_client clients (JStr selected_client_id) = Ok (Some (i, JDict d)) ->
  notes_of d = Some old ->
  a <> "" -> b <> "" ->
  exists (clients1 : list json) (w1 : world) (d1 : Dict.t) (note_a : json),
    add_note clients selected_client_id true a w = Ok ((clients1, Rerun), w1)
    /\ db_file w1 = Stored (clients_document clients1)
    /\ clients1 !! i = Some (JDict d1)
    /\ Dict.get "notes" d1 = Some (JList (note_a :: old))
    /\ note_a = JDict [("text", JStr a);
                       ("date", JStr (strftime_ymd_hm (clock w)));
                       ("id", JStr (short_id (urandom w (drawn w))))]
    /\ String.length (short_id (urandom w (drawn w))) = 8
    /\ drawn w1 = S (drawn w)
    /\ urandom w1 = urandom w
    /\ clock w1 = clock w
    /\ forall w' : world,
         exists (clients2 : list json) (w2 : world) (d2 : Dict.t) (note_b : json),
           add_note clients1 selected_client_id true b w' = Ok ((clients2, Rerun), w2)
           /\ db_file w2 = Stored (clients_document clients2)
           /\ clients2 !! i = Some (JDict d2)
           /\ Dict.get "notes" d2 = Some (JList (note_b :: note_a :: old))
           /\ note_b = JDict [("text", JStr b);
                              ("date", JStr (strftime_ymd_hm (clock w')));
                              ("id", JStr (short_id (urandom w' (drawn w'))))]
           /\ drawn w2 = S (drawn w').
Proof.
  intros Hfind Hnotes Ha Hb.
  destruct (find_client_spec _ _ _ _ Hfind) as (Hlook & d0 & v & Hd & Hid & Heq).
  injection Hd as <-.
  pose proof (lookup_lt_Some _ _ _ Hlook) as Hlt.
  set (d1 := Dict.set "notes" (JList (new_note a w :: old)) d).
  exists (<[i := JDict d1]> clients). eexists. exists d1, (new_note a w).
  split; [exact (add_note_step _ _ _ _ _ _ w Hfind Hnotes Ha) |].
  split; [reflexivity |].
  split; [now apply list_lookup_insert_eq |].
  split; [apply DictFacts.get_set_eq |].
  split; [reflexivity |].
  split; [apply length_short_id |].
  split; [reflexivity |]. split; [reflexivity |]. split; [reflexivity |].
  intros w'.
  assert (Hfind1 : find_client (<[i := JDict d1]> clients) (JStr selected_client_id)
                   = Ok (Some (i, JDict d1))).
  { apply (find_client_insert _ _ _ _ d1 v Hfind); [| exact Heq].
    unfold d1. rewrite DictFacts.get_set_ne by discriminate. exact Hid. }
  assert (Hnotes1 : notes_of d1 = Some (new_note a w :: old)).
  { unfold notes_of, d1. now rewrite DictFacts.get_set_eq. }
  set (d2 := Dict.set "notes" (JList (new_note b w' :: new_note a w :: old)) d1).
  exists (<[i := JDict d2]> (<[i := JDict d1]> clients)). eexists.
  exists d2, (new_note b w').
  split; [exact (add_note_step _ _ _ _ _ _ w' Hfind1 Hnotes1 Hb) |].
  split; [reflexivity |].
  split; [apply list_lookup_insert_eq; now rewrite length_insert |].
  split; [apply DictFacts.get_set_eq |].
  split; reflexivity.
Qed.

Lemma add_note_inserts_at_front_witness :
  exists (clients1 clients2 : list json) (w1 w2 : world) (d2 : Dict.t),
    add_note sample_clients "e5f6a7b8" true "called back" (sample_world Absent)
    = Ok ((clients1, Rerun), w1)
    /\ add_note clients1 "e5f6a7b8" true "sent quote" w1 = Ok ((clients2, Rerun), w2)
    /\ clients2 !! 1 = Some (JDict d2)
    /\ Dict.get "notes" d2
       = Some (JList [ JDict [("text", JStr "sent quote");
                              ("date", JStr "2024-01-05 09:30");
                              ("id", JStr "02468acf")];
                       JDict [("text", JStr "called back");
                              ("date", JStr "2024-01-05 09:30");
                              ("id", JStr "01234567")];
                       JDict [("text", JStr "met at fair");
                              ("date", JStr "2024-01-02 10:00");
                              ("id", JStr "0a0b0c0d")] ])
    /\ db_file w2 = Stored (clients_document clients2).
Proof.
  assert (Hfind : find_client sample_clients (JStr "e5f6a7b8")
                  = Ok (Some (1, client_record "e5f6a7b8" "Bob" "Active" "2024-01-02"
                                   500 [] [old_note])))
    by reflexivity.
  destruct (add_note_inserts_at_front sample_clients "e5f6a7b8"
              "called back" "sent quote" 1 _ [old_note]
              (sample_world Absent) Hfind eq_refl)
    as (clients1 & w1 & d1 & note_a & Hrun & _ & _ & _ & Ha & _ & Hdrawn & Hrandom
        & Hclock & Hnext);
    [discriminate | discriminate |].
  destruct (Hnext w1)
    as (clients2 & w2 & d2 & note_b & Hrun2 & Hfile & Hlook & Hnotes & Hb & _).
  exists clients1, clients2, w1, w2, d2.
  split; [exact Hrun |]. split; [exact Hrun2 |]. split; [exact Hlook |].
  split; [| exact Hfile].
  rewrite Hnotes, Hb, Ha, Hclock, Hrandom, Hdrawn.
  reflexivity.
Defined.

(** ** Sorting the task list by priority *)

Lemma StronglySorted_lookup {B} (R : B -> B -> Prop) (l : list B) :
  StronglySorted R l ->
  forall (i j : nat) (x y : B),
    i < j -> l !! i = Some x -> l !! j = Some y -> R x y.
Proof.
  induction 1 as [|a l Hsorted IH Hall]; intros i j x y Hij Hi Hj; [discriminate Hi |].
  destruct j as [|j]; [lia |]. simpl in Hj.
  destruct i as [|i]; simpl in Hi.
  - injection Hi as ->. eapply Forall_lookup_1; eassumption.
  - apply (IH i j); [lia | assumption | assumption].
Qed.

Section KeyedSort.

Context {A : Type}.

Definition key_le (a b : nat * A) : Prop := a.1 <= b.1.

Lemma insert_keyed_perm (k : nat) (x : A) (l : list (nat * A)) :
  insert_keyed k x l ≡ₚ (k, x) :: l.
Proof.
  induction l as [|[k' y] l IH]; simpl; [reflexivity |].
  destruct (Nat.leb k k'); [reflexivity |].
  rewrite IH. apply perm_swap.
Qed.

Lemma sort_keyed_perm (l : list (nat * A)) : sort_keyed l ≡ₚ l.
Proof.
  induction l as [|[k x] l IH]; simpl; [reflexivity |].
  now rewrite insert_keyed_perm, IH.
Qed.

Lemma insert_keyed_sorted (k : nat) (x : A) (l : list (nat * A)) :
  StronglySorted key_le l -> StronglySorted key_le (insert_keyed k x l).
Proof.
  induction 1 as [|[k' y] l Hsorted IH Hall]; simpl.
  - repeat constructor.
  - destruct (Nat.leb k k') eqn:E.
    + apply Nat.leb_le in E. constructor; [now constructor |].
      constructor; [exact E |].
      eapply Forall_impl; [exact Hall |].
      intros [k2 z] Hz. unfold key_le in *. simpl in *. lia.
    + apply Nat.leb_gt in E. constructor; [exact IH |].
      rewrite insert_keyed_perm. constructor; [| exact Hall].
      unfold key_le. simpl. lia.
Qed.

Lemma sort_keyed_sorted (l : list (nat * A)) : StronglySorted key_le (sort_keyed l).
Proof.
  induction l as [|[k x] l IH]; simpl; [constructor |].
  now apply insert_keyed_sorted.
Qed.

(** Stability: an inserted item lands in front of the items that share
    its key, and the others keep their order. *)
Lemma insert_keyed_filter (r k : nat) (x : A) (l : list (nat * A)) :
  filter (fun p => p.1 = r) (insert_keyed k x l)
  = filter (fun p => p.1 = r) ((k, x) :: l).
Proof.
  induction l as [|[k' y] l IH]; simpl; [reflexivity |].
  destruct (Nat.leb k k') eqn:E; [reflexivity |].
  apply Nat.leb_gt in E.
  rewrite (filter_cons _ (k', y)), IH, !filter_cons. simpl.
  destruct (decide (k' = r)) as [-> | Hk']; [| reflexivity].
  destruct (decide (k = r)) as [-> | Hk]; [lia | reflexivity].
Qed.

Lemma sort_keyed_stable (r : nat) (l : list (nat * A)) :
  filter (fun p => p.1 = r) (sort_keyed l) = filter (fun p => p.1 = r) l.
Proof.
  induction l as [|[k x] l IH]; simpl; [reflexivity |].
  rewrite insert_keyed_filter, !filter_cons, IH. reflexivity.
Qed.

(** A list that is in key order and keeps, key by key, the items of [l] in
    their order is the list [sort_keyed] returns: a stable sort has one
    possible result, whatever the algorithm behind [sorted]. *)
Lemma stable_sorted_unique (l1 l2 : list (nat * A)) :
  StronglySorted key_le l1 -> StronglySorted key_le l2 ->
  (forall r : nat, filter (fun p => p.1 = r) l1 = filter (fun p => p.1 = r) l2) ->
  l1 = l2.
Proof.
  assert (Hhead : forall (k k2 : nat) (x y : A) (t t2 : list (nat * A)),
             StronglySorted key_le ((k2, y) :: t2) ->
             filter (fun p => p.1 = k) ((k, x) :: t)
             = filter (fun p => p.1 = k) ((k2, y) :: t2) ->
             k2 <= k).
  { intros k k2 x y t t2 Hs Hf.
    assert (Hin : (k, x) ∈ (k2, y) :: t2).
    { eapply (proj1 (list_elem_of_filter (fun p => p.1 = k) _ _)).
      rewrite <- Hf, filter_cons_True by reflexivity. apply list_elem_of_here. }
    apply elem_of_cons in Hin as [Heq | Hin]; [injection Heq as -> _; lia |].
    apply StronglySorted_inv in Hs as [_ Hall].
    rewrite Forall_forall in Hall. apply (Hall _ Hin). }
  revert l2. induction l1 as [|[k x] l1 IH]; intros [|[k2 y] l2] Hs1 Hs2 Hf.
  - reflexivity.
  - specialize (Hf k2). rewrite filter_cons_True in Hf by reflexivity. discriminate Hf.
  - specialize (Hf k). rewrite filter_cons_True in Hf by reflexivity. discriminate Hf.
  - assert (k = k2) as <-.
    { pose proof (Hhead k k2 x y l1 l2 Hs2 (Hf k)).
      pose proof (Hhead k2 k y x l2 l1 Hs1 (eq_sym (Hf k2))). lia. }
    pose proof (Hf k) as Hk. rewrite !filter_cons_True in Hk by reflexivity.
    injection Hk as <- Hk. f_equal.
    apply StronglySorted_inv in Hs1 as [Hs1 _].
    apply StronglySorted_inv in Hs2 as [Hs2 _].
    apply (IH l2 Hs1 Hs2). intros r.
    destruct (decide (k = r)) as [<- | Hne]; [exact Hk |].
    specialize (Hf r). now rewrite !filter_cons_False in Hf by exact Hne.
Qed.

Lemma sort_keyed_unique (l l' : list (nat * A)) :
  StronglySorted key_le l' ->
  (forall r : nat, filter (fun p => p.1 = r) l' = filter (fun p => p.1 = r) l) ->
  l' = sort_keyed l.
Proof.
  intros Hs Hf. apply stable_sorted_unique; [exact Hs | apply sort_keyed_sorted |].
  intros r. now rewrite sort_keyed_stable.
Qed.

Variable rank : A -> nat.

Definition keyed (l : list A) : list (nat * A) := map (fun x => (rank x, x)) l.

Lemma map_r_keyed (key : A -> result nat) (l : list A) :
  Forall (fun x => key x = Ok (rank x)) l ->
  map_r (fun x => try! k := key x in Ok (k, x)) l = Ok (keyed l).
Proof.
  induction 1 as [|x l Hx _ IH]; simpl; [reflexivity |].
  rewrite Hx. simpl. rewrite IH. reflexivity.
Qed.

Lemma keyed_snd (l : list A) (s : list (nat * A)) :
  s ≡ₚ keyed l -> keyed (map snd s) = s.
Proof.
  intros Hperm.
  assert (Hall : Forall (fun p => p.1 = rank p.2) s).
  { rewrite Hperm. unfold keyed. apply Forall_map. now apply Forall_true. }
  clear Hperm. induction Hall as [|[k x] s Hp _ IH]; simpl; [reflexivity |].
  simpl in Hp. subst k. f_equal. exact IH.
Qed.

Lemma filter_keyed (r : nat) (l : list A) :
  map snd (filter (fun p => p.1 = r) (keyed l)) = filter (fun x => rank x = r) l.
Proof.
  induction l as [|x l IH]; simpl; [reflexivity |].
  rewrite !filter_cons. simpl.
  destruct (decide (rank x = r)); simpl; now rewrite IH.
Qed.

Lemma keyed_lookup (l : list A) (i : nat) (x : A) :
  l !! i = Some x -> keyed l !! i = Some (rank x, x).
Proof.
  revert i. induction l as [|y l IH]; intros [|i] Hi; simpl in *; try discriminate Hi.
  - now injection Hi as ->.
  - now apply IH.
Qed.

(** What [sorted(l, key=...)] returns when every key can be computed. *)
Lemma sorted_by_spec (key : A -> result nat) (l : list A) :
  Forall (fun x => key x = Ok (rank x)) l ->
  exists l' : list A,
    sorted_by key l = Ok l'
    /\ l' ≡ₚ l
    /\ (forall (i j : nat) (x y : A),
          i < j -> l' !! i = Some x -> l' !! j = Some y -> rank x <= rank y)
    /\ forall r : nat,
         filter (fun x => rank x = r) l' = filter (fun x => rank x = r) l.
Proof.
  intros Hkeys. exists (map snd (sort_keyed (keyed l))).
  pose proof (keyed_snd l _ (sort_keyed_perm (keyed l))) as Hsnd.
  split; [unfold sorted_by; now rewrite (map_r_keyed key l Hkeys) |].
  split.
  { rewrite sort_keyed_perm. unfold keyed. rewrite map_map. simpl.
    now rewrite map_id. }
  split.
  - intros i j x y Hij Hi Hj.
    pose proof (StronglySorted_lookup key_le _ (sort_keyed_sorted (keyed l))
                  i j (rank x, x) (rank y, y) Hij) as Hle.
    rewrite <- Hsnd in Hle.
    apply Hle; now apply keyed_lookup.
  - intros r. rewrite <- filter_keyed, Hsnd, sort_keyed_stable.
    apply filter_keyed.
Qed.

End KeyedSort.

Example sort_by_priority_sample :
  sort_by_priority sample_rows
  = Ok [ sample_row "Ana" "call back" "High";
         sample_row "Bob" "renew" "High";
         sample_row "Bob" "send quote" "Medium";
         sample_row "Ana" "archive" "Low";
         sample_row "Ana" "tidy up" "Low" ].
Proof. reflexivity. Qed.

Lemma priority_key_rank (x : task_row) :
  hashable (priority x) = true -> priority_key x = Ok (rank_of x).
Proof.
  unfold rank_of, priority_key. destruct (priority x); simpl; intros H;
    try reflexivity; discriminate H.
Qed.

Lemma has_priority_rank (label : string) (x : task_row) :
  has_priority label x = true ->
  rank_of x = default 1 (table_get label priority_order).
Proof.
  unfold has_priority, rank_of, priority_key. intros H.
  apply py_eq_str in H. now rewrite H.
Qed.

(** C5.  When the priority of every row is a value Python can hash (any
    string, in particular), sorting by priority returns the same rows
    rearranged so that a row with a smaller key stands before every row with
    a larger key; rows with priority High have key 0, Medium 1 and Low 2, so
    High rows come first, then Medium, then Low.  The rows of one key, and
    so the rows of one priority, stand in the order they had in the input. *)
Theorem sort_by_priority_is_stable (rows : list task_row) :
  Forall (fun x => hashable (priority x) = true) rows ->
  exists sorted : list task_row,
    sort_by_priority rows = Ok sorted
    /\ sorted ≡ₚ rows
    /\ (forall (i j : nat) (x y : task_row),
          sorted !! i = Some x -> sorted !! j = Some y ->
          rank_of x < rank_of y -> i < j)
    /\ (forall x : task_row, has_priority "High" x = true -> rank_of x = 0)
    /\ (forall x : task_row, has_priority "Medium" x = true -> rank_of x = 1)
    /\ (forall x : task_row, has_priority "Low" x = true -> rank_of x = 2)
    /\ (forall r : nat,
          filter (fun x => rank_of x = r) sorted = filter (fun x => rank_of x = r) rows)
    /\ (forall label : string,
          filter (fun x => has_priority label x = true) sorted
          = filter (fun x => has_priority label x = true) rows).
Proof.
  intros Hhash.
  destruct (sorted_by_spec rank_of priority_key rows) as (sorted & Hrun & Hperm & Hord & Hst).
  { eapply Forall_impl; [exact Hhash |]. intros x. apply priority_key_rank. }
  exists sorted.
  split; [exact Hrun |]. split; [exact Hperm |].
  split.
  { intros i j x y Hi Hj Hlt.
    destruct (Nat.lt_trichotomy i j) as [Hij | [-> | Hji]]; [exact Hij | |].
    - rewrite Hi in Hj. injection Hj as ->. lia.
    - pose proof (Hord j i y x Hji Hj Hi). lia. }
  split; [intros x Hx; now rewrite (has_priority_rank _ _ Hx) |].
  split; [intros x Hx; now rewrite (has_priority_rank _ _ Hx) |].
  split; [intros x Hx; now rewrite (has_priority_rank _ _ Hx) |].
  split; [exact Hst |].
  intros label.
  set (r := default 1 (table_get label priority_order)).
  rewrite <- (list_filter_filter_l (fun x => has_priority label x = true)
                (fun x => rank_of x = r) sorted)
    by (intros x; apply has_priority_rank).
  rewrite <- (list_filter_filter_l (fun x => has_priority label x = true)
                (fun x => rank_of x = r) rows)
    by (intros x; apply has_priority_rank).
  now rewrite Hst.
Qed.

Lemma sort_by_priority_is_stable_witness :
  Forall (fun x => hashable (priority x) = true) sample_rows
  /\ exists sorted : list task_row,
       sort_by_priority sample_rows = Ok sorted
       /\ sorted ≡ₚ sample_rows
       /\ filter (fun x => has_priority "Low" x = true) sorted
          = [sample_row "Ana" "archive" "Low"; sample_row "Ana" "tidy up" "Low"].
Proof.
  assert (Hhash : Forall (fun x => hashable (priority x) = true) sample_rows)
    by (repeat constructor).
  split; [exact Hhash |].
  destruct (sort_by_priority_is_stable sample_rows Hhash)
    as (sorted & Hrun & Hperm & _ & _ & _ & _ & _ & Hlabel).
  exists sorted. split; [exact Hrun |]. split; [exact Hperm |].
  rewrite Hlabel. reflexivity.
Defined.

(** ** Deleting a task *)

(** What the handler removes: the first task of the client found whose
    description equals the description of the row. *)
Lemma delete_task_pops_first_match
    (clients : list json) (row : task_row) (i j : nat) (d : Dict.t)
    (tasks : list json) (t : json) (w : world) :
  find_client clients (client_id row) = Ok (Some (i, JDict d)) ->
  Dict.get "tasks" d = Some (JList tasks) ->
  find_first (fun t => try! desc := py_getitem t "task" in
                       Ok (py_eq desc (task row))) 0 tasks = Ok (Some (j, t)) ->
  let clients' := <[i := JDict (Dict.set "tasks" (JList (delete j tasks)) d)]> clients in
  delete_task clients row w
  = Ok ((clients', Rerun), write_db (clients_document clients') w).
Proof.
  intros Hfind Htasks Hhit clients'.
  destruct (find_first_spec _ _ _ _ _ Hhit) as (_ & Hj & _).
  rewrite Nat.sub_0_r in Hj. apply lookup_lt_Some in Hj.
  unfold delete_task.
  rewrite (bind_ok _ _ w w (Some (i, JDict d))) by (unfold lift; now rewrite Hfind).
  rewrite (dict_with_key_truthy _ _ _ Htasks).
  rewrite (bind_ok _ _ w w (JList tasks)) by (unfold lift, py_get; now rewrite Htasks).
  rewrite (bind_ok _ _ w w tasks) by reflexivity.
  rewrite (bind_ok _ _ w w (Some (j, t))) by (unfold lift; now rewrite Hhit).
  rewrite (bind_ok _ _ w w (JList tasks))
    by (unfold lift, py_getitem; now rewrite Htasks).
  rewrite (bind_ok _ _ w w (JList (delete j tasks))).
  2:{ unfold lift, py_pop. apply Nat.ltb_lt in Hj. now rewrite Hj. }
  rewrite (bind_ok _ _ w w (JDict (Dict.set "tasks" (JList (delete j tasks)) d)))
    by reflexivity.
  cbv zeta. rewrite (bind_ok _ _ _ _ _ (save_data_clients _ _)).
  reflexivity.
Qed.

(** C4.  The claim is that the delete button of a task removes the task at
    that position of the client's list, also when descriptions repeat.  The
    handler does not know the position: it searches the client's tasks for
    the first one whose description equals the row's and pops that one.
    Here a client has two tasks described "Call", the first of priority
    High, the second Low.  The list shown has the Low task as its second
    row, at position 1 of the client's tasks; pressing its button removes
    position 0, the High task, and that is what is written to the file. *)
Theorem delete_task_removes_first_same_description (w : world) :
  (exists rows : list task_row,
     all_tasks [client_with_tasks [call_high; call_low]] = Ok rows
     /\ sort_by_priority rows = Ok rows
     /\ rows !! 1 = Some row_of_call_low)
  /\ delete_task [client_with_tasks [call_high; call_low]] row_of_call_low w
     = Ok (([client_with_tasks [call_low]], Rerun),
           write_db (clients_document [client_with_tasks [call_low]]) w)
  /\ [client_with_tasks (delete 1 [call_high; call_low])]
     = [client_with_tasks [call_high]]
  /\ client_with_tasks [call_low] <> client_with_tasks [call_high].
Proof.
  split; [| split; [| split]].
  - eexists. split; [reflexivity |]. split; reflexivity.
  - reflexivity.
  - reflexivity.
  - discriminate.
Qed.

(** ** Dashboard counts *)

(** C8, as stated, fails on the code: a client whose status is none of
    Lead, Active, Inactive is counted in the total only.  The status counts
    have exactly the three keys, none of them a catch-all, and here they
    add up to 2 for a collection of three clients. *)
Lemma dashboard_counterexample :
  dashboard (sample_clients ++ [prospect_client])
  = Ok {| num_clients := 3; num_leads := 1; num_active := 1; num_inactive := 0;
          total_value := 510;
          status_counts := [("Lead", 1); ("Active", 1); ("Inactive", 0)] |}.
Proof. reflexivity. Qed.

Lemma count_status_chartable (label : string) (clients : list json) :
  Forall (fun c => chartable c = true) clients ->
  count_status label clients
  = Ok (length (filter (fun c => status_is label c = true) clients)).
Proof.
  intros Hall. unfold count_status.
  assert (H : filter_r (fun c => try! s := py_getitem c "status" in
                                 Ok (py_eq s (JStr label))) clients
              = Ok (filter (fun c => status_is label c = true) clients));
    [| now rewrite H].
  induction Hall as [|c clients Hc _ IH]; simpl; [reflexivity |].
  destruct c as [| | | | |d]; simpl in Hc; try discriminate Hc.
  rewrite DictFacts.mem_get in Hc. rewrite filter_cons. simpl.
  destruct (Dict.get "status" d) as [s|]; [| discriminate Hc]. simpl.
  rewrite IH. simpl. destruct (py_eq s (JStr label)); reflexivity.
Qed.

Lemma sum_values_chartable (clients : list json) (acc : Z) :
  Forall (fun c => chartable c = true) clients ->
  exists total : Z, sum_values acc clients = Ok total.
Proof.
  intros Hall. revert acc.
  induction Hall as [|c clients Hc _ IH]; intros acc; simpl; [now exists acc |].
  destruct c as [| | | | |d]; simpl in Hc; try discriminate Hc.
  apply andb_prop in Hc as [_ Hv]. simpl.
  destruct (Dict.get "value" d) as [[| | | | |]|]; try discriminate Hv; simpl; apply IH.
Qed.

Lemma status_is_exclusive (a b : string) (c : json) :
  status_is a c = true -> status_is b c = true -> a = b.
Proof.
  unfold status_is. destruct c as [| | | | |d]; try discriminate.
  destruct (Dict.get "status" d) as [s|]; [| discriminate].
  intros Ha Hb. apply py_eq_str in Ha, Hb. congruence.
Qed.

Lemma length_filter_is {A} (f : A -> bool) (b : bool) (x : A) (l : list A) :
  length (filter (fun y => f y = b) (x :: l))
  = (if Bool.eqb (f x) b then 1 else 0) + length (filter (fun y => f y = b) l).
Proof.
  destruct (Bool.eqb (f x) b) eqn:E.
  - apply Bool.eqb_prop in E. now rewrite filter_cons_True.
  - apply Bool.eqb_false_iff in E. now rewrite filter_cons_False.
Qed.

(** Every client falls under exactly one of the three labels or under none. *)
Lemma status_partition (clients : list json) :
  length (filter (fun c => status_is "Lead" c = true) clients)
  + length (filter (fun c => status_is "Active" c = true) clients)
  + length (filter (fun c => status_is "Inactive" c = true) clients)
  + length (filter (fun c => recognised c = false) clients)
  = length clients.
Proof.
  induction clients as [|c clients IH]; [reflexivity |].
  rewrite !length_filter_is. unfold recognised at 1.
  destruct (status_is "Lead" c) eqn:L, (status_is "Active" c) eqn:A,
           (status_is "Inactive" c) eqn:I; simpl;
    try (pose proof (status_is_exclusive _ _ _ L A); discriminate);
    try (pose proof (status_is_exclusive _ _ _ L I); discriminate);
    try (pose proof (status_is_exclusive _ _ _ A I); discriminate);
    lia.
Qed.

(** C8, amended.  For records that have a status (and a numeric or missing
    value), the dashboard is computed without failure for any status
    values.  The status counts are the three entries Lead, Active,
    Inactive, each the number of clients with that status; a client with
    any other status is in none of them, so the three counts together with
    the number of such clients make up the total number of clients. *)
Theorem dashboard_counts_recognised_statuses (clients : list json) :
  Forall (fun c => chartable c = true) clients ->
  exists m : metrics,
    dashboard clients = Ok m
    /\ num_clients m = length clients
    /\ status_counts m
       = [("Lead", num_leads m); ("Active", num_active m); ("Inactive", num_inactive m)]
    /\ num_leads m = length (filter (fun c => status_is "Lead" c = true) clients)
    /\ num_active m = length (filter (fun c => status_is "Active" c = true) clients)
    /\ num_inactive m = length (filter (fun c => status_is "Inactive" c = true) clients)
    /\ num_leads m + num_active m + num_inactive m
       + length (filter (fun c => recognised c = false) clients)
       = num_clients m.
Proof.
  intros Hall.
  destruct (sum_values_chartable clients 0 Hall) as (total & Htotal).
  eexists. split.
  { unfold dashboard. rewrite !(count_status_chartable _ _ Hall). simpl.
    rewrite Htotal. simpl. reflexivity. }
  simpl. repeat (split; [reflexivity |]). apply status_partition.
Qed.

Lemma dashboard_counts_recognised_statuses_witness :
  Forall (fun c => chartable c = true) (sample_clients ++ [prospect_client])
  /\ exists m : metrics,
       dashboard (sample_clients ++ [prospect_client]) = Ok m
       /\ status_counts m = [("Lead", 1); ("Active", 1); ("Inactive", 0)]
       /\ num_clients m = 3.
Proof.
  assert (Hall : Forall (fun c => chartable c = true)
                    (sample_clients ++ [prospect_client]))
    by (repeat constructor).
  split; [exact Hall |].
  destruct (dashboard_counts_recognised_statuses _ Hall)
    as (m & Hrun & Hn & Hcounts & Hl & Ha & Hi & _).
  exists m. split; [exact Hrun |].
  split; [| exact Hn].
  rewrite Hcounts, Hl, Ha, Hi. reflexivity.
Defined.

(** * Further properties of the script *)

(** ** Adding a client *)

Lemma truthy_str (s : string) : py_truthy (JStr s) = true <-> s <> "".
Proof.
  simpl. destruct (String.eqb s "") eqn:E; simpl.
  - apply String.eqb_eq in E. split; [discriminate | congruence].
  - apply String.eqb_neq in E. split; [intros _; exact E | reflexivity].
Qed.

Lemma find_first_app_miss {A} (p : A -> result bool) (l l' : list A) (n : nat) :
  Forall (fun x => p x = Ok false) l ->
  find_first p n (l ++ l') = find_first p (n + length l) l'.
Proof.
  intros Hall. revert n. induction Hall as [|x l Hx _ IH]; intros n; simpl.
  - now rewrite Nat.add_0_r.
  - rewrite Hx. simpl. rewrite IH. f_equal. lia.
Qed.

Lemma find_client_miss (clients : list json) (selected_id : string) :
  Forall (fun c => is_record c = true /\ has_id selected_id c = false) clients ->
  Forall (fun c => (try! v := py_getitem c "id" in Ok (py_eq v (JStr selected_id)))
                   = Ok false) clients.
Proof.
  intros Hall. eapply Forall_impl; [exact Hall |]. intros c [Hrec Hid].
  destruct c as [| | | | |d]; simpl in Hrec; try discriminate Hrec.
  rewrite DictFacts.mem_get in Hrec. simpl in *.
  destruct (Dict.get "id" d); [simpl; now rewrite Hid | discriminate Hrec].
Qed.

Lemma find_first_hit {A} (p : A -> result bool) (n : nat) (x : A) (l : list A) :
  p x = Ok true -> find_first p n (x :: l) = Ok (Some (n, x)).
Proof. intros H. simpl. now rewrite H. Qed.

(** X1.  With a name, a phone and an email, submitting the sidebar form
    puts one new record at the end of the list and saves the list: the
    records already there keep their places, the new one has the values of
    the form, no tasks, no notes, today's date, an id of 8 characters from
    the generator, and it is complete, so the next run's loop leaves it
    alone. *)
Theorem add_client_appends (l : list json) (f : client_form) (w : world) :
  new_name f <> "" -> new_phone f <> "" -> new_email f <> "" ->
  exists (d : Dict.t) (w' : world),
    add_client (JList l) true f w = Ok ((JList (l ++ [JDict d]), Rerun), w')
    /\ db_file w' = Stored (clients_document (l ++ [JDict d]))
    /\ (forall (i : nat) (c : json), l !! i = Some c -> (l ++ [JDict d]) !! i = Some c)
    /\ (l ++ [JDict d]) !! length l = Some (JDict d)
    /\ Dict.get "id" d = Some (JStr (short_id (urandom w (drawn w))))
    /\ String.length (short_id (urandom w (drawn w))) = 8
    /\ Dict.get "name" d = Some (JStr (new_name f))
    /\ Dict.get "phone" d = Some (JStr (new_phone f))
    /\ Dict.get "email" d = Some (JStr (new_email f))
    /\ Dict.get "status" d = Some (JStr (new_status f))
    /\ Dict.get "value" d = Some (JNum (new_value f))
    /\ Dict.get "source" d = Some (JStr (new_source f))
    /\ Dict.get "tags" d = Some (JList (map JStr (new_tags f)))
    /\ Dict.get "follow_up_date" d = Some (JStr (strftime_ymd (new_follow_up f)))
    /\ Dict.get "date_added" d = Some (JStr (strftime_ymd (clock w)))
    /\ Dict.get "tasks" d = Some (JList [])
    /\ Dict.get "notes" d = Some (JList [])
    /\ is_healed d = true.
Proof.
  intros Hn Hp He.
  apply truthy_str in Hn, Hp, He.
  eexists. eexists. split.
  { unfold add_client. rewrite Hn, Hp, He. reflexivity. }
  split; [reflexivity |].
  split; [intros i c Hi; now apply lookup_app_l_Some |].
  split; [now rewrite list_lookup_middle |].
  split; [reflexivity |]. split; [apply length_short_id |].
  do 11 (split; [reflexivity |]).
  unfold is_healed, id_stale. simpl. reflexivity.
Qed.

Lemma add_client_appends_witness :
  new_name sample_form <> "" /\ new_phone sample_form <> "" /\ new_email sample_form <> ""
  /\ exists (d : Dict.t) (w' : world),
       add_client (JList sample_clients) true sample_form (sample_world Absent)
       = Ok ((JList (sample_clients ++ [JDict d]), Rerun), w')
       /\ Dict.get "id" d = Some (JStr "01234567")
       /\ Dict.get "name" d = Some (JStr "Robert").
Proof.
  assert (Hn : new_name sample_form <> "") by discriminate.
  assert (Hp : new_phone sample_form <> "") by discriminate.
  assert (He : new_email sample_form <> "") by discriminate.
  repeat (split; [assumption |]).
  destruct (add_client_appends sample_clients sample_form (sample_world Absent) Hn Hp He)
    as (d & w' & Hrun & _ & _ & _ & Hid & _ & Hname & _).
  exists d, w'. split; [exact Hrun |]. split; [exact Hid | exact Hname].
Defined.

(** X2.  When the name, the phone or the email is empty, submitting the
    form does nothing at all: the list is the same, nothing is written or
    shown, no id is drawn, and the run goes on.  No message tells the user
    why. *)
Theorem add_client_needs_name_phone_email
    (clients : json) (submit_button : bool) (f : client_form) (w : world) :
  new_name f = "" \/ new_phone f = "" \/ new_email f = "" ->
  add_client clients submit_button f w = Ok ((clients, Continue), w).
Proof.
  intros H. unfold add_client.
  assert (Hc : py_truthy (JStr (new_name f))
               && (py_truthy (JStr (new_phone f)) && py_truthy (JStr (new_email f)))
               = false).
  { destruct H as [-> | [-> | ->]]; simpl;
      [reflexivity | now rewrite andb_false_r | now rewrite !andb_false_r]. }
  rewrite Hc, andb_false_r. reflexivity.
Qed.

Lemma add_client_needs_name_phone_email_witness :
  add_client (JList sample_clients) true
    {| new_name := "Cy"; new_phone := ""; new_email := "cy@x.com"; new_status := "Lead";
       new_value := 0; new_source := "Direct"; new_tags := [];
       new_follow_up := {| year := 2024; month := 1; day := 12; hour := 0; minute := 0 |} |}
    (sample_world Absent)
  = Ok ((JList sample_clients, Continue), sample_world Absent).
Proof.
  apply add_client_needs_name_phone_email. right. left. reflexivity.
Defined.

Lemma find_first_only {A} (p : A -> result bool) (l : list A) (x : A) (n : nat) :
  p x = Ok true ->
  x ∈ l ->
  Forall (fun y => y = x \/ p y = Ok false) l ->
  exists j : nat, find_first p n l = Ok (Some (n + j, x)) /\ l !! j = Some x.
Proof.
  intros Hx. revert n. induction l as [|y l IH]; intros n Hin Hall.
  - now apply elem_of_nil in Hin.
  - apply Forall_cons in Hall as [Hy Hall]. simpl.
    destruct Hy as [-> | Hy].
    + rewrite Hx. exists 0. now rewrite Nat.add_0_r.
    + rewrite Hy. simpl.
      apply elem_of_cons in Hin as [-> | Hin]; [congruence |].
      destruct (IH (S n) Hin Hall) as (j & Hfind & Hj).
      exists (S j). split; [| exact Hj].
      rewrite Hfind. do 3 f_equal. lia.
Qed.

(** X3.  Adding a client ends the run.  The next run reads the saved list
    and sorts it before any lookup, so the new record may stand anywhere;
    wherever it stands, looking up the id that was drawn finds the new
    record, as long as no record that was there before has that id (the
    code does not check for that). *)
Theorem add_client_then_find (l : list json) (f : client_form) (w : world) :
  new_name f <> "" -> new_phone f <> "" -> new_email f <> "" ->
  Forall (fun c => is_record c = true
                   /\ has_id (short_id (urandom w (drawn w))) c = false) l ->
  exists (d : Dict.t) (w' : world),
    add_client (JList l) true f w = Ok ((JList (l ++ [JDict d]), Rerun), w')
    /\ db_file w' = Stored (clients_document (l ++ [JDict d]))
    /\ Dict.get "id" d = Some (JStr (short_id (urandom w (drawn w))))
    /\ Dict.get "name" d = Some (JStr (new_name f))
    /\ forall sorted : list json,
         sorted ≡ₚ l ++ [JDict d] ->
         exists j : nat,
           find_client sorted (JStr (short_id (urandom w (drawn w))))
           = Ok (Some (j, JDict d))
           /\ sorted !! j = Some (JDict d).
Proof.
  intros Hn Hp He Hfresh.
  apply truthy_str in Hn, Hp, He.
  eexists. eexists. split; [| split; [| split; [| split]]].
  - unfold add_client. rewrite Hn, Hp, He. reflexivity.
  - reflexivity.
  - reflexivity.
  - reflexivity.
  - intros sorted Hperm.
    match type of Hperm with
    | _ ≡ₚ _ ++ [JDict ?d] => set (new := d) in *
    end.
    assert (Hid : (try! v := py_getitem (JDict new) "id" in
                   Ok (py_eq v (JStr (short_id (urandom w (drawn w)))))) = Ok true).
    { unfold py_getitem.
      change (Dict.get "id" new) with (Some (JStr (short_id (urandom w (drawn w))))).
      unfold rbind, py_eq. now rewrite String.eqb_refl. }
    destruct (find_first_only
                (fun c => try! v := py_getitem c "id" in
                          Ok (py_eq v (JStr (short_id (urandom w (drawn w))))))
                sorted (JDict new) 0 Hid) as (j & Hfind & Hj).
    + rewrite Hperm. apply elem_of_app. right. apply list_elem_of_singleton.
      reflexivity.
    + symmetry in Hperm. apply (Permutation_Forall Hperm).
      apply Forall_app. split.
      * eapply Forall_impl; [exact (find_client_miss _ _ Hfresh) |].
        intros c Hc. now right.
      * constructor; [now left | constructor].
    + exists j. split; [exact Hfind | exact Hj].
Qed.

Lemma add_client_then_find_witness :
  exists (d : Dict.t) (w' : world) (j : nat),
    add_client (JList sample_clients) true sample_form (sample_world Absent)
    = Ok ((JList (sample_clients ++ [JDict d]), Rerun), w')
    /\ Dict.get "id" d = Some (JStr "01234567")
    /\ Dict.get "name" d = Some (JStr "Robert")
    /\ find_client (JDict d :: sample_clients) (JStr "01234567")
       = Ok (Some (j, JDict d))
    /\ (JDict d :: sample_clients) !! j = Some (JDict d).
Proof.
  assert (Hfresh : Forall (fun c => is_record c = true
                                    /\ has_id (short_id (urandom (sample_world Absent)
                                                           (drawn (sample_world Absent)))) c
                                       = false) sample_clients)
    by (repeat constructor; vm_compute; reflexivity).
  destruct (add_client_then_find sample_clients sample_form (sample_world Absent))
    as (d & w' & Hrun & _ & Hid & Hname & Hfind);
    [discriminate | discriminate | discriminate | exact Hfresh |].
  destruct (Hfind (JDict d :: sample_clients) (Permutation_cons_append _ _))
    as (j & Hj & Hlook).
  exists d, w', j.
  split; [exact Hrun |]. split; [exact Hid |]. split; [exact Hname |].
  split; [exact Hj | exact Hlook].
Defined.

(** ** Selection boxes *)

Lemma append_cons (x : ascii) (a b : string) : String x a +:+ b = String x (a +:+ b).
Proof. reflexivity. Qed.

Lemma append_nil (b : string) : "" +:+ b = b.
Proof. reflexivity. Qed.

Lemma append_assoc (a b c : string) : (a +:+ b) +:+ c = a +:+ (b +:+ c).
Proof.
  induction a as [|x a IH]; [reflexivity |].
  now rewrite !append_cons, IH.
Qed.

Lemma split_on_not_nil (sep : ascii) (s : string) : split_on sep s <> [].
Proof.
  induction s as [|c s IH]; simpl; [discriminate |].
  destruct (Ascii.eqb c sep); [discriminate |].
  destruct (split_on sep s); [contradiction | discriminate].
Qed.

(** Text without the separator stays glued to the first piece of what
    follows it. *)
Lemma split_on_app (sep : ascii) (a r : string) :
  occurs sep a = false ->
  exists (p : string) (ps : list string),
    split_on sep r = p :: ps /\ split_on sep (a +:+ r) = (a +:+ p) :: ps.
Proof.
  intros Ha. induction a as [|c a IH].
  - rewrite append_nil.
    destruct (split_on sep r) as [|p ps] eqn:E; [now destruct (split_on_not_nil sep r) |].
    now exists p, ps.
  - simpl in Ha. apply orb_false_elim in Ha as [Hc Ha].
    destruct (IH Ha) as (p & ps & Hr & Hs).
    exists p, ps. split; [exact Hr |].
    rewrite !append_cons. simpl. rewrite Hc, Hs. reflexivity.
Qed.

Lemma split_on_sep (sep : ascii) (r : string) :
  split_on sep (String sep r) = EmptyString :: split_on sep r.
Proof. simpl. now rewrite Ascii.eqb_refl. Qed.

Lemma append_empty_r (a : string) : a +:+ "" = a.
Proof.
  induction a as [|c a IH]; [reflexivity |].
  now rewrite append_cons, IH.
Qed.

(** The piece before the first separator. *)
Lemma split_on_first (sep : ascii) (a r : string) :
  occurs sep a = false ->
  split_on sep (a +:+ String sep r) = a :: split_on sep r.
Proof.
  intros Ha. destruct (split_on_app sep a (String sep r) Ha) as (p & ps & Hr & Hs).
  rewrite split_on_sep in Hr. injection Hr as <- <-.
  now rewrite Hs, append_empty_r.
Qed.

Lemma extract_id_spec (before inner after : string) :
  occurs "(" before = false ->
  occurs "(" inner = false -> occurs ")" inner = false ->
  extract_id (before +:+ String "(" (inner +:+ String ")" after)) = Ok inner.
Proof.
  intros Hb Hi1 Hi2. unfold extract_id.
  rewrite (split_on_first "(" before _ Hb).
  destruct (split_on_app "(" inner (String ")" after) Hi1) as (p & ps & Hr & ->).
  simpl in Hr.
  destruct (split_on "(" after) as [|q qs] eqn:E;
    [now destruct (split_on_not_nil "(" after) |].
  injection Hr as <- <-.
  now rewrite (split_on_first ")" inner _ Hi2).
Qed.

Lemma occurs_app (c : ascii) (a b : string) :
  occurs c (a +:+ b) = occurs c a || occurs c b.
Proof.
  induction a as [|x a IH]; [reflexivity |].
  rewrite append_cons. simpl. now rewrite IH, orb_assoc.
Qed.

Lemma extract_id_of_text (name id : string) :
  occurs "(" name = false -> occurs "(" id = false -> occurs ")" id = false ->
  extract_id (name +:+ " (" +:+ id +:+ ")") = Ok id.
Proof.
  intros Hn Hi1 Hi2.
  change (name +:+ " (" +:+ id +:+ ")")
    with (name +:+ (" " +:+ String "(" (id +:+ String ")" ""))).
  rewrite <- append_assoc. apply extract_id_spec; [| exact Hi1 | exact Hi2].
  rewrite occurs_app, Hn. reflexivity.
Qed.

(** X4.  The id is read back out of the text of a selection-box option:
    for a record whose name is a string without "(" and whose id is a
    string without "(" and ")", the option text is the name, a space and
    the id in parentheses, and splitting it at the first "(" and then at
    ")" gives the id again. *)
Theorem extract_id_of_label (repr : json -> string) (c : json) (name id : string) :
  named name id c ->
  occurs "(" name = false -> occurs "(" id = false -> occurs ")" id = false ->
  option_label repr c = Ok (name +:+ " (" +:+ id +:+ ")")
  /\ extract_id (name +:+ " (" +:+ id +:+ ")") = Ok id.
Proof.
  intros [Hname Hid] Hn Hi1 Hi2. split.
  - unfold option_label. rewrite Hname, Hid. reflexivity.
  - now apply extract_id_of_text.
Qed.

Lemma extract_id_of_label_witness :
  named "Ana" "a1b2c3d4" (default JNull (sample_clients !! 0))
  /\ option_label sample_repr (default JNull (sample_clients !! 0)) = Ok "Ana (a1b2c3d4)"
  /\ extract_id "Ana (a1b2c3d4)" = Ok "a1b2c3d4".
Proof.
  assert (H : named "Ana" "a1b2c3d4" (default JNull (sample_clients !! 0)))
    by (split; reflexivity).
  split; [exact H |].
  exact (extract_id_of_label sample_repr _ "Ana" "a1b2c3d4" H eq_refl eq_refl eq_refl).
Defined.

(** X5.  A name that itself has a part in parentheses breaks the lookup:
    the text taken for the id is that part of the name, whatever the id
    is.  (For "Bob (CEO)" the selected id is "CEO".) *)
Theorem extract_id_of_parenthesised_name
    (repr : json -> string) (c : json) (a b rest id : string) :
  named (a +:+ "(" +:+ b +:+ ")" +:+ rest) id c ->
  occurs "(" a = false -> occurs "(" b = false -> occurs ")" b = false ->
  exists label : string,
    option_label repr c = Ok label /\ extract_id label = Ok b.
Proof.
  intros [Hname Hid] Ha Hb1 Hb2. eexists. split.
  - unfold option_label. rewrite Hname, Hid. reflexivity.
  - unfold py_str.
    change (a +:+ "(" +:+ b +:+ ")" +:+ rest)
      with (a +:+ String "(" (b +:+ String ")" rest)).
    rewrite append_assoc, append_cons, append_assoc, append_cons.
    now apply extract_id_spec.
Qed.

Lemma extract_id_of_parenthesised_name_witness :
  named ("Bob " +:+ "(" +:+ "CEO" +:+ ")" +:+ "") "e5f6a7b8"
    (client_record "e5f6a7b8" "Bob (CEO)" "Lead" "2024-01-02" 0 [] [])
  /\ exists label : string,
       option_label sample_repr
         (client_record "e5f6a7b8" "Bob (CEO)" "Lead" "2024-01-02" 0 [] []) = Ok label
       /\ extract_id label = Ok "CEO".
Proof.
  assert (H : named ("Bob " +:+ "(" +:+ "CEO" +:+ ")" +:+ "") "e5f6a7b8"
                (client_record "e5f6a7b8" "Bob (CEO)" "Lead" "2024-01-02" 0 [] []))
    by (split; reflexivity).
  split; [exact H |].
  exact (extract_id_of_parenthesised_name sample_repr _ "Bob " "CEO" "" "e5f6a7b8"
           H eq_refl eq_refl eq_refl).
Defined.

Lemma map_r_lookup {A B} (f : A -> result B) (l : list A) (ys : list B) :
  map_r f l = Ok ys ->
  length ys = length l
  /\ forall (i : nat) (x : A), l !! i = Some x ->
       exists y : B, ys !! i = Some y /\ f x = Ok y.
Proof.
  revert ys. induction l as [|x l IH]; intros ys H; simpl in H.
  - injection H as <-. split; [reflexivity |]. intros i x Hi. discriminate Hi.
  - destruct (f x) as [y|e] eqn:Hx; simpl in H; [| discriminate H].
    destruct (map_r f l) as [ys'|e] eqn:Hl; simpl in H; [| discriminate H].
    injection H as <-. destruct (IH ys' eq_refl) as (Hlen & Hall).
    split; [simpl; now rewrite Hlen |].
    intros [|i] z Hi; simpl in Hi.
    + injection Hi as <-. now exists y.
    + now apply Hall.
Qed.

(** A search whose test never raises stops at or before any item that
    passes the test. *)
Lemma find_first_exists {A} (p : A -> result bool) (l : list A) (n i : nat) (x : A) :
  (forall (k : nat) (y : A), l !! k = Some y -> exists b : bool, p y = Ok b) ->
  l !! i = Some x -> p x = Ok true ->
  exists (j : nat) (y : A), find_first p n l = Ok (Some (n + j, y)) /\ j <= i.
Proof.
  revert n i. induction l as [|z l IH]; intros n i Hall Hi Hx; [discriminate Hi |].
  simpl. destruct (Hall 0 z eq_refl) as ([|] & Hz); rewrite Hz; simpl.
  - exists 0, z. rewrite Nat.add_0_r. split; [reflexivity | lia].
  - destruct i as [|i]; simpl in Hi; [injection Hi as ->; congruence |].
    destruct (IH (S n) i) as (j & y & Hfind & Hj);
      [intros k y Hk; apply (Hall (S k) y Hk) | exact Hi | exact Hx |].
    exists (S j), y. rewrite Hfind. split; [do 3 f_equal; lia | lia].
Qed.

Lemma has_id_test (selected_id : string) (c : json) (b : bool) :
  (try! v := py_getitem c "id" in Ok (py_eq v (JStr selected_id))) = Ok b ->
  has_id selected_id c = b.
Proof.
  destruct c as [| | | | |d]; simpl; try discriminate.
  destruct (Dict.get "id" d); simpl; [congruence | discriminate].
Qed.

(** X6.  Choosing a client in a selection box selects the first client of
    the list that has the chosen client's id.  This holds when the
    option texts can be built (every record has a name and an id) and the
    chosen record's name and id are strings free of parentheses as in X4;
    when no earlier record shares the id, the chosen record itself is
    selected. *)
Theorem select_by_label_finds_first
    (repr : json -> string) (clients : list json) (labels : list string)
    (i : nat) (c : json) (name id : string) :
  option_labels repr clients = Ok labels ->
  clients !! i = Some c ->
  named name id c ->
  occurs "(" name = false -> occurs "(" id = false -> occurs ")" id = false ->
  exists (label : string) (j : nat) (c' : json),
    labels !! i = Some label
    /\ select_by_label clients label = Ok (Some (j, c'))
    /\ j <= i
    /\ clients !! j = Some c'
    /\ has_id id c' = true
    /\ (forall (k : nat) (c'' : json),
          k < j -> clients !! k = Some c'' -> has_id id c'' = false).
Proof.
  intros Hlabels Hi [Hname Hid] Hn Hi1 Hi2.
  destruct (map_r_lookup _ _ _ Hlabels) as (_ & Hall).
  destruct (Hall i c Hi) as (label & Hlabel & Hc).
  unfold option_label in Hc. rewrite Hname, Hid in Hc. simpl in Hc.
  injection Hc as <-.
  exists (name +:+ " (" +:+ id +:+ ")").
  unfold select_by_label. rewrite (extract_id_of_text name id Hn Hi1 Hi2). simpl.
  destruct (find_first_exists
              (fun c => try! v := py_getitem c "id" in Ok (py_eq v (JStr id)))
              clients 0 i c) as (j & c' & Hfind & Hj).
  - intros k y Hk. destruct (Hall k y Hk) as (lab & _ & Hy).
    unfold option_label in Hy.
    destruct (py_getitem y "name"); simpl in Hy; [| discriminate Hy].
    destruct (py_getitem y "id") as [v|]; simpl in Hy; [| discriminate Hy].
    simpl. eauto.
  - exact Hi.
  - rewrite Hid. simpl. now rewrite String.eqb_refl.
  - simpl in Hfind. exists j, c'. split; [exact Hlabel |].
    split; [exact Hfind |]. split; [exact Hj |].
    destruct (find_first_spec _ _ _ _ _ Hfind) as (_ & Hlook & Hp & Hbefore).
    rewrite Nat.sub_0_r in Hlook, Hbefore.
    split; [exact Hlook |]. split; [now apply has_id_test |].
    intros k c'' Hk Hc''. apply has_id_test. now apply (Hbefore k).
Qed.

Lemma select_by_label_finds_first_witness :
  option_labels sample_repr sample_clients = Ok ["Ana (a1b2c3d4)"; "Bob (e5f6a7b8)"]
  /\ named "Bob" "e5f6a7b8" (default JNull (sample_clients !! 1))
  /\ exists (j : nat) (c' : json),
       select_by_label sample_clients "Bob (e5f6a7b8)" = Ok (Some (j, c'))
       /\ j <= 1 /\ has_id "e5f6a7b8" c' = true.
Proof.
  assert (Hl : option_labels sample_repr sample_clients
               = Ok ["Ana (a1b2c3d4)"; "Bob (e5f6a7b8)"]) by reflexivity.
  assert (Hn : named "Bob" "e5f6a7b8" (default JNull (sample_clients !! 1)))
    by (split; reflexivity).
  split; [exact Hl |]. split; [exact Hn |].
  destruct (select_by_label_finds_first sample_repr sample_clients _ 1 _ "Bob" "e5f6a7b8"
              Hl eq_refl Hn eq_refl eq_refl eq_refl)
    as (label & j & c' & Hlab & Hsel & Hj & _ & Hid & _).
  injection Hlab as <-.
  exists j, c'. split; [exact Hsel |]. split; [exact Hj | exact Hid].
Defined.

(** ** The shape of minted ids *)

Lemma digit_char_hex (k : nat) : k < 16 -> is_hex (digit_char (N.of_nat k)) = true.
Proof.
  intros Hk. do 16 (destruct k as [|k]; [reflexivity |]). lia.
Qed.

Lemma all_chars_app (p : ascii -> bool) (a b : string) :
  all_chars p (a +:+ b) = all_chars p a && all_chars p b.
Proof.
  induction a as [|x a IH]; [reflexivity |].
  rewrite append_cons. simpl. now rewrite IH, andb_assoc.
Qed.

Lemma all_chars_substring (p : ascii -> bool) (n m : nat) (s : string) :
  all_chars p s = true -> all_chars p (substring n m s) = true.
Proof.
  revert n m. induction s as [|c s IH]; intros n m H.
  - destruct n, m; reflexivity.
  - simpl in H. apply andb_prop in H as [Hc Hs].
    destruct n as [|n]; [destruct m as [|m] |]; simpl.
    + reflexivity.
    + now rewrite Hc, (IH 0 m Hs).
    + now apply IH.
Qed.

Lemma fixed_digits_hex (k : nat) (n : N) : all_chars is_hex (fixed_digits 16 k n) = true.
Proof.
  revert n. induction k as [|k IH]; intros n; simpl; [reflexivity |].
  rewrite all_chars_app, IH. simpl. rewrite andb_true_r.
  rewrite <- (N2Nat.id (n mod 16)). apply digit_char_hex.
  pose proof (N.mod_upper_bound n 16). lia.
Qed.

Lemma all_chars_occurs (p : ascii -> bool) (c : ascii) (s : string) :
  all_chars p s = true -> p c = false -> occurs c s = false.
Proof.
  intros Hs Hc. induction s as [|x s IH]; [reflexivity |].
  simpl in *. apply andb_prop in Hs as [Hx Hs]. rewrite (IH Hs), orb_false_r.
  destruct (Ascii.eqb_spec x c) as [-> | _]; [congruence | reflexivity].
Qed.

(** X7.  Every id the program mints is made of 8 lowercase hexadecimal
    digits; in particular it has no parenthesis in it, as reading it back
    from a selection box requires. *)
Theorem short_id_is_hex (r : N) :
  String.length (short_id r) = 8
  /\ all_chars is_hex (short_id r) = true
  /\ occurs "(" (short_id r) = false
  /\ occurs ")" (short_id r) = false.
Proof.
  assert (Hhex : all_chars is_hex (short_id r) = true).
  { unfold short_id, uuid_str.
    rewrite substring0_append
      by (rewrite length_substring0, length_fixed_digits; reflexivity).
    do 2 apply all_chars_substring. apply fixed_digits_hex. }
  split; [apply length_short_id |]. split; [exact Hhex |].
  split; apply (all_chars_occurs is_hex); [exact Hhex | reflexivity
                                          | exact Hhex | reflexivity].
Qed.

(** ** The client filters *)

Lemma filter_r_total {A} (p : A -> result bool) (q : A -> bool) (l : list A) :
  Forall (fun x => p x = Ok (q x)) l ->
  filter_r p l = Ok (filter (fun x => q x = true) l).
Proof.
  induction 1 as [|x l Hx _ IH]; simpl; [reflexivity |].
  rewrite Hx, IH. simpl. rewrite filter_cons.
  destruct (q x); reflexivity.
Qed.

Lemma any_r_total {A} (p : A -> result bool) (q : A -> bool) (l : list A) :
  Forall (fun x => p x = Ok (q x)) l -> any_r p l = Ok (existsb q l).
Proof.
  induction 1 as [|x l Hx _ IH]; simpl; [reflexivity |].
  rewrite Hx. simpl. destruct (q x); [reflexivity | exact IH].
Qed.

Lemma status_test_filterable (filter_status : list string) (c : json) :
  filterable c = true ->
  (try! s := py_getitem c "status" in
   Ok (existsb (fun x => py_eq s (JStr x)) filter_status))
  = Ok (status_among filter_status c).
Proof.
  destruct c as [| | | | |d]; simpl; try discriminate.
  intros H. apply andb_prop in H as [H _]. rewrite DictFacts.mem_get in H.
  unfold status_among, status_is.
  destruct (Dict.get "status" d); [reflexivity | discriminate H].
Qed.

Lemma tags_test_filterable (filter_tags : list string) (c : json) :
  filterable c = true ->
  any_r (fun tag => try! tags := py_get c "tags" (JList []) in py_in tag tags) filter_tags
  = Ok (tagged_any filter_tags c).
Proof.
  destruct c as [| | | | |d]; simpl; try discriminate.
  intros H. apply andb_prop in H as [_ H].
  unfold tagged_any. simpl.
  destruct (Dict.get "tags" d) as [[| | | | |]|]; try discriminate H;
    apply any_r_total; apply Forall_forall; intros tag _; reflexivity.
Qed.

Lemma filter_filter_and {A} (q1 q2 : A -> bool) (l : list A) :
  filter (fun x => q2 x = true) (filter (fun x => q1 x = true) l)
  = filter (fun x => q1 x && q2 x = true) l.
Proof.
  rewrite list_filter_filter. apply list_filter_iff. intros x.
  rewrite andb_true_iff. tauto.
Qed.

(** X8.  The status filter followed by the tag filter keeps, in their
    order, exactly the clients that pass both: a client passes the status
    filter when nothing is selected or its status is one of the selected
    ones, and the tag filter when nothing is selected or at least one
    selected tag is among its tags (any one is enough; a client without
    tags passes only when nothing is selected). *)
Theorem client_filters_keep_matching
    (filter_status filter_tags : list string) (clients : list json) :
  Forall (fun c => filterable c = true) clients ->
  (try! kept := apply_filter_status filter_status clients in
   apply_filter_tags filter_tags kept)
  = Ok (filter (fun c => passes filter_status filter_tags c = true) clients).
Proof.
  intros Hall.
  assert (Hs : apply_filter_status filter_status clients
               = Ok (filter (fun c => match filter_status with
                                      | [] => true
                                      | _ => status_among filter_status c
                                      end = true) clients)).
  { unfold apply_filter_status. destruct filter_status as [|x xs].
    - now rewrite filter_keeps_all.
    - apply filter_r_total. eapply Forall_impl; [exact Hall |].
      intros c Hc. now apply status_test_filterable. }
  rewrite Hs. simpl.
  assert (Hkept : Forall (fun c => filterable c = true)
                    (filter (fun c => match filter_status with
                                      | [] => true
                                      | _ => status_among filter_status c
                                      end = true) clients)).
  { apply Forall_forall. intros c Hc. apply list_elem_of_filter in Hc as [_ Hc].
    rewrite Forall_forall in Hall. now apply Hall. }
  unfold passes. rewrite <- filter_filter_and.
  unfold apply_filter_tags. destruct filter_tags as [|t ts].
  - now rewrite (filter_keeps_all (fun c => true = true)).
  - apply filter_r_total. eapply Forall_impl; [exact Hkept |].
    intros c Hc. now apply tags_test_filterable.
Qed.

Lemma client_filters_keep_matching_witness :
  Forall (fun c => filterable c = true) (sample_clients ++ [prospect_client])
  /\ (try! kept := apply_filter_status ["Lead"; "Active"] (sample_clients ++ [prospect_client]) in
      apply_filter_tags [] kept)
     = Ok sample_clients.
Proof.
  assert (Hall : Forall (fun c => filterable c = true) (sample_clients ++ [prospect_client]))
    by (repeat constructor).
  split; [exact Hall |].
  exact (client_filters_keep_matching ["Lead"; "Active"] [] _ Hall).
Defined.

(** ** Task numbers and views *)

Lemma filter_partition_length {A} (q : A -> bool) (l : list A) :
  length (List.filter q l) + length (List.filter (fun x => negb (q x)) l) = length l.
Proof.
  induction l as [|x l IH]; simpl; [reflexivity |].
  destruct (q x); simpl; lia.
Qed.

(** X9.  The three numbers over the task list add up: every task is
    counted either as completed or as pending, never as both or neither,
    whatever its [completed] field holds. *)
Theorem task_metrics_add_up (rows : list task_row) :
  completed_tasks (task_metrics rows) + pending_tasks (task_metrics rows)
  = total_tasks (task_metrics rows).
Proof. apply filter_partition_length. Qed.

Lemma list_filter_sublist {A} (q : A -> bool) (l : list A) :
  sublist (List.filter q l) l.
Proof.
  induction l as [|x l IH]; simpl; [constructor |].
  destruct (q x); [now apply sublist_skip | now apply sublist_cons].
Qed.

Lemma list_filter_imp_sublist {A} (q1 q2 : A -> bool) (l : list A) :
  (forall x, q1 x = true -> q2 x = true) ->
  sublist (List.filter q1 l) (List.filter q2 l).
Proof.
  intros Himp. induction l as [|x l IH]; simpl; [constructor |].
  destruct (q1 x) eqn:E1.
  - rewrite (Himp x E1). now apply sublist_skip.
  - destruct (q2 x); [now apply sublist_cons | exact IH].
Qed.

(** X10.  The views of the task list: "Pending Tasks" and "Completed
    Tasks" split the list in two (each row is in exactly one, in the
    order of the list); every row under "Due Today" is also under
    "Pending Tasks", is not completed and is due on the day of the run; any
    other choice shows all rows. *)
Theorem filter_tasks_views (rows : list task_row) (w : world) :
  exists pending done due : list task_row,
    filter_tasks "Pending Tasks" rows w = Ok (pending, w)
    /\ filter_tasks "Completed Tasks" rows w = Ok (done, w)
    /\ filter_tasks "Due Today" rows w = Ok (due, w)
    /\ filter_tasks "All Tasks" rows w = Ok (rows, w)
    /\ sublist pending rows /\ sublist done rows /\ sublist due pending
    /\ pending ++ done ≡ₚ rows
    /\ (forall t : task_row, t ∈ pending -> is_completed t = false)
    /\ (forall t : task_row, t ∈ done -> is_completed t = true)
    /\ (forall t : task_row,
          t ∈ due -> due_date t = JStr (strftime_ymd (clock w))
                     /\ is_completed t = false).
Proof.
  exists (List.filter (fun t => negb (is_completed t)) rows),
         (List.filter is_completed rows),
         (List.filter (fun t => py_eq (due_date t) (JStr (strftime_ymd (clock w)))
                                && negb (is_completed t)) rows).
  split; [reflexivity |]. split; [reflexivity |]. split; [reflexivity |].
  split; [reflexivity |].
  split; [apply list_filter_sublist |]. split; [apply list_filter_sublist |].
  split.
  { apply list_filter_imp_sublist. intros t Ht. now apply andb_prop in Ht as [_ Ht]. }
  split.
  { induction rows as [|t rows IH]; simpl; [reflexivity |].
    destruct (is_completed t); simpl.
    - etransitivity; [symmetry; apply Permutation_middle |]. now constructor.
    - now constructor. }
  split.
  { intros t Ht. apply list_elem_of_In, List.filter_In in Ht as [_ Ht].
    now apply negb_true_iff. }
  split.
  { intros t Ht. now apply list_elem_of_In, List.filter_In in Ht as [_ Ht]. }
  intros t Ht. apply list_elem_of_In, List.filter_In in Ht as [_ Ht].
  apply andb_prop in Ht as [Hd Hc]. split; [now apply py_eq_str | now apply negb_true_iff].
Qed.

(** ** The sidebar's task number *)

Lemma pending_rows (F : json -> result task_row) (items : list json)
    (rs : list task_row) :
  (forall (t : json) (row : task_row),
     F t = Ok row -> py_get t "completed" (JBool false) = Ok (completed row)) ->
  map_r F items = Ok rs ->
  count_r (fun t => try! done := py_get t "completed" (JBool false) in
                    Ok (negb (py_truthy done))) items
  = Ok (length (List.filter (fun t => negb (is_completed t)) rs)).
Proof.
  intros HF. revert rs. induction items as [|t items IH]; intros rs H; simpl in H.
  - injection H as <-. reflexivity.
  - destruct (F t) as [row|] eqn:Ht; simpl in H; [| discriminate H].
    destruct (map_r F items) as [rs'|] eqn:Hr; simpl in H; [| discriminate H].
    injection H as <-. simpl. rewrite (HF t row Ht). simpl.
    rewrite (IH rs' eq_refl). simpl.
    unfold is_completed. destruct (py_truthy (completed row)); reflexivity.
Qed.

Lemma pending_of_rows (c : json) (rs : list task_row) :
  task_rows_of c = Ok rs ->
  pending_of c = Ok (length (List.filter (fun t => negb (is_completed t)) rs)).
Proof.
  unfold task_rows_of, pending_of. intros H.
  destruct (py_get c "tasks" (JList [])) as [tasks|]; simpl in *; [| discriminate H].
  destruct (py_iter tasks) as [items|]; simpl in *; [| discriminate H].
  eapply pending_rows; [| exact H].
  intros t row Ht. simpl in Ht.
  destruct (py_getitem c "id"); simpl in Ht; [| discriminate Ht].
  destruct (py_getitem c "name"); simpl in Ht; [| discriminate Ht].
  destruct (py_getitem t "task"); simpl in Ht; [| discriminate Ht].
  destruct (py_get t "completed" (JBool false)); simpl in Ht; [| discriminate Ht].
  destruct (py_get t "due_date" (JStr "")); simpl in Ht; [| discriminate Ht].
  destruct (py_get t "priority" (JStr "Medium")); simpl in Ht; [| discriminate Ht].
  now injection Ht as <-.
Qed.

Lemma pending_sum_rows (clients : list json) (rss : list (list task_row)) :
  map_r task_rows_of clients = Ok rss ->
  pending_sum clients
  = Ok (length (List.filter (fun t => negb (is_completed t)) (concat rss))).
Proof.
  revert rss. induction clients as [|c clients IH]; intros rss H; simpl in H.
  - injection H as <-. reflexivity.
  - destruct (task_rows_of c) as [rs|] eqn:Hc; simpl in H; [| discriminate H].
    destruct (map_r task_rows_of clients) as [rss'|] eqn:Hr; simpl in H;
      [| discriminate H].
    injection H as <-. simpl.
    rewrite (pending_of_rows c rs Hc). simpl. rewrite (IH rss' eq_refl). simpl.
    now rewrite List.filter_app, List.length_app.
Qed.

(** X11.  The number the sidebar shows under "Tasks Due Today" is the
    number of pending tasks: whenever the task list of the Tasks tab can be
    built, the sidebar number equals the "Pending" number of that tab, with
    no regard to due dates. *)
Theorem sidebar_counts_pending_tasks (clients : list json) (rows : list task_row) :
  all_tasks clients = Ok rows ->
  pending_count (JList clients) = Ok (pending_tasks (task_metrics rows)).
Proof.
  unfold all_tasks, pending_count. intros H. simpl.
  destruct (map_r task_rows_of clients) as [rss|] eqn:Hr; simpl in H; [| discriminate H].
  injection H as <-. now apply pending_sum_rows.
Qed.

Lemma sidebar_counts_pending_tasks_witness :
  exists rows : list task_row,
    all_tasks [client_with_tasks [call_high; call_low]] = Ok rows
    /\ pending_count (JList [client_with_tasks [call_high; call_low]])
       = Ok (pending_tasks (task_metrics rows))
    /\ pending_tasks (task_metrics rows) = 2.
Proof.
  eexists. split; [reflexivity |].
  split; [apply sidebar_counts_pending_tasks; reflexivity | reflexivity].
Defined.

(** ** Completing, adding and removing tasks *)

(** X12.  The complete / incomplete button of a row changes the first task
    of the client whose description equals the row's: that task gets
    [completed] set to the opposite of what the row shows, its other
    fields, the other tasks, their number and order and all other clients
    stay as they are, and the list is saved.  When descriptions repeat, the
    task changed need not be the one of the row. *)
Theorem toggle_task_sets_first_match
    (clients : list json) (row : task_row) (i j : nat) (d : Dict.t)
    (tasks : list json) (t : json) (w : world) :
  find_client clients (client_id row) = Ok (Some (i, JDict d)) ->
  Dict.get "tasks" d = Some (JList tasks) ->
  find_first (fun t => try! desc := py_getitem t "task" in
                       Ok (py_eq desc (task row))) 0 tasks = Ok (Some (j, t)) ->
  exists (td td' : Dict.t) (tasks' clients' : list json),
    t = JDict td
    /\ toggle_task clients row true w
       = Ok ((clients', Rerun), write_db (clients_document clients') w)
    /\ clients' = <[i := JDict (Dict.set "tasks" (JList tasks') d)]> clients
    /\ tasks' = <[j := JDict td']> tasks
    /\ tasks' !! j = Some (JDict td')
    /\ Dict.get "completed" td' = Some (JBool (negb (py_truthy (completed row))))
    /\ (forall k : string, k <> "completed" -> Dict.get k td' = Dict.get k td)
    /\ length tasks' = length tasks
    /\ (forall n : nat, n <> j -> tasks' !! n = tasks !! n)
    /\ (forall n : nat, n <> i -> clients' !! n = clients !! n).
Proof.
  intros Hfind Htasks Hhit.
  destruct (find_first_spec _ _ _ _ _ Hhit) as (_ & Hj & Ht & _).
  rewrite Nat.sub_0_r in Hj.
  assert (exists td, t = JDict td) as (td & ->).
  { destruct t as [| | | | |td]; simpl in Ht; try discriminate Ht. now exists td. }
  set (td' := Dict.set "completed" (JBool (negb (py_truthy (completed row)))) td).
  exists td, td', (<[j := JDict td']> tasks),
    (<[i := JDict (Dict.set "tasks" (JList (<[j := JDict td']> tasks)) d)]> clients).
  split; [reflexivity |].
  split.
  { unfold toggle_task.
    rewrite (bind_ok _ _ w w (Some (i, JDict d))) by (unfold lift; now rewrite Hfind).
    rewrite (dict_with_key_truthy _ _ _ Htasks).
    rewrite (bind_ok _ _ w w (JList tasks)) by (unfold lift, py_get; now rewrite Htasks).
    rewrite (bind_ok _ _ w w tasks) by reflexivity.
    rewrite (bind_ok _ _ w w (Some (j, JDict td))) by (unfold lift; now rewrite Hhit).
    rewrite (bind_ok _ _ w w (JList tasks))
      by (unfold lift, py_getitem; now rewrite Htasks).
    rewrite (bind_ok _ _ w w (JDict td)) by (unfold lift, py_index; now rewrite Hj).
    rewrite (bind_ok _ _ w w (JDict td')) by reflexivity.
    cbv zeta.
    rewrite (bind_ok _ _ w w
               (JDict (Dict.set "tasks" (JList (<[j := JDict td']> tasks)) d)))
      by reflexivity.
    rewrite (bind_ok _ _ _ _ _ (save_data_clients _ _)).
    reflexivity. }
  split; [reflexivity |]. split; [reflexivity |].
  split; [apply list_lookup_insert_eq; now apply lookup_lt_Some in Hj |].
  split; [apply DictFacts.get_set_eq |].
  split; [intros k Hk; now apply DictFacts.get_set_ne |].
  split; [apply length_insert |].
  split; [intros n Hn; now apply list_lookup_insert_ne |].
  intros n Hn. now apply list_lookup_insert_ne.
Qed.

Lemma toggle_task_sets_first_match_witness :
  exists clients' : list json,
    toggle_task [client_with_tasks [call_high; call_low]] row_of_call_low true
      (sample_world Absent)
    = Ok ((clients', Rerun), write_db (clients_document clients') (sample_world Absent))
    /\ exists (tasks' : list json) (td' : Dict.t),
         tasks' !! 0 = Some (JDict td')
         /\ Dict.get "completed" td' = Some (JBool true)
         /\ tasks' !! 1 = Some call_low.
Proof.
  assert (Hfind : find_client [client_with_tasks [call_high; call_low]]
                    (client_id row_of_call_low)
                  = Ok (Some (0, client_with_tasks [call_high; call_low])))
    by reflexivity.
  assert (Hhit : find_first (fun t => try! desc := py_getitem t "task" in
                                      Ok (py_eq desc (task row_of_call_low))) 0
                   [call_high; call_low] = Ok (Some (0, call_high)))
    by reflexivity.
  destruct (toggle_task_sets_first_match _ row_of_call_low 0 0 _ [call_high; call_low]
              call_high (sample_world Absent) Hfind eq_refl Hhit)
    as (td & td' & tasks' & clients' & _ & Hrun & _ & _ & Hj & Hdone & _ & _ & Hrest & _).
  exists clients'. split; [exact Hrun |].
  exists tasks', td'. split; [exact Hj |]. split; [exact Hdone |].
  rewrite (Hrest 1) by discriminate. reflexivity.
Defined.

Lemma dict_set_same (k : string) (v : json) (d : Dict.t) :
  Dict.get k d = Some v -> Dict.set k v d = d.
Proof.
  induction d as [|[k0 v0] d IH]; simpl; [discriminate |].
  destruct (String.eqb k k0); [intros [= ->]; reflexivity |].
  intros H. now rewrite (IH H).
Qed.

Lemma add_task_step (clients : list json) (selected_client_id : string)
    (task_desc task_priority : string) (task_due_date : datetime)
    (i : nat) (d : Dict.t) (old : list json) (w : world) :
  find_client clients (JStr selected_client_id) = Ok (Some (i, JDict d)) ->
  tasks_of d = Some old ->
  task_desc <> "" ->
  let t := new_task task_desc task_priority task_due_date w in
  let clients' := <[i := JDict (Dict.set "tasks" (JList (old ++ [t])) d)]> clients in
  add_task clients selected_client_id true task_desc task_priority task_due_date w
  = Ok ((clients', Rerun), say_task_added (write_db (clients_document clients') w)).
Proof.
  intros Hfind Htasks Hdesc t clients'.
  destruct (find_client_spec _ _ _ _ Hfind) as (Hlook & d0 & v & Hd & Hid & Heq).
  injection Hd as <-.
  unfold add_task. rewrite (proj2 (truthy_str task_desc) Hdesc). cbn [andb].
  rewrite (bind_ok _ _ w w (Some (i, JDict d))) by (unfold lift; now rewrite Hfind).
  rewrite (dict_with_key_truthy _ _ _ Hid).
  rewrite (bind_ok _ _ w w (clock w)) by reflexivity.
  cbv zeta.
  rewrite (bind_ok _ _ w w _ (default_field_dict _ _ _ d w eq_refl)).
  assert (Hget : Dict.get "tasks" (set_default "tasks" (JList []) d) = Some (JList old)).
  { rewrite DictFacts.get_set_default. simpl. unfold tasks_of in Htasks.
    destruct (Dict.get "tasks" d) as [[| | | |l|]|]; simpl; congruence. }
  rewrite (bind_ok _ _ w w (JList old)) by (unfold lift, py_getitem; now rewrite Hget).
  rewrite (bind_ok _ _ w w (JList (old ++ [t]))) by reflexivity.
  assert (Hset : Dict.set "tasks" (JList (old ++ [t])) (set_default "tasks" (JList []) d)
                 = Dict.set "tasks" (JList (old ++ [t])) d).
  { unfold set_default. destruct (Dict.mem "tasks" d); [reflexivity |].
    apply dict_set_set. }
  rewrite (bind_ok _ _ w w (JDict (Dict.set "tasks" (JList (old ++ [t])) d)))
    by (unfold lift, py_setitem; now rewrite Hset).
  rewrite (bind_ok _ _ _ _ _ (save_data_clients _ _)).
  reflexivity.
Qed.

(** X13.  For a client found by the selected id whose tasks are a list
    (or not there yet), submitting a non-empty description puts the new
    task behind the tasks the client had, not completed, with the chosen
    priority and due date and the day of the run as creation date; the
    tasks before it, the client's other fields and all other clients are
    unchanged, and the list is saved. *)
Theorem add_task_appends
    (clients : list json) (selected_client_id task_desc task_priority : string)
    (task_due_date : datetime) (i : nat) (d : Dict.t) (old : list json) (w : world) :
  find_client clients (JStr selected_client_id) = Ok (Some (i, JDict d)) ->
  tasks_of d = Some old ->
  task_desc <> "" ->
  exists (clients' : list json) (d' : Dict.t) (t : Dict.t) (w' : world),
    add_task clients selected_client_id true task_desc task_priority task_due_date w
    = Ok ((clients', Rerun), w')
    /\ db_file w' = Stored (clients_document clients')
    /\ clients' = <[i := JDict d']> clients
    /\ Dict.get "tasks" d' = Some (JList (old ++ [JDict t]))
    /\ (forall k : string, k <> "tasks" -> Dict.get k d' = Dict.get k d)
    /\ Dict.get "task" t = Some (JStr task_desc)
    /\ Dict.get "completed" t = Some (JBool false)
    /\ Dict.get "priority" t = Some (JStr task_priority)
    /\ Dict.get "due_date" t = Some (JStr (strftime_ymd task_due_date))
    /\ Dict.get "created_at" t = Some (JStr (strftime_ymd (clock w))).
Proof.
  intros Hfind Htasks Hdesc.
  eexists. eexists. eexists. eexists.
  split; [exact (add_task_step _ _ _ task_priority task_due_date _ _ _ w
                   Hfind Htasks Hdesc) |].
  split; [reflexivity |]. split; [reflexivity |].
  split; [apply DictFacts.get_set_eq |].
  split; [intros k Hk; now apply DictFacts.get_set_ne |].
  repeat split; reflexivity.
Qed.

Lemma add_task_appends_witness :
  find_client sample_clients (JStr "a1b2c3d4")
  = Ok (Some (0, default JNull (sample_clients !! 0)))
  /\ exists (clients' : list json) (d' t : Dict.t) (w' : world),
       add_task sample_clients "a1b2c3d4" true "Call back" "High" sample_due
         (sample_world Absent) = Ok ((clients', Rerun), w')
       /\ clients' = <[0 := JDict d']> sample_clients
       /\ Dict.get "tasks" d' = Some (JList [JDict t])
       /\ Dict.get "task" t = Some (JStr "Call back")
       /\ Dict.get "created_at" t = Some (JStr "2024-01-05").
Proof.
  assert (Hfind : find_client sample_clients (JStr "a1b2c3d4")
                  = Ok (Some (0, default JNull (sample_clients !! 0))))
    by reflexivity.
  split; [exact Hfind |].
  destruct (add_task_appends sample_clients "a1b2c3d4" "Call back" "High" sample_due
              0 _ [] (sample_world Absent) Hfind eq_refl)
    as (clients' & d' & t & w' & Hrun & _ & Hc & Ht & _ & Hdesc & _ & _ & _ & Hcreated);
    [discriminate |].
  exists clients', d', t, w'. repeat split; assumption.
Defined.

Lemma other_task_test (desc : string) (t : json) :
  other_task desc t = true ->
  (try! d := py_getitem t "task" in Ok (py_eq d (JStr desc))) = Ok false.
Proof.
  destruct t as [| | | | |td]; simpl; try discriminate.
  destruct (Dict.get "task" td); simpl; [| discriminate].
  intros H. apply negb_true_iff in H. now rewrite H.
Qed.

(** X14.  Adding a task and then pressing the delete button of its row
    gives back the list of clients as it was, when the client had a task
    list in which no task has the new description: in that case the first
    task with the description is the new one.  Both steps save the list. *)
Theorem add_task_then_delete_task
    (clients : list json) (selected_client_id task_desc task_priority : string)
    (task_due_date : datetime) (row : task_row)
    (i : nat) (d : Dict.t) (old : list json) (w : world) :
  find_client clients (JStr selected_client_id) = Ok (Some (i, JDict d)) ->
  Dict.get "tasks" d = Some (JList old) ->
  Forall (fun t => other_task task_desc t = true) old ->
  task_desc <> "" ->
  client_id row = JStr selected_client_id ->
  task row = JStr task_desc ->
  exists (clients1 : list json) (w1 : world),
    add_task clients selected_client_id true task_desc task_priority task_due_date w
    = Ok ((clients1, Rerun), w1)
    /\ clients1 <> clients
    /\ delete_task clients1 row w1
       = Ok ((clients, Rerun), write_db (clients_document clients) w1).
Proof.
  intros Hfind Htasks Hold Hdesc Hcid Htask.
  destruct (find_client_spec _ _ _ _ Hfind) as (Hlook & d0 & v & Hd & Hid & Heq).
  injection Hd as <-.
  set (t := new_task task_desc task_priority task_due_date w).
  set (d1 := Dict.set "tasks" (JList (old ++ [t])) d).
  assert (Htasks_of : tasks_of d = Some old) by (unfold tasks_of; now rewrite Htasks).
  exists (<[i := JDict d1]> clients),
    (say_task_added (write_db (clients_document (<[i := JDict d1]> clients)) w)).
  split; [exact (add_task_step _ _ _ task_priority task_due_date _ _ _ w
                   Hfind Htasks_of Hdesc) |].
  split.
  { intros Heqc. assert (Hi : (<[i := JDict d1]> clients) !! i = Some (JDict d1))
      by (apply list_lookup_insert_eq; now apply lookup_lt_Some in Hlook).
    rewrite Heqc, Hlook in Hi. injection Hi as Hdd.
    assert (Hg : Dict.get "tasks" d1 = Some (JList (old ++ [t])))
      by apply DictFacts.get_set_eq.
    rewrite <- Hdd, Htasks in Hg. injection Hg as Hg.
    apply (f_equal length) in Hg. rewrite length_app in Hg. simpl in Hg. lia. }
  assert (Hfind1 : find_client (<[i := JDict d1]> clients) (client_id row)
                   = Ok (Some (i, JDict d1))).
  { rewrite Hcid. apply (find_client_insert _ _ _ _ d1 v Hfind); [| exact Heq].
    unfold d1. rewrite DictFacts.get_set_ne by discriminate. exact Hid. }
  assert (Hhit : find_first (fun t => try! desc := py_getitem t "task" in
                                      Ok (py_eq desc (task row))) 0 (old ++ [t])
                 = Ok (Some (length old, t))).
  { rewrite Htask. rewrite find_first_app_miss.
    - apply find_first_hit. simpl. now rewrite String.eqb_refl.
    - eapply Forall_impl; [exact Hold |]. intros x. apply other_task_test. }
  pose proof (delete_task_pops_first_match _ row i (length old) d1 (old ++ [t]) t
                (say_task_added
                   (write_db (clients_document (<[i := JDict d1]> clients)) w))
                Hfind1 (DictFacts.get_set_eq _ _ _) Hhit) as Hdel.
  cbv zeta in Hdel. rewrite Hdel.
  assert (Hback : <[i := JDict (Dict.set "tasks"
                                  (JList (delete (length old) (old ++ [t]))) d1)]>
                    (<[i := JDict d1]> clients) = clients).
  { rewrite list_insert_insert_eq.
    rewrite (delete_middle old [] t), app_nil_r.
    unfold d1. rewrite dict_set_set, (dict_set_same _ _ _ Htasks).
    now apply list_insert_id. }
  now rewrite Hback.
Qed.

Lemma add_task_then_delete_task_witness :
  find_client [client_with_tasks [call_high]] (JStr "a1b2c3d4")
  = Ok (Some (0, client_with_tasks [call_high]))
  /\ Forall (fun t => other_task "Send quote" t = true) [call_high]
  /\ exists (clients1 : list json) (w1 : world),
       add_task [client_with_tasks [call_high]] "a1b2c3d4" true "Send quote" "Low"
         sample_due (sample_world Absent) = Ok ((clients1, Rerun), w1)
       /\ delete_task clients1
            {| client_id := JStr "a1b2c3d4"; client_name := JStr "Ana";
               task := JStr "Send quote"; completed := JBool false;
               due_date := JStr "2024-01-08"; priority := JStr "Low" |} w1
          = Ok (([client_with_tasks [call_high]], Rerun),
                write_db (clients_document [client_with_tasks [call_high]]) w1).
Proof.
  assert (Hfind : find_client [client_with_tasks [call_high]] (JStr "a1b2c3d4")
                  = Ok (Some (0, client_with_tasks [call_high]))) by reflexivity.
  assert (Hold : Forall (fun t => other_task "Send quote" t = true) [call_high])
    by (repeat constructor).
  split; [exact Hfind |]. split; [exact Hold |].
  destruct (add_task_then_delete_task [client_with_tasks [call_high]] "a1b2c3d4"
              "Send quote" "Low" sample_due
              {| client_id := JStr "a1b2c3d4"; client_name := JStr "Ana";
                 task := JStr "Send quote"; completed := JBool false;
                 due_date := JStr "2024-01-08"; priority := JStr "Low" |}
              0 _ [call_high] (sample_world Absent) Hfind eq_refl Hold)
    as (clients1 & w1 & Hadd & _ & Hdel); [discriminate | reflexivity | reflexivity |].
  exists clients1, w1. split; [exact Hadd | exact Hdel].
Defined.

(** ** Removing a note *)

Lemma map_r_total {A B} (f : A -> result B) (l : list A) :
  Forall (fun x => exists y : B, f x = Ok y) l -> exists ys : list B, map_r f l = Ok ys.
Proof.
  induction 1 as [|x l [y Hx] _ [ys IH]]; simpl; [now exists [] |].
  rewrite Hx, IH. simpl. now exists (y :: ys).
Qed.

Lemma delete_note_step
    (clients : list json) (selected_client_id : string) (idx i : nat)
    (d : Dict.t) (notes : list json) (w : world) :
  find_client clients (JStr selected_client_id) = Ok (Some (i, JDict d)) ->
  Dict.get "notes" d = Some (JList notes) ->
  idx < length notes ->
  Forall (fun n => is_object n = true) (take (S idx) notes) ->
  let clients' := <[i := JDict (Dict.set "notes" (JList (delete idx notes)) d)]> clients in
  delete_note clients selected_client_id idx w
  = Ok ((clients', Rerun), write_db (clients_document clients') w).
Proof.
  intros Hfind Hnotes Hidx Hobj clients'.
  destruct (find_client_spec _ _ _ _ Hfind) as (Hlook & d0 & v & Hd & Hid & Heq).
  injection Hd as <-.
  destruct (map_r_total (fun note => try! _ := py_get note "date" (JStr "Unknown date") in
                                     py_get note "text" (JStr ""))
              (take (S idx) notes)) as (drawn_notes & Hdrawn).
  { eapply Forall_impl; [exact Hobj |]. intros n Hn.
    destruct n as [| | | | |nd]; try discriminate Hn. simpl.
    destruct (Dict.get "date" nd); simpl; destruct (Dict.get "text" nd); eauto. }
  unfold delete_note.
  rewrite (bind_ok _ _ w w (Some (i, JDict d))) by (unfold lift; now rewrite Hfind).
  rewrite (dict_with_key_truthy _ _ _ Hid).
  rewrite (bind_ok _ _ w w true)
    by (unfold lift, py_in; now rewrite DictFacts.mem_get, Hnotes).
  rewrite (bind_ok _ _ w w true).
  2:{ rewrite (bind_ok _ _ w w (JList notes))
        by (unfold lift, py_getitem; now rewrite Hnotes).
      unfold ret. simpl. destruct notes; [simpl in Hidx; lia | reflexivity]. }
  rewrite (bind_ok _ _ w w (JList notes))
    by (unfold lift, py_getitem; now rewrite Hnotes).
  rewrite (bind_ok _ _ w w notes) by reflexivity.
  rewrite (bind_ok _ _ w w drawn_notes) by (unfold lift; now rewrite Hdrawn).
  rewrite (proj2 (Nat.ltb_lt _ _) Hidx).
  rewrite (bind_ok _ _ w w (JList notes))
    by (unfold lift, py_getitem; now rewrite Hnotes).
  rewrite (bind_ok _ _ w w (JList (delete idx notes)))
    by (unfold lift, py_pop; now rewrite (proj2 (Nat.ltb_lt _ _) Hidx)).
  rewrite (bind_ok _ _ w w (JDict (Dict.set "notes" (JList (delete idx notes)) d)))
    by reflexivity.
  cbv zeta. rewrite (bind_ok _ _ _ _ _ (save_data_clients _ _)).
  reflexivity.
Qed.

(** X15.  The delete button of a note removes the note at its position in
    the client's list, whatever the notes hold (two equal notes are told
    apart by position), keeps the other notes in order and the client's
    other fields, and saves the list.  It presupposes that the notes up to
    that position could be drawn, that is, that they are objects. *)
Theorem delete_note_removes_position
    (clients : list json) (selected_client_id : string) (idx i : nat)
    (d : Dict.t) (notes : list json) (w : world) :
  find_client clients (JStr selected_client_id) = Ok (Some (i, JDict d)) ->
  Dict.get "notes" d = Some (JList notes) ->
  idx < length notes ->
  Forall (fun n => is_object n = true) (take (S idx) notes) ->
  exists (clients' : list json) (d' : Dict.t),
    delete_note clients selected_client_id idx w
    = Ok ((clients', Rerun), write_db (clients_document clients') w)
    /\ clients' = <[i := JDict d']> clients
    /\ Dict.get "notes" d' = Some (JList (delete idx notes))
    /\ (forall k : string, k <> "notes" -> Dict.get k d' = Dict.get k d)
    /\ (forall n : nat, n <> i -> clients' !! n = clients !! n).
Proof.
  intros Hfind Hnotes Hidx Hobj.
  exists (<[i := JDict (Dict.set "notes" (JList (delete idx notes)) d)]> clients),
    (Dict.set "notes" (JList (delete idx notes)) d).
  split; [exact (delete_note_step _ _ _ _ _ _ w Hfind Hnotes Hidx Hobj) |].
  split; [reflexivity |].
  split; [apply DictFacts.get_set_eq |].
  split; [intros k Hk; now apply DictFacts.get_set_ne |].
  intros n Hn. now apply list_lookup_insert_ne.
Qed.

Lemma delete_note_removes_position_witness :
  exists (clients' : list json) (d' : Dict.t),
    delete_note [client_with_tasks []; client_with_notes four_notes] "e5f6a7b8" 2
      (sample_world Absent)
    = Ok ((clients', Rerun), write_db (clients_document clients') (sample_world Absent))
    /\ clients' = [client_with_tasks []; JDict d']
    /\ Dict.get "notes" d'
       = Some (JList [ note_of "follow up" "2024-01-04 09:00" "11111111";
                       note_of "met at fair" "2024-01-03 10:00" "22222222";
                       note_of "first call" "2024-01-02 08:00" "33333333" ])
    /\ Dict.get "name" d' = Some (JStr "Bob")
    /\ Dict.get "tasks" d' = Some (JList []).
Proof.
  assert (Hfind : find_client [client_with_tasks []; client_with_notes four_notes]
                    (JStr "e5f6a7b8")
                  = Ok (Some (1, client_with_notes four_notes)))
    by reflexivity.
  destruct (delete_note_removes_position
              [client_with_tasks []; client_with_notes four_notes] "e5f6a7b8" 2 1 _
              four_notes (sample_world Absent) Hfind eq_refl)
    as (clients' & d' & Hrun & Hc & Hn & Hkeep & _);
    [simpl; lia | repeat constructor |].
  exists clients', d'. split; [exact Hrun |]. split; [exact Hc |].
  split; [exact Hn |].
  split; [rewrite Hkeep by discriminate; reflexivity |].
  rewrite Hkeep by discriminate. reflexivity.
Defined.

(** X16.  Adding a note and then deleting the first note of the client
    undoes the addition: the client's notes are again the notes it had, its
    other fields and the other clients are as before, and when the client
    had a notes list the whole list of clients is the same as before. *)
Theorem add_note_then_delete_note
    (clients : list json) (selected_client_id note_text : string)
    (i : nat) (d : Dict.t) (old : list json) (w : world) :
  find_client clients (JStr selected_client_id) = Ok (Some (i, JDict d)) ->
  notes_of d = Some old ->
  note_text <> "" ->
  exists (clients1 clients2 : list json) (w1 : world) (d2 : Dict.t),
    add_note clients selected_client_id true note_text w = Ok ((clients1, Rerun), w1)
    /\ delete_note clients1 selected_client_id 0 w1
       = Ok ((clients2, Rerun), write_db (clients_document clients2) w1)
    /\ clients2 = <[i := JDict d2]> clients
    /\ Dict.get "notes" d2 = Some (JList old)
    /\ (forall k : string, k <> "notes" -> Dict.get k d2 = Dict.get k d)
    /\ (Dict.get "notes" d = Some (JList old) -> clients2 = clients).
Proof.
  intros Hfind Hnotes Htext.
  destruct (find_client_spec _ _ _ _ Hfind) as (Hlook & d0 & v & Hd & Hid & Heq).
  injection Hd as <-.
  set (d1 := Dict.set "notes" (JList (new_note note_text w :: old)) d).
  assert (Hfind1 : find_client (<[i := JDict d1]> clients) (JStr selected_client_id)
                   = Ok (Some (i, JDict d1))).
  { apply (find_client_insert _ _ _ _ d1 v Hfind); [| exact Heq].
    unfold d1. rewrite DictFacts.get_set_ne by discriminate. exact Hid. }
  assert (Hdel := delete_note_step (<[i := JDict d1]> clients) selected_client_id
                    0 i d1 (new_note note_text w :: old)
                    (say_note_added
                       (write_db (clients_document (<[i := JDict d1]> clients))
                          (advance 1 w)))
                    Hfind1 (DictFacts.get_set_eq _ _ _)).
  cbv zeta in Hdel.
  assert (Hsame : <[i := JDict (Dict.set "notes"
                                  (JList (delete 0 (new_note note_text w :: old))) d1)]>
                    (<[i := JDict d1]> clients)
                  = <[i := JDict (Dict.set "notes" (JList old) d)]> clients).
  { rewrite list_insert_insert_eq. unfold d1. now rewrite dict_set_set. }
  rewrite Hsame in Hdel.
  exists (<[i := JDict d1]> clients),
    (<[i := JDict (Dict.set "notes" (JList old) d)]> clients).
  eexists. exists (Dict.set "notes" (JList old) d).
  split; [exact (add_note_step _ _ _ _ _ _ w Hfind Hnotes Htext) |].
  split; [apply Hdel; [simpl; lia | repeat constructor] |].
  split; [reflexivity |].
  split; [apply DictFacts.get_set_eq |].
  split; [intros k Hk; now apply DictFacts.get_set_ne |].
  intros Hhad. rewrite (dict_set_same _ _ _ Hhad). now apply list_insert_id.
Qed.

Lemma add_note_then_delete_note_witness :
  find_client sample_clients (JStr "e5f6a7b8")
  = Ok (Some (1, default JNull (sample_clients !! 1)))
  /\ exists (clients1 : list json) (w1 : world),
       add_note sample_clients "e5f6a7b8" true "called back" (sample_world Absent)
       = Ok ((clients1, Rerun), w1)
       /\ delete_note clients1 "e5f6a7b8" 0 w1
          = Ok ((sample_clients, Rerun), write_db (clients_document sample_clients) w1).
Proof.
  assert (Hfind : find_client sample_clients (JStr "e5f6a7b8")
                  = Ok (Some (1, default JNull (sample_clients !! 1))))
    by reflexivity.
  split; [exact Hfind |].
  destruct (add_note_then_delete_note sample_clients "e5f6a7b8" "called back" 1 _
              [old_note] (sample_world Absent) Hfind eq_refl)
    as (clients1 & clients2 & w1 & d2 & Hadd & Hdel & _ & _ & _ & Hback);
    [discriminate |].
  exists clients1, w1. split; [exact Hadd |].
  rewrite (Hback eq_refl) in Hdel. exact Hdel.
Defined.

(** ** Lead sources *)

Lemma py_eq_hkey (a b : json) :
  hashable a = true -> hashable b = true ->
  (py_eq a b = true <-> hkey a = hkey b).
Proof.
  intros Ha Hb.
  destruct a as [|x|m|s| |]; try discriminate Ha;
    destruct b as [|y|n|t| |]; try discriminate Hb; simpl;
    try (split; [discriminate | discriminate]);
    try (split; reflexivity).
  - rewrite Bool.eqb_true_iff. split; [now intros -> |].
    destruct x, y; simpl; congruence.
  - rewrite Z.eqb_eq. split; congruence.
  - rewrite Z.eqb_eq. split; congruence.
  - rewrite Z.eqb_eq. split; congruence.
  - rewrite String.eqb_eq. split; congruence.
Qed.

Lemma py_eq_hashable_trans (a b c : json) :
  hashable a = true -> hashable b = true -> hashable c = true ->
  py_eq a b = true -> py_eq a c = py_eq b c.
Proof.
  intros Ha Hb Hc Hab. apply (py_eq_hkey a b Ha Hb) in Hab.
  destruct (py_eq b c) eqn:Hbc.
  - apply (py_eq_hkey a c Ha Hc). apply (py_eq_hkey b c Hb Hc) in Hbc. congruence.
  - destruct (py_eq a c) eqn:Hac; [| reflexivity].
    apply (py_eq_hkey a c Ha Hc) in Hac.
    assert (py_eq b c = true) by (apply (py_eq_hkey b c Hb Hc); congruence).
    congruence.
Qed.

Lemma counter_get_set (k k' : json) (n : nat) (t : list (json * nat)) :
  Forall (fun p => hashable p.1 = true) t ->
  hashable k = true -> hashable k' = true ->
  counter_get k (counter_set k' n t)
  = if py_eq k' k then Some n else counter_get k t.
Proof.
  intros Ht Hk Hk'. induction Ht as [|[k0 m] t Hk0 _ IH]; simpl in *.
  - reflexivity.
  - destruct (py_eq k0 k') eqn:E; simpl.
    + rewrite (py_eq_hashable_trans k0 k' k Hk0 Hk' Hk E).
      destruct (py_eq k' k); reflexivity.
    + rewrite IH. destruct (py_eq k0 k) eqn:E0; [| reflexivity].
      destruct (py_eq k' k) eqn:E1; [| reflexivity].
      assert (py_eq k0 k' = true).
      { apply (py_eq_hkey k0 k' Hk0 Hk'). apply (py_eq_hkey k0 k Hk0 Hk) in E0.
        apply (py_eq_hkey k' k Hk' Hk) in E1. congruence. }
      congruence.
Qed.

Lemma counter_set_hashable (k : json) (n : nat) (t : list (json * nat)) :
  Forall (fun p => hashable p.1 = true) t -> hashable k = true ->
  Forall (fun p => hashable p.1 = true) (counter_set k n t).
Proof.
  intros Ht Hk. induction Ht as [|[k0 m] t Hk0 Ht IH]; simpl.
  - now repeat constructor.
  - destruct (py_eq k0 k); constructor; assumption.
Qed.

Lemma counter_total_set (k : json) (t : list (json * nat)) :
  counter_total (counter_set k (default 0 (counter_get k t) + 1) t)
  = S (counter_total t).
Proof.
  assert (H : forall n : nat,
             counter_total (counter_set k n t) + default 0 (counter_get k t)
             = counter_total t + n).
  { intros n. unfold counter_total.
    induction t as [|[k0 m] t IH]; simpl; [lia |].
    destruct (py_eq k0 k); simpl; lia. }
  specialize (H (default 0 (counter_get k t) + 1)). lia.
Qed.

Lemma count_sources_spec (clients : list json) (acc : list (json * nat)) :
  Forall (fun c => countable_source c = true) clients ->
  Forall (fun p => hashable p.1 = true) acc ->
  exists t : list (json * nat),
    count_sources acc clients = Ok t
    /\ counter_total t = counter_total acc + length clients
    /\ forall k : json,
         hashable k = true ->
         default 0 (counter_get k t)
         = default 0 (counter_get k acc)
           + length (filter (fun c => py_eq (source_of c) k = true) clients).
Proof.
  intros Hall. revert acc. induction Hall as [|c clients Hc _ IH]; intros acc Hacc.
  - exists acc. simpl. repeat split; [lia | intros k _; lia].
  - apply andb_prop in Hc as [Hobj Hhash].
    destruct c as [| | | | |d]; try discriminate Hobj.
    unfold source_of in Hhash. simpl in Hhash. simpl count_sources. simpl py_get.
    set (source := match Dict.get "source" d with
                   | Some x => x
                   | None => JStr "Direct"
                   end) in *.
    assert (Hsrc : (match Dict.get "source" d with
                    | Some x => Ok x
                    | None => Ok (JStr "Direct")
                    end) = Ok source)
      by (unfold source; destruct (Dict.get "source" d); reflexivity).
    rewrite Hsrc. simpl rbind.
    assert (Hh : hashable source = true).
    { unfold source. destruct (Dict.get "source" d); exact Hhash. }
    rewrite Hh.
    destruct (IH (counter_set source (default 0 (counter_get source acc) + 1) acc)
                (counter_set_hashable _ _ _ Hacc Hh)) as (t & Hrun & Htotal & Hkeys).
    exists t. split; [exact Hrun |].
    split; [rewrite Htotal, counter_total_set; simpl; lia |].
    intros k Hk. rewrite (Hkeys k Hk), (counter_get_set _ _ _ _ Hacc Hk Hh).
    rewrite filter_cons.
    assert (Hso : source_of (JDict d) = source).
    { unfold source_of, source. simpl. destruct (Dict.get "source" d); reflexivity. }
    rewrite Hso.
    destruct (py_eq source k) eqn:E; simpl.
    + destruct (decide (true = true)) as [_ | Hn]; [| now destruct Hn].
      assert (Hg : counter_get k acc = counter_get source acc).
      { clear - Hacc Hh Hk E. induction Hacc as [|[k0 m] acc Hk0 _ IHa]; simpl;
          [reflexivity |].
        assert (py_eq k0 k = py_eq k0 source) as ->.
        { destruct (py_eq k0 source) eqn:E0.
          - apply (py_eq_hkey k0 k Hk0 Hk). apply (py_eq_hkey k0 source Hk0 Hh) in E0.
            apply (py_eq_hkey source k Hh Hk) in E. congruence.
          - destruct (py_eq k0 k) eqn:E1; [| reflexivity].
            assert (py_eq k0 source = true).
            { apply (py_eq_hkey k0 source Hk0 Hh). apply (py_eq_hkey k0 k Hk0 Hk) in E1.
              apply (py_eq_hkey source k Hh Hk) in E. congruence. }
            congruence. }
        destruct (py_eq k0 source); [reflexivity | exact IHa]. }
      rewrite Hg. simpl. lia.
    + destruct (decide (false = true)) as [Hn | _]; [discriminate Hn | lia].
Qed.

(** X17.  In the lead-source count every client is counted exactly once:
    for records whose source can be a dictionary key, the count has one
    entry per distinct source, a client without a source is counted under
    "Direct", the entry of a source is the number of clients with that
    source, and the entries add up to the number of clients.  (The status
    count of C8 does not have this property.) *)
Theorem source_counts_cover_all_clients (clients : list json) :
  Forall (fun c => countable_source c = true) clients ->
  exists t : list (json * nat),
    source_counts clients = Ok t
    /\ counter_total t = length clients
    /\ forall k : json,
         hashable k = true ->
         default 0 (counter_get k t)
         = length (filter (fun c => py_eq (source_of c) k = true) clients).
Proof.
  intros Hall.
  destruct (count_sources_spec clients [] Hall (List.Forall_nil _))
    as (t & Hrun & Htot & Hk).
  exists t. split; [exact Hrun |]. split; [exact Htot |].
  intros k Hh. now rewrite (Hk k Hh).
Qed.

Lemma source_counts_cover_all_clients_witness :
  Forall (fun c => countable_source c = true)
    (JDict [("name", JStr "Cy")] :: sample_clients)
  /\ exists t : list (json * nat),
       source_counts (JDict [("name", JStr "Cy")] :: sample_clients) = Ok t
       /\ counter_total t = 3
       /\ default 0 (counter_get (JStr "Direct") t) = 3.
Proof.
  assert (Hall : Forall (fun c => countable_source c = true)
                   (JDict [("name", JStr "Cy")] :: sample_clients))
    by (repeat constructor).
  split; [exact Hall |].
  destruct (source_counts_cover_all_clients _ Hall) as (t & Hrun & Htot & Hk).
  exists t. split; [exact Hrun |]. split; [exact Htot |].
  now rewrite (Hk (JStr "Direct") eq_refl).
Defined.

(** ** Settings: clear all tasks, reset, restore *)

Lemma map_r_setitem_tasks (ds : list Dict.t) :
  map_r (fun client => py_setitem client "tasks" (JList [])) (map JDict ds)
  = Ok (map (fun d => JDict (Dict.set "tasks" (JList []) d)) ds).
Proof.
  induction ds as [|d ds IH]; simpl; [reflexivity |]. now rewrite IH.
Qed.

Lemma all_tasks_cleared (ds : list Dict.t) :
  all_tasks (map (fun d => JDict (Dict.set "tasks" (JList []) d)) ds) = Ok [].
Proof.
  unfold all_tasks.
  assert (H : map_r task_rows_of (map (fun d => JDict (Dict.set "tasks" (JList []) d)) ds)
              = Ok (map (fun _ => []) ds)).
  { induction ds as [|d ds IH]; simpl; [reflexivity |].
    unfold task_rows_of at 1. simpl. rewrite DictFacts.get_set_eq. simpl.
    now rewrite IH. }
  rewrite H. simpl.
  assert (Hc : concat (map (fun _ : Dict.t => @nil task_row) ds) = [])
    by (clear H; induction ds; simpl; [reflexivity | assumption]).
  now rewrite Hc.
Qed.

(** X18.  "Clear All Tasks" needs two presses.  The first press only arms
    the button and shows a warning: the clients and the file stay as they
    are.  The second press gives every client an empty task list, leaves
    every other field of every client alone, saves the list, disarms the
    button again, and the task list built from the result is empty. *)
Theorem clear_all_tasks_takes_two_presses
    (ds : list Dict.t) (ss : session_state) (w : world) :
  confirm_clear_tasks ss = false ->
  exists (ss1 ss2 : session_state) (w1 w2 : world) (cleared : list Dict.t),
    clear_all_tasks (map JDict ds) ss true w = Ok ((map JDict ds, ss1, Continue), w1)
    /\ db_file w1 = db_file w
    /\ confirm_clear_tasks ss1 = true
    /\ clear_all_tasks (map JDict ds) ss1 true w1 = Ok ((map JDict cleared, ss2, Rerun), w2)
    /\ db_file w2 = Stored (clients_document (map JDict cleared))
    /\ confirm_clear_tasks ss2 = false
    /\ confirm_reset ss2 = confirm_reset ss
    /\ length cleared = length ds
    /\ (forall (i : nat) (d : Dict.t),
          ds !! i = Some d ->
          exists d' : Dict.t,
            cleared !! i = Some d'
            /\ Dict.get "tasks" d' = Some (JList [])
            /\ forall k : string, k <> "tasks" -> Dict.get k d' = Dict.get k d)
    /\ all_tasks (map JDict cleared) = Ok [].
Proof.
  intros Hss.
  exists {| confirm_clear_tasks := true; confirm_reset := confirm_reset ss |},
    {| confirm_clear_tasks := false; confirm_reset := confirm_reset ss |},
    (say Warning "Click again to confirm clearing all tasks" w).
  eexists. exists (map (Dict.set "tasks" (JList [])) ds).
  split; [unfold clear_all_tasks; rewrite Hss; reflexivity |].
  split; [reflexivity |]. split; [reflexivity |].
  split.
  { unfold clear_all_tasks. cbn [confirm_clear_tasks confirm_reset].
    rewrite (bind_ok _ _ _ _ (map JDict (map (Dict.set "tasks" (JList [])) ds)))
      by (unfold lift; rewrite map_r_setitem_tasks, map_map; reflexivity).
    rewrite (bind_ok _ _ _ _ _ (save_data_clients _ _)).
    reflexivity. }
  split; [reflexivity |]. split; [reflexivity |]. split; [reflexivity |].
  split; [apply length_map |].
  split.
  { intros i d Hi. exists (Dict.set "tasks" (JList []) d).
    split; [| split; [apply DictFacts.get_set_eq
                     | intros k Hk; now apply DictFacts.get_set_ne]].
    revert i Hi. induction ds as [|d0 ds IH]; intros [|i] Hi; simpl in *;
      try discriminate Hi.
    - now injection Hi as ->.
    - now apply IH. }
  rewrite map_map. apply all_tasks_cleared.
Qed.

Lemma clear_all_tasks_takes_two_presses_witness :
  exists (ss1 ss2 : session_state) (w1 w2 : world) (cleared : list Dict.t),
    clear_all_tasks [client_with_tasks [call_high; call_low]] unarmed true
      (sample_world Absent)
    = Ok (([client_with_tasks [call_high; call_low]], ss1, Continue), w1)
    /\ clear_all_tasks [client_with_tasks [call_high; call_low]] ss1 true w1
       = Ok ((map JDict cleared, ss2, Rerun), w2)
    /\ all_tasks (map JDict cleared) = Ok [].
Proof.
  destruct (clear_all_tasks_takes_two_presses
              [[("id", JStr "a1b2c3d4"); ("name", JStr "Ana"); ("phone", JStr "555-0100");
                ("email", JStr "office@x.com"); ("status", JStr "Lead");
                ("tasks", JList [call_high; call_low]); ("notes", JList []);
                ("date_added", JStr "2024-01-03"); ("value", JNum 0);
                ("source", JStr "Direct"); ("tags", JList []);
                ("follow_up_date", JStr "2024-02-01")]]
              unarmed (sample_world Absent) eq_refl)
    as (ss1 & ss2 & w1 & w2 & cleared & H1 & _ & _ & H2 & _ & _ & _ & _ & _ & Hall).
  exists ss1, ss2, w1, w2, cleared. split; [exact H1 |]. split; [exact H2 | exact Hall].
Defined.

(** X19.  "Reset CRM" needs two presses as well.  The first press arms
    the button and leaves the file alone; the second writes the empty
    document, after which the next run starts with no clients at all,
    whatever the file held before. *)
Theorem reset_crm_takes_two_presses (ss : session_state) (w : world) :
  confirm_reset ss = false ->
  exists (ss1 ss2 : session_state) (w1 w2 : world),
    reset_crm ss true w = Ok ((ss1, Continue), w1)
    /\ db_file w1 = db_file w
    /\ confirm_reset ss1 = true
    /\ reset_crm ss1 true w1 = Ok ((ss2, Rerun), w2)
    /\ db_file w2 = Stored empty_document
    /\ confirm_reset ss2 = false
    /\ confirm_clear_tasks ss2 = confirm_clear_tasks ss
    /\ startup w2 = Ok (JList [], w2).
Proof.
  intros Hss.
  exists {| confirm_clear_tasks := confirm_clear_tasks ss; confirm_reset := true |},
    {| confirm_clear_tasks := confirm_clear_tasks ss; confirm_reset := false |}.
  eexists. eexists.
  split; [unfold reset_crm; rewrite Hss; reflexivity |].
  split; [reflexivity |]. split; [reflexivity |].
  split; [unfold reset_crm; cbn [confirm_reset confirm_clear_tasks];
          rewrite (bind_ok _ _ _ _ _ (save_data_clients _ _)); reflexivity |].
  repeat split; reflexivity.
Qed.

Lemma reset_crm_takes_two_presses_witness :
  exists (ss1 ss2 : session_state) (w1 w2 : world),
    reset_crm unarmed true (sample_world (Stored (JDict sample_document)))
    = Ok ((ss1, Continue), w1)
    /\ db_file w1 = Stored (JDict sample_document)
    /\ reset_crm ss1 true w1 = Ok ((ss2, Rerun), w2)
    /\ startup w2 = Ok (JList [], w2).
Proof.
  destruct (reset_crm_takes_two_presses unarmed
              (sample_world (Stored (JDict sample_document))) eq_refl)
    as (ss1 & ss2 & w1 & w2 & H1 & Hf & _ & H2 & _ & _ & _ & Hs).
  exists ss1, ss2, w1, w2. repeat split; assumption.
Defined.

(** X20.  Restoring never fails, whatever is uploaded.  An upload that is
    not text or not JSON, and JSON that is [null], a number or a boolean,
    only put an error message on the page and leave the file alone.  Any
    other JSON value replaces the file when the button is pressed: as it
    is when ["clients" in value] holds (nothing else about it is looked
    at), and as the empty document otherwise. *)
Theorem restore_never_fails (uploaded_file : option upload) (button : bool) (w : world) :
  exists (f : flow) (w' : world),
    restore uploaded_file button w = Ok (f, w')
    /\ match uploaded_file with
       | None => f = Continue /\ w' = w
       | Some (Json v) =>
           if button then
             match py_in "clients" v with
             | Ok true =>
                 f = Rerun /\ db_file w' = Stored v
             | Ok false =>
                 f = Rerun /\ db_file w' = Stored empty_document
             | Raise _ =>
                 f = Continue /\ w' = say Error "Error restoring data: {}" w
             end
           else f = Continue /\ w' = w
       | Some _ => f = Continue /\ w' = say Error "Error restoring data: {}" w
       end.
Proof.
  destruct uploaded_file as [[| |v]|]; simpl.
  - eexists. eexists. split; [reflexivity | split; reflexivity].
  - eexists. eexists. split; [reflexivity | split; reflexivity].
  - destruct button.
    + unfold bind, lift, save_data, st_show, ret. simpl.
      destruct (py_in "clients" v) as [[|]|e]; simpl;
        eexists; eexists; (split; [reflexivity | split; reflexivity]).
    + eexists. eexists. split; [reflexivity | split; reflexivity].
  - eexists. eexists. split; [reflexivity | split; reflexivity].
Qed.

(** X21.  What [save_data] has written, [load_data] reads back without
    failure, and the value read has ["clients" in value]: it is the value
    saved when the test held for it and the empty document when it did
    not.  When [save_data] itself fails, it fails with [TypeError], and the
    value was [null], a number or a boolean. *)
Theorem load_data_after_save_data (v : json) (w : world) :
  match save_data v w with
  | Ok (_, w') =>
      exists v' : json,
        load_data w' = Ok (v', w')
        /\ py_in "clients" v' = Ok true
        /\ (py_in "clients" v = Ok true /\ v' = v
            \/ py_in "clients" v = Ok false /\ v' = empty_document)
  | Raise e =>
      e = TypeError /\ (v = JNull \/ (exists b, v = JBool b) \/ (exists n, v = JNum n))
  end.
Proof.
  unfold save_data.
  destruct (py_in "clients" v) as [[|]|e] eqn:Hin; simpl.
  - exists v. unfold load_data. simpl. rewrite Hin. simpl. auto.
  - exists empty_document. split; [reflexivity |]. auto.
  - destruct v; simpl in Hin; try discriminate Hin; injection Hin as <-;
      split; eauto.
Qed.

(** ** The loop at the top of the script, once more *)

Lemma healed_dict_get (today fresh : string) (d : Dict.t) (k : string) :
  k <> "date_added" -> k <> "value" -> k <> "source" -> k <> "id" ->
  k <> "follow_up_date" -> k <> "tags" ->
  Dict.get k (healed_dict today fresh d) = Dict.get k d.
Proof.
  intros H1 H2 H3 H4 H5 H6. unfold healed_dict.
  rewrite !DictFacts.get_set_default.
  apply String.eqb_neq in H1, H2, H3, H5, H6. rewrite H6, H5.
  match goal with
  | |- context [if id_stale ?x then _ else _] => destruct (id_stale x)
  end.
  - rewrite DictFacts.get_set_ne by exact H4.
    rewrite !DictFacts.get_set_default. now rewrite H3, H2, H1.
  - rewrite !DictFacts.get_set_default. now rewrite H3, H2, H1.
Qed.

Lemma healed_dict_is_healed (today fresh : string) (d : Dict.t) :
  py_truthy (JStr fresh) = true -> is_healed (healed_dict today fresh d) = true.
Proof.
  intros Hfresh.
  destruct (healed_dict_fields today fresh d) as (Hdate & Hval & Hsrc & Hfup & Htags & Hid).
  unfold is_healed, id_stale. rewrite !DictFacts.mem_get.
  rewrite Hdate, Hval, Hsrc, Hfup, Htags, Hid.
  unfold id_stale.
  destruct (Dict.get "id" d) as [v|]; [destruct (py_truthy v) eqn:T |];
    cbn [negb default from_option id]; rewrite ?T, ?Hfresh; reflexivity.
Qed.

Lemma healed_list_is_healed (stored : list Dict.t) (w : world) :
  Forall (fun d => is_healed d = true) (healed_list w stored).
Proof.
  revert w. induction stored as [|d rest IH]; intros w; simpl; constructor.
  - apply healed_dict_is_healed, short_id_truthy.
  - apply IH.
Qed.

(** X22.  The loop at the top of the script changes the list in memory
    only: it writes nothing to the file and shows nothing, and it draws one
    identifier per record whose [id] is missing or falsy.  What it leaves is
    a fixed point: once that list has been saved, by any handler in any
    later state, the next run reads it back and the loop changes nothing
    and draws nothing. *)
Theorem healing_is_idempotent (w : world) (doc : Dict.t) (stored : list Dict.t) :
  db_file w = Stored (JDict doc) ->
  Dict.get "clients" doc = Some (JList (map JDict stored)) ->
  exists (healed : list Dict.t) (w' : world),
    startup w = Ok (JList (map JDict healed), w')
    /\ db_file w' = db_file w
    /\ shown w' = shown w
    /\ drawn w' = drawn w + length (filter (fun d => id_stale d = true) stored)
    /\ forall w0 : world,
         startup (write_db (clients_document (map JDict healed)) w0)
         = Ok (JList (map JDict healed),
               write_db (clients_document (map JDict healed)) w0).
Proof.
  intros Hf Hc.
  exists (healed_list w stored), (after_healing w stored).
  split; [now apply (startup_clients w doc) |].
  destruct (after_healing_frame stored w) as (Hfile & _ & _ & Hshown & Hdrawn).
  split; [exact Hfile |]. split; [exact Hshown |].
  split.
  - rewrite Hdrawn. unfold minted_before. now rewrite firstn_all.
  - intros w0. apply startup_after_save, healed_list_is_healed.
Qed.

Lemma healing_is_idempotent_witness :
  exists (healed : list Dict.t) (w' : world),
    startup (sample_world (Stored (JDict sample_document)))
    = Ok (JList (map JDict healed), w')
    /\ drawn w' = 2
    /\ startup (write_db (clients_document (map JDict healed)) w')
       = Ok (JList (map JDict healed),
             write_db (clients_document (map JDict healed)) w').
Proof.
  destruct (healing_is_idempotent
              (sample_world (Stored (JDict sample_document)))
              sample_document sample_stored eq_refl eq_refl)
    as (healed & w' & Hrun & _ & _ & Hdrawn & Hfix).
  exists healed, w'. split; [exact Hrun |]. split; [exact Hdrawn | apply Hfix].
Defined.

(** X23.  The loop never overwrites or removes what a record holds: every
    stored field keeps its value, an [id] when it is truthy; and the loop
    adds nothing under a key other than [date_added], [value], [source],
    [id], [follow_up_date] and [tags]. *)
Theorem healing_keeps_stored_values (w : world) (doc : Dict.t) (stored : list Dict.t) :
  db_file w = Stored (JDict doc) ->
  Dict.get "clients" doc = Some (JList (map JDict stored)) ->
  exists (healed : list Dict.t) (w' : world),
    startup w = Ok (JList (map JDict healed), w')
    /\ forall (i : nat) (d : Dict.t),
         stored !! i = Some d ->
         exists d' : Dict.t,
           healed !! i = Some d'
           /\ (forall (k : string) (v : json),
                 Dict.get k d = Some v ->
                 k <> "id" \/ py_truthy v = true ->
                 Dict.get k d' = Some v)
           /\ (forall k : string,
                 Dict.get k d = None ->
                 k <> "date_added" -> k <> "value" -> k <> "source" -> k <> "id" ->
                 k <> "follow_up_date" -> k <> "tags" ->
                 Dict.get k d' = None).
Proof.
  intros Hf Hc.
  exists (healed_list w stored), (after_healing w stored).
  split; [now apply (startup_clients w doc) |].
  intros i d Hi. eexists. split; [exact (healed_list_lookup _ _ _ _ Hi) |].
  set (today := strftime_ymd (clock w)).
  set (fresh := short_id (urandom w (drawn w + minted_before i stored))).
  destruct (healed_dict_fields today fresh d) as (Hdate & Hval & Hsrc & Hfup & Htags & Hid).
  split.
  - intros k v Hk Hkeep.
    destruct (String.eqb_spec k "date_added") as [->|N1];
      [rewrite Hdate, Hk; reflexivity |].
    destruct (String.eqb_spec k "value") as [->|N2]; [rewrite Hval, Hk; reflexivity |].
    destruct (String.eqb_spec k "source") as [->|N3]; [rewrite Hsrc, Hk; reflexivity |].
    destruct (String.eqb_spec k "follow_up_date") as [->|N4];
      [rewrite Hfup, Hk; reflexivity |].
    destruct (String.eqb_spec k "tags") as [->|N5]; [rewrite Htags, Hk; reflexivity |].
    destruct (String.eqb_spec k "id") as [->|N6].
    + destruct Hkeep as [Hne|Htruthy]; [now destruct Hne |].
      rewrite Hid. unfold id_stale. rewrite Hk, Htruthy. reflexivity.
    + rewrite healed_dict_get by assumption. exact Hk.
  - intros k Hk N1 N2 N3 N4 N5 N6. rewrite healed_dict_get by assumption. exact Hk.
Qed.

Lemma healing_keeps_stored_values_witness :
  exists (healed : list Dict.t) (w' : world),
    startup (sample_world (Stored (JDict sample_document)))
    = Ok (JList (map JDict healed), w')
    /\ exists d' : Dict.t,
         healed !! 1 = Some d'
         /\ Dict.get "name" d' = Some (JStr "Bob")
         /\ Dict.get "value" d' = Some (JNum 7)
         /\ Dict.get "phone" d' = None.
Proof.
  destruct (healing_keeps_stored_values
              (sample_world (Stored (JDict sample_document)))
              sample_document sample_stored eq_refl eq_refl)
    as (healed & w' & Hrun & Hall).
  exists healed, w'. split; [exact Hrun |].
  destruct (Hall 1 [("id", JStr ""); ("name", JStr "Bob"); ("value", JNum 7)] eq_refl)
    as (d' & Hd' & Hkeep & Hnone).
  exists d'. split; [exact Hd' |].
  split; [apply Hkeep; [reflexivity | left; discriminate] |].
  split; [apply Hkeep; [reflexivity | left; discriminate] |].
  apply Hnone; [reflexivity | discriminate..].
Defined.

(** ** A selection that matches no client *)

Lemma find_client_none (clients : list json) (selected_id : string) :
  Forall (fun c => is_record c = true /\ has_id selected_id c = false) clients ->
  find_client clients (JStr selected_id) = Ok None.
Proof.
  intros Hall. unfold find_client.
  rewrite <- (app_nil_r clients).
  now rewrite (find_first_app_miss _ _ _ _ (find_client_miss _ _ Hall)).
Qed.

(** X24.  When the id taken from the selection box is the [id] of no
    client, none of the forms and buttons that work on the selected client
    does anything, whatever is typed and pressed: the edit form, the delete
    button, the add-task form, the add-note form and the delete button of a
    note all leave the list, the file and the page as they are and do not
    end the run. *)
Theorem unknown_selection_changes_nothing
    (clients : list json) (selected_id : string) (w : world)
    (pressed : bool) (f : client_form) (confirm_delete : string)
    (task_desc task_priority : string) (task_due_date : datetime)
    (note_text : string) (idx : nat) :
  Forall (fun c => is_record c = true /\ has_id selected_id c = false) clients ->
  update_client clients selected_id pressed f w = Ok ((clients, Continue), w)
  /\ delete_client clients selected_id confirm_delete pressed w
     = Ok ((clients, Continue), w)
  /\ add_task clients selected_id pressed task_desc task_priority task_due_date w
     = Ok ((clients, Continue), w)
  /\ add_note clients selected_id pressed note_text w = Ok ((clients, Continue), w)
  /\ delete_note clients selected_id idx w = Ok ((clients, Continue), w).
Proof.
  intros Hall. pose proof (find_client_none _ _ Hall) as Hnone.
  unfold update_client, delete_client, client_details, add_task, add_note, delete_note.
  repeat split;
    try (rewrite (bind_ok _ _ w w None) by (unfold lift; now rewrite Hnone);
         reflexivity).
  destruct (pressed && py_truthy (JStr task_desc)); [| reflexivity].
  rewrite (bind_ok _ _ w w None) by (unfold lift; now rewrite Hnone).
  reflexivity.
Qed.

Lemma unknown_selection_changes_nothing_witness :
  update_client sample_clients "Acme" true sample_form (sample_world Absent)
  = Ok ((sample_clients, Continue), sample_world Absent)
  /\ add_note sample_clients "Acme" true "called back" (sample_world Absent)
     = Ok ((sample_clients, Continue), sample_world Absent).
Proof.
  assert (H : Forall (fun c => is_record c = true /\ has_id "Acme" c = false)
                sample_clients)
    by (repeat constructor).
  destruct (unknown_selection_changes_nothing sample_clients "Acme" (sample_world Absent)
              true sample_form "" "" "" (clock (sample_world Absent)) "called back" 0 H)
    as (Hupd & _ & _ & Hnote & _).
  split; [exact Hupd | exact Hnote].
Defined.
